(** * CodeCollab backend: authentication, validation and snippet ownership

    A shallow embedding of the backend services of CodeCollab
    (registration and login, the JWT middleware, the registration
    validator and the snippet service) together with the properties
    their specification states about them.

    Layout: first the embedding, one module per source file (and one
    per library the services call); then the predicates the
    statements are written with and a small sample installation; then
    the statements and their proofs. *)

From Stdlib Require Import ZArith Ascii String.
From stdpp Require Import base strings list gmap sorting.

Local Open Scope Z_scope.
Local Open Scope string_scope.
Local Open Scope list_scope.

(* ================================================================= *)
(** ** JavaScript values and string primitives                        *)
(* ================================================================= *)

(** Strings are sequences of code units; a code unit is an [ascii]
    (code points 0..255, i.e. Latin-1), so [String.length] is the
    [.length] of the JavaScript string. *)
Module Js.

Definition code (c : ascii) : N := N_of_ascii c.

Definition between (lo hi : ascii) (c : ascii) : bool :=
  ((code lo <=? code c) && (code c <=? code hi))%N.

(** [String.prototype.toLowerCase] on one code unit: A-Z and the
    Latin-1 capitals U+00C0..U+00DE (without the sign U+00D7). *)
Definition lower_char (c : ascii) : ascii :=
  if between "A" "Z" c then ascii_of_N (code c + 32)
  else if ((192 <=? code c) && (code c <=? 222) && negb (code c =? 215))%N
       then ascii_of_N (code c + 32)
  else c.

Fixpoint toLowerCase (s : string) : string :=
  match s with
  | EmptyString => EmptyString
  | String c r => String (lower_char c) (toLowerCase r)
  end.

(** White space removed by [trim]: TAB, LF, VT, FF, CR, SP, NBSP. *)
Definition is_space (c : ascii) : bool :=
  ((9 <=? code c) && (code c <=? 13) || (code c =? 32) || (code c =? 160))%N.

Fixpoint trimStart (s : string) : string :=
  match s with
  | EmptyString => EmptyString
  | String c r => if is_space c then trimStart r else s
  end.

Fixpoint trimEnd (s : string) : string :=
  match s with
  | EmptyString => EmptyString
  | String c r =>
      match trimEnd r with
      | EmptyString => if is_space c then EmptyString else String c EmptyString
      | r' => String c r'
      end
  end.

Definition trim (s : string) : string := trimEnd (trimStart s).

(** [s.startsWith(p)] *)
Definition startsWith (s p : string) : bool := String.prefix p s.

(** [s.substring(n)]: the code units from index [n] to the end. *)
Fixpoint substring (s : string) (n : nat) {struct n} : string :=
  match n, s with
  | O, _ => s
  | S _, EmptyString => EmptyString
  | S n', String _ r => substring r n'
  end.

(** [a.includes(b)] on the code units (used for substring search). *)
Fixpoint includes (hay needle : string) : bool :=
  String.prefix needle hay ||
  match hay with
  | EmptyString => false
  | String _ r => includes r needle
  end.

(** [arr.join(sep)] *)
Fixpoint join (sep : string) (l : list string) : string :=
  match l with
  | [] => ""
  | [x] => x
  | x :: r => x +:+ sep +:+ join sep r
  end.

(** Truthiness of a string and of an optional string
    ([undefined] is [None]). *)
Definition truthy (s : string) : bool := negb (String.eqb s "").

Definition truthy_opt (o : option string) : bool :=
  match o with
  | None => false
  | Some s => truthy s
  end.

(** Values stored in the fields of the plain objects the services
    return. *)
Inductive value :=
| VUndefined
| VNull
| VBool (b : bool)
| VNumber (n : Z)
| VString (s : string)
| VDate (t : Z).

(** [s | null] *)
Definition nullable (o : option string) : value :=
  match o with
  | None => VNull
  | Some s => VString s
  end.

(** Error classes that the code tests with [instanceof], and the
    prototype chain of each.  [TokenExpiredError] and [NotBeforeError]
    are defined by jsonwebtoken with
    [Object.create(JsonWebTokenError.prototype)] as prototype. *)
Inductive error_class :=
| Error
| AuthError
| SnippetError
| JsonWebTokenError
| TokenExpiredError
| NotBeforeError
| SyntaxError
| PrismaClientKnownRequestError
| PrismaClientUnknownRequestError
| PrismaClientInitializationError
| PrismaClientValidationError.

#[export] Instance error_class_eq_dec : EqDecision error_class.
Proof. solve_decision. Defined.

Definition prototype_chain (c : error_class) : list error_class :=
  match c with
  | Error => [Error]
  | AuthError => [AuthError; Error]
  | SnippetError => [SnippetError; Error]
  | JsonWebTokenError => [JsonWebTokenError; Error]
  | TokenExpiredError => [TokenExpiredError; JsonWebTokenError; Error]
  | NotBeforeError => [NotBeforeError; JsonWebTokenError; Error]
  | SyntaxError => [SyntaxError; Error]
  | PrismaClientKnownRequestError => [PrismaClientKnownRequestError; Error]
  | PrismaClientUnknownRequestError => [PrismaClientUnknownRequestError; Error]
  | PrismaClientInitializationError => [PrismaClientInitializationError; Error]
  | PrismaClientValidationError => [PrismaClientValidationError; Error]
  end.

(** A thrown error object: its class, its [message], and the extra
    property the class carries ([statusCode] for [AuthError] and
    [SnippetError], [code] for a Prisma request error). *)
Record exn := Exn {
  exn_class : error_class;
  exn_message : string;
  exn_statusCode : option Z;
  exn_code : option string
}.

Definition instanceof (e : exn) (c : error_class) : bool :=
  bool_decide (c ∈ prototype_chain (exn_class e)).

(** [new AuthError(message, statusCode)] and
    [new SnippetError(message, statusCode)] *)
Definition new_AuthError (message : string) (statusCode : Z) : exn :=
  Exn AuthError message (Some statusCode) None.

Definition new_SnippetError (message : string) (statusCode : Z) : exn :=
  Exn SnippetError message (Some statusCode) None.

(** How the evaluation of an expression ends: with a value, or with
    a thrown error. *)
Inductive completion (A : Type) :=
| Normal (a : A)
| Throw (e : exn).
Arguments Normal {A} a.
Arguments Throw {A} e.

End Js.

(* ================================================================= *)
(** ** The part of zod that [registerSchema] uses                     *)
(* ================================================================= *)

Module Zod.

Record issue := Issue {
  issue_path : list string;
  issue_message : string
}.

Inductive parse_result (A : Type) :=
| ParseSuccess (data : A)
| ParseFailure (issues : list issue).
Arguments ParseSuccess {A} data.
Arguments ParseFailure {A} issues.

(** A character class [[lo1-hi1 lo2-hi2 ...]] as its list of ranges;
    a single character is the range from itself to itself. *)
Definition char_class := list (ascii * ascii).

Definition class_matches (cls : char_class) (c : ascii) : bool :=
  existsb (λ r, Js.between r.1 r.2 c) cls.

(** Regular expressions of the shape [/^[cls]+$/] (no flags, so [$]
    only matches at the end of the input). *)
Inductive regexp :=
| AnchoredPlus (cls : char_class).

Definition regexp_test (r : regexp) (s : string) : bool :=
  match r with
  | AnchoredPlus cls =>
      match list_ascii_of_string s with
      | [] => false
      | cs => forallb (class_matches cls) cs
      end
  end.

(** The checks chained on [z.string()]. *)
Inductive string_check :=
| Min (n : nat) (message : string)
| Max (n : nat) (message : string)
| Regex (r : regexp) (message : string)
| ToLowerCase
| Trim.

Record string_schema := StringSchema {
  type_message : string;
  checks : list string_check
}.

(** One check on the payload [(value, issues)]: a validating check
    appends its issue when it fails, an overwriting check replaces
    the value. *)
Definition run_check (path : list string) (ch : string_check)
    (payload : string * list issue) : string * list issue :=
  let '(v, issues) := payload in
  match ch with
  | Min n m =>
      if (String.length v <? n)%nat then (v, issues ++ [Issue path m]) else (v, issues)
  | Max n m =>
      if (n <? String.length v)%nat then (v, issues ++ [Issue path m]) else (v, issues)
  | Regex r m =>
      if regexp_test r v then (v, issues) else (v, issues ++ [Issue path m])
  | ToLowerCase => (Js.toLowerCase v, issues)
  | Trim => (Js.trim v, issues)
  end.

(** The issues of these checks do not abort the run: every check of
    the chain is executed, in order. *)
Definition runChecks (path : list string) (chs : list string_check)
    (payload : string * list issue) : string * list issue :=
  fold_left (λ p ch, run_check path ch p) chs payload.

Definition parse_string (sch : string_schema) (path : list string)
    (input : Js.value) : parse_result string :=
  match input with
  | Js.VString s =>
      let '(v, issues) := runChecks path (checks sch) (s, []) in
      match issues with
      | [] => ParseSuccess v
      | _ => ParseFailure issues
      end
  | _ => ParseFailure [Issue path (type_message sch)]
  end.

End Zod.

(* ================================================================= *)
(** ** schemas/authSchema.ts and middleware/validation.ts             *)
(* ================================================================= *)

Module AuthSchema.
Import Zod.

(** The [username] member of [registerSchema]. *)
Definition registerSchema_username : string_schema :=
  StringSchema "Nome de usuário deve ser uma string"
    [ Min 3 "Nome de usuário deve ter no mínimo 3 caracteres";
      Max 30 "Nome de usuário deve ter no máximo 30 caracteres";
      Regex (AnchoredPlus [("a", "z"); ("A", "Z"); ("0", "9"); ("_", "_")]%char)
        "Nome de usuário pode conter apenas letras, números e underscore";
      ToLowerCase;
      Trim ].

(** [registerSchema.parse] on the [username] property of the body. *)
Definition parse_username (input : Js.value) : parse_result string :=
  parse_string registerSchema_username ["username"] input.

(** The [{field, message}] entries [validateSchema] sends with its
    400 response. *)
Record field_error := FieldError {
  field : string;
  message : string
}.

Definition formattedErrors (issues : list issue) : list field_error :=
  map (λ err, FieldError (Js.join "." (issue_path err)) (issue_message err)) issues.

End AuthSchema.

(* ================================================================= *)
(** ** jsonwebtoken: [sign] and [verify]                              *)
(* ================================================================= *)

Module Jwt.

(** The payload object of a token: the three claims the services
    put in it and the registered claims [jwt.sign] adds. *)
Record claims := Claims {
  id : string;
  email : string;
  username : string;
  iat : Z;
  exp : Z;
  iss : string;
  sub : string
}.

(** A token in decoded form: its payload and the secret its HS256
    signature was computed with. *)
Record jws := Jws {
  jws_payload : claims;
  jws_key : string
}.

(** The compact serialization (base64url and HMAC), kept abstract:
    [decode] is [None] on a string that is not a well-formed token. *)
Record codec := Codec {
  encode : jws -> string;
  decode : string -> option jws
}.

(** [jwt.sign({id, email, username}, secret,
              {expiresIn: '1h', issuer, subject})] at time [now]
    (seconds). *)
Definition sign (c : codec) (now : Z) (id email username : string)
    (secret : string) (issuer subject : string) : string :=
  encode c (Jws (Claims id email username now (now + 3600) issuer subject) secret).

(** [jwt.verify(token, secret)] at time [now]: presence, format,
    then signature, then expiration ([now >= exp] is expired).
    These are the four rejections [jwt.verify] makes itself.  It
    also passes on whatever the decoding of the token throws (the
    [SyntaxError] of [JSON.parse] on a payload that is not JSON
    under a header with [typ: "JWT"]); a codec has no such tokens,
    so the callers of [jwt.verify] are also given with the call as
    a parameter ([authenticateToken_with], [verifyToken_with],
    [profile_route_with]), and what is proved of all rejections is
    proved of those. *)
Definition verify (c : codec) (now : Z) (token : string) (secret : string)
    : Js.completion claims :=
  if negb (Js.truthy token) then
    Js.Throw (Js.Exn Js.JsonWebTokenError "jwt must be provided" None None)
  else
    match decode c token with
    | None => Js.Throw (Js.Exn Js.JsonWebTokenError "jwt malformed" None None)
    | Some t =>
        if negb (String.eqb (jws_key t) secret)
        then Js.Throw (Js.Exn Js.JsonWebTokenError "invalid signature" None None)
        else if (exp (jws_payload t) <=? now)%Z
        then Js.Throw (Js.Exn Js.TokenExpiredError "jwt expired" None None)
        else Js.Normal (jws_payload t)
    end.

End Jwt.

(* ================================================================= *)
(** ** middleware/auth.ts                                             *)
(* ================================================================= *)

Module AuthMiddleware.

(** The parts of the Express request the middleware reads and
    writes: [req.headers.authorization] and [req.user]. *)
Record request := Request {
  authorization : option string;
  user : option Jwt.claims
}.

Record body := Body {
  success : bool;
  error : string;
  message : string
}.

(** What a middleware does with a request: it answers it itself
    ([res.status(..).json(..)]) or it calls [next()]. *)
Inductive outcome :=
| Respond (status : Z) (json : body)
| Next (req : request).

(** [authHeader.startsWith('Bearer ') ? authHeader.substring(7)
                                      : authHeader] *)
Definition extract_token (authHeader : string) : string :=
  if Js.startsWith authHeader "Bearer "
  then Js.substring authHeader 7
  else authHeader.

(** [authenticateToken], with the call [jwt.verify(token,
    config.jwtSecret)] as the parameter [verify]. *)
Definition authenticateToken_with (verify : string -> Js.completion Jwt.claims)
    (req : request) : outcome :=
  let authHeader := authorization req in
  if negb (Js.truthy_opt authHeader) then
    Respond 401 (Body false "Token de acesso necessário"
                   "Authorization header não fornecido")
  else
    let token := extract_token (default "" authHeader) in
    if negb (Js.truthy token) then
      Respond 401 (Body false "Token de acesso necessário" "Token não fornecido")
    else
      match verify token with
      | Js.Normal decoded =>
          Next (Request (authorization req) (Some decoded))
      | Js.Throw error =>
          if Js.instanceof error Js.JsonWebTokenError then
            Respond 401 (Body false "Token inválido"
                           "Token JWT inválido ou malformado")
          else if Js.instanceof error Js.TokenExpiredError then
            Respond 401 (Body false "Token expirado" "Token JWT expirado")
          else
            Respond 500 (Body false "Erro interno do servidor"
                           "Erro durante autenticação")
      end.

Section Middleware.
Variable jwt : Jwt.codec.
Variable jwtSecret : string.   (* config.jwtSecret *)
Variable now : Z.              (* the clock, in seconds *)

Definition authenticateToken (req : request) : outcome :=
  authenticateToken_with (λ token, Jwt.verify jwt now token jwtSecret) req.

Definition optionalAuth (req : request) : outcome :=
  let authHeader := authorization req in
  if negb (Js.truthy_opt authHeader) then
    Next req
  else
    let token := extract_token (default "" authHeader) in
    if negb (Js.truthy token) then
      Next req
    else
      match Jwt.verify jwt now token jwtSecret with
      | Js.Normal decoded =>
          Next (Request (authorization req) (Some decoded))
      | Js.Throw tokenError =>
          Next req
      end.

End Middleware.

End AuthMiddleware.

(* ================================================================= *)
(** ** prisma/schema.prisma and the Prisma client                     *)
(* ================================================================= *)

(** The models of [schema.prisma].  The [@id] column of a model is the
    key of its table; [DateTime] values are milliseconds. *)
Module User.
Record t := Row {
  email : string;            (* @unique *)
  username : string;         (* @unique *)
  password : string;         (* hashed password *)
  firstName : option string;
  lastName : option string;
  avatar : option string;
  bio : option string;
  points : Z;                (* @default(0) *)
  level : Z;                 (* @default(1) *)
  createdAt : Z;             (* @default(now()) *)
  updatedAt : Z              (* @updatedAt *)
}.
End User.

Module Snippet.
Record t := Row {
  title : string;
  description : option string;
  content : string;
  language : string;
  tags : list string;
  isPublic : bool;           (* @default(true) *)
  views : Z;                 (* @default(0) *)
  likes : Z;                 (* @default(0) *)
  createdAt : Z;             (* @default(now()) *)
  updatedAt : Z;             (* @updatedAt *)
  authorId : string
}.
End Snippet.

Module Review.
Record t := Row {
  content : string;
  rating : Z;
  createdAt : Z;
  updatedAt : Z;
  snippetId : string;
  reviewerId : string
}.
End Review.

Module PointTransaction.
Inductive TransactionType := EARNED | SPENT | BONUS | PENALTY.
Record t := Row {
  amount : Z;
  reason : string;
  type : TransactionType;
  createdAt : Z;
  userId : string
}.
End PointTransaction.

Module Badge.
Record t := Row {
  name : string;             (* @unique *)
  description : string;
  iconUrl : option string;
  pointValue : Z;
  color : string;
  category : string;
  createdAt : Z
}.
End Badge.

Module UserBadge.
Record t := Row {
  earnedAt : Z;
  userId : string;           (* @@unique([userId, badgeId]) *)
  badgeId : string
}.
End UserBadge.

Module Prisma.

Record Db := MkDb {
  users : gmap string User.t;
  snippets : gmap string Snippet.t;
  reviews : gmap string Review.t;
  pointTransactions : gmap string PointTransaction.t;
  badges : gmap string Badge.t;
  userBadges : gmap string UserBadge.t
}.

Definition empty_db : Db := MkDb ∅ ∅ ∅ ∅ ∅ ∅.

Definition set_users (f : gmap string User.t -> gmap string User.t) (d : Db) : Db :=
  MkDb (f (users d)) (snippets d) (reviews d) (pointTransactions d) (badges d)
    (userBadges d).
Definition set_snippets (f : gmap string Snippet.t -> gmap string Snippet.t)
    (d : Db) : Db :=
  MkDb (users d) (f (snippets d)) (reviews d) (pointTransactions d) (badges d)
    (userBadges d).
Definition set_reviews (f : gmap string Review.t -> gmap string Review.t) (d : Db) : Db :=
  MkDb (users d) (snippets d) (f (reviews d)) (pointTransactions d) (badges d)
    (userBadges d).
Definition set_pointTransactions
    (f : gmap string PointTransaction.t -> gmap string PointTransaction.t)
    (d : Db) : Db :=
  MkDb (users d) (snippets d) (reviews d) (f (pointTransactions d)) (badges d)
    (userBadges d).
Definition set_userBadges (f : gmap string UserBadge.t -> gmap string UserBadge.t)
    (d : Db) : Db :=
  MkDb (users d) (snippets d) (reviews d) (pointTransactions d) (badges d)
    (f (userBadges d)).

(** The calls the services make on the client, one per call site
    kind (model, action and, for [findUnique], the unique key). *)
Inductive op :=
| UserFindUniqueByEmail
| UserFindUniqueByUsername
| UserFindUniqueById
| UserCreate
| UserUpdate
| PointTransactionCreate
| BadgeFindUniqueByName
| UserBadgeFindUnique
| UserBadgeCreate
| SnippetFindUnique
| SnippetFindMany
| SnippetCount
| SnippetUpdate
| SnippetDelete.

#[export] Instance op_eq_dec : EqDecision op.
Proof. solve_decision. Defined.

(** What a request cannot control.  [fault o] is the error with
    which the call [o] is rejected for a reason outside the data
    (lost connection, timeout); [concurrent o] are the writes other
    requests commit while this request is suspended before the
    database executes [o]; [cuid] numbers the ids [@default(cuid())]
    generates; [collate a b] says that [a] sorts before or with [b]
    in the collation of the database. *)
Record env := Env {
  fault : op -> option Js.exn;
  concurrent : op -> Db -> Db;
  cuid : nat -> string;
  collate : string -> string -> bool
}.

(** The state a request runs in: the database, the clock
    ([Date.now()], milliseconds), the number of ids and of bcrypt
    salts generated so far, and what was written with
    [console.error] (label and error, latest last). *)
Record world := World {
  db : Db;
  clock : Z;
  ids : nat;
  salts : nat;
  console : list (string * Js.exn)
}.

Definition set_db (f : Db -> Db) (w : world) : world :=
  World (f (db w)) (clock w) (ids w) (salts w) (console w).

(** Asynchronous code: a state transformer that ends with a value or
    with a thrown error (a rejected promise). *)
Definition M (A : Type) : Type := world -> Js.completion A * world.

Definition ret {A} (a : A) : M A := λ w, (Js.Normal a, w).

Definition throw {A} (e : Js.exn) : M A := λ w, (Js.Throw e, w).

Definition bind {A B} (m : M A) (k : A -> M B) : M B :=
  λ w, match m w with
       | (Js.Normal a, w') => k a w'
       | (Js.Throw e, w') => (Js.Throw e, w')
       end.

(** [try { m } catch (error) { h error }] *)
Definition try_catch {A} (m : M A) (h : Js.exn -> M A) : M A :=
  λ w, match m w with
       | (Js.Normal a, w') => (Js.Normal a, w')
       | (Js.Throw e, w') => h e w'
       end.

(** [console.error(label, error)] *)
Definition console_error (label : string) (error : Js.exn) : M unit :=
  λ w, (Js.Normal tt,
        World (db w) (clock w) (ids w) (salts w) (console w ++ [(label, error)])).

(** A synchronous call that may throw. *)
Definition lift {A} (c : Js.completion A) : M A := λ w, (c, w).

(** [await Promise.all([p1, p2, p3])]: the three operations are all
    started and all run to their end; the result is rejected with
    the first rejection of the array, if there is one. *)
Definition promise_all3 {A B C} (p1 : M A) (p2 : M B) (p3 : M C) : M (A * B * C) :=
  λ w, let '(r1, w1) := p1 w in
       let '(r2, w2) := p2 w1 in
       let '(r3, w3) := p3 w2 in
       match r1, r2, r3 with
       | Js.Normal a, Js.Normal b, Js.Normal c => (Js.Normal (a, b, c), w3)
       | Js.Throw e, _, _ => (Js.Throw e, w3)
       | _, Js.Throw e, _ => (Js.Throw e, w3)
       | _, _, Js.Throw e => (Js.Throw e, w3)
       end.

Definition promise_all2 {A B} (p1 : M A) (p2 : M B) : M (A * B) :=
  λ w, let '(r1, w1) := p1 w in
       let '(r2, w2) := p2 w1 in
       match r1, r2 with
       | Js.Normal a, Js.Normal b => (Js.Normal (a, b), w2)
       | Js.Throw e, _ => (Js.Throw e, w2)
       | _, Js.Throw e => (Js.Throw e, w2)
       end.

(** A call on the client: the concurrent writes land, then the call
    is rejected by its fault or executed on the database. *)
Definition call {A} (e : env) (o : op) (run : M A) : M A :=
  λ w, let w1 := set_db (concurrent e o) w in
       match fault e o with
       | Some err => (Js.Throw err, w1)
       | None => run w1
       end.

(** Errors of the query engine. *)
Definition P2002 (target : string) : Js.exn :=
  Js.Exn Js.PrismaClientKnownRequestError
    ("Unique constraint failed on the fields: " +:+ target) None (Some "P2002").
Definition P2003 (target : string) : Js.exn :=
  Js.Exn Js.PrismaClientKnownRequestError
    ("Foreign key constraint violated: " +:+ target) None (Some "P2003").
Definition P2025 : Js.exn :=
  Js.Exn Js.PrismaClientKnownRequestError
    "Record to update not found." None (Some "P2025").
Definition validation_error (what : string) : Js.exn :=
  Js.Exn Js.PrismaClientValidationError what None None.

(** Errors of the database the query engine has no code for. *)
Definition database_error (what : string) : Js.exn :=
  Js.Exn Js.PrismaClientUnknownRequestError what None None.

(** The columns declared [Int] are 32-bit integers ([INTEGER]): the
    database refuses a value outside of the range. *)
Definition int4_max : Z := 2147483647.
Definition int4_min : Z := -2147483648.

Definition in_int4 (n : Z) : bool := (int4_min <=? n)%Z && (n <=? int4_max)%Z.

Definition integer_out_of_range : Js.exn := database_error "integer out of range".

(** [skip] and [take] are 64-bit integers for the client. *)
Definition int8_max : Z := 9223372036854775807.
Definition int8_min : Z := -9223372036854775808.

Definition in_int8 (n : Z) : bool := (int8_min <=? n)%Z && (n <=? int8_max)%Z.

(** The columns declared [String] are [text]: the database refuses a
    string that holds the code unit 0. *)
Definition storable (s : string) : bool :=
  forallb (λ c, negb (Js.code c =? 0)%N) (list_ascii_of_string s).

Definition storable_opt (o : option string) : bool :=
  match o with
  | None => true
  | Some s => storable s
  end.

Definition invalid_byte_sequence : Js.exn :=
  database_error "invalid byte sequence for encoding UTF8: 0x00".

(** The first row of a table that satisfies [p]. *)
Definition find_row {R} (p : R -> bool) (t : gmap string R) : option (string * R) :=
  List.find (λ kv, p kv.2) (map_to_list t).

Definition has_row {R} (p : R -> bool) (t : gmap string R) : bool :=
  match find_row p t with
  | Some _ => true
  | None => false
  end.

(** Plain objects, as the client returns them. *)
Abbreviation object := (gmap string Js.value).

Definition user_object (id : string) (u : User.t) : object :=
  list_to_map
    [ ("id", Js.VString id);
      ("email", Js.VString (User.email u));
      ("username", Js.VString (User.username u));
      ("password", Js.VString (User.password u));
      ("firstName", Js.nullable (User.firstName u));
      ("lastName", Js.nullable (User.lastName u));
      ("avatar", Js.nullable (User.avatar u));
      ("bio", Js.nullable (User.bio u));
      ("points", Js.VNumber (User.points u));
      ("level", Js.VNumber (User.level u));
      ("createdAt", Js.VDate (User.createdAt u));
      ("updatedAt", Js.VDate (User.updatedAt u)) ].

(** [select: { k1: true, k2: true, ... }]: the object with exactly
    the selected columns. *)
Definition select (keys : list string) (o : object) : object :=
  filter (λ kv, kv.1 ∈ keys) o.

Definition select_user (keys : list string) (r : string * User.t) : object :=
  select keys (user_object r.1 r.2).

(** The [where] argument of the snippet queries: the members of an
    [OR] list, and the object with its optional properties (all the
    properties that are present must hold). *)
Inductive SnippetCond :=
| CondIsPublic (b : bool)
| CondAuthorId (a : string)
| CondTitleContains (s : string)          (* mode: 'insensitive' *)
| CondDescriptionContains (s : string)    (* mode: 'insensitive' *)
| CondContentContains (s : string).       (* mode: 'insensitive' *)

Record SnippetWhere := Where {
  where_isPublic : option bool;
  where_OR : option (list SnippetCond);
  where_language : option string;
  where_authorId : option string;
  where_tags_has : option string
}.

(** [LIKE] on code units: in the pattern [%] stands for any sequence
    of code units, [_] for any one code unit, and a backslash takes
    the code unit after it literally. *)
Fixpoint like (p s : list ascii) {struct p} : bool :=
  match p with
  | [] =>
      match s with
      | [] => true
      | _ :: _ => false
      end
  | c :: p' =>
      if (Js.code c =? 37)%N then            (* % *)
        (fix any (s : list ascii) : bool :=
           like p' s ||
           match s with
           | [] => false
           | _ :: s' => any s'
           end) s
      else if (Js.code c =? 95)%N then       (* _ *)
        match s with
        | [] => false
        | _ :: s' => like p' s'
        end
      else if (Js.code c =? 92)%N then       (* backslash *)
        match p' with
        | [] => false   (* not reached by [contains]: its pattern ends with [%] *)
        | d :: p'' =>
            match s with
            | [] => false
            | x :: s' => Ascii.eqb d x && like p'' s'
            end
        end
      else
        match s with
        | [] => false
        | x :: s' => Ascii.eqb c x && like p' s'
        end
  end.

(** [{ contains: needle, mode: 'insensitive' }]: the query is
    [hay ILIKE '%' || needle || '%'], and the client does not escape
    the [%], [_] and backslashes of [needle]. *)
Definition contains_insensitive (hay needle : string) : bool :=
  like (list_ascii_of_string ("%" +:+ Js.toLowerCase needle +:+ "%"))
    (list_ascii_of_string (Js.toLowerCase hay)).

Definition cond_holds (s : Snippet.t) (c : SnippetCond) : bool :=
  match c with
  | CondIsPublic b => Bool.eqb (Snippet.isPublic s) b
  | CondAuthorId a => String.eqb (Snippet.authorId s) a
  | CondTitleContains x => contains_insensitive (Snippet.title s) x
  | CondDescriptionContains x =>
      match Snippet.description s with
      | Some d => contains_insensitive d x
      | None => false
      end
  | CondContentContains x => contains_insensitive (Snippet.content s) x
  end.

Definition if_present {A} (o : option A) (p : A -> bool) : bool :=
  match o with
  | None => true
  | Some a => p a
  end.

Definition where_holds (wh : SnippetWhere) (s : Snippet.t) : bool :=
  if_present (where_isPublic wh) (λ b, Bool.eqb (Snippet.isPublic s) b) &&
  if_present (where_OR wh) (λ cs, existsb (cond_holds s) cs) &&
  if_present (where_language wh) (λ l, String.eqb (Snippet.language s) l) &&
  if_present (where_authorId wh) (λ a, String.eqb (Snippet.authorId s) a) &&
  if_present (where_tags_has wh) (λ t, existsb (String.eqb t) (Snippet.tags s)).

Inductive SortField := ByCreatedAt | ByUpdatedAt | ByViews | ByLikes | ByTitle.
Inductive SortOrder := Asc | Desc.

(** The order of a column; text is ordered by the database, with
    its collation [le]. *)
Definition field_leb (le : string -> string -> bool) (f : SortField)
    (a b : Snippet.t) : bool :=
  match f with
  | ByCreatedAt => (Snippet.createdAt a <=? Snippet.createdAt b)%Z
  | ByUpdatedAt => (Snippet.updatedAt a <=? Snippet.updatedAt b)%Z
  | ByViews => (Snippet.views a <=? Snippet.views b)%Z
  | ByLikes => (Snippet.likes a <=? Snippet.likes b)%Z
  | ByTitle => le (Snippet.title a) (Snippet.title b)
  end.

(** [orderBy: { field: order }] as the relation "may come before". *)
Definition before (le : string -> string -> bool) (f : SortField) (o : SortOrder)
    (x y : string * Snippet.t) : Prop :=
  match o with
  | Asc => Is_true (field_leb le f x.2 y.2)
  | Desc => Is_true (field_leb le f y.2 x.2)
  end.

#[export] Instance before_dec le f o x y : Decision (before le f o x y).
Proof. unfold before. destruct o; apply _. Defined.

(** [skip] and [take] on the ordered rows.  A [skip] that is negative
    or does not fit 64 bits is rejected by the client; a negative
    [take] counts from the end. *)
Definition paginate {A} (skip take : Z) (l : list A) : list A :=
  if (0 <=? take)%Z
  then firstn (Z.to_nat take) (skipn (Z.to_nat skip) l)
  else rev (firstn (Z.to_nat (- take)) (skipn (Z.to_nat skip) (rev l))).

(** [include: { author: { select: {...} } }] *)
Definition author_of (d : Db) (s : Snippet.t) : option object :=
  (λ u, select ["id"; "username"; "firstName"; "lastName"; "avatar"]
          (user_object (Snippet.authorId s) u))
  <$> users d !! Snippet.authorId s.

(** [include: { _count: { select: { reviews: true } } }] *)
Definition count_reviews (d : Db) (snippetId : string) : Z :=
  Z.of_nat (length (filter (λ kv, Review.snippetId kv.2 = snippetId)
                      (map_to_list (reviews d)))).

(** A snippet with its included relations. *)
Record SnippetResult := Result {
  id : string;
  snippet : Snippet.t;
  author : option object;
  reviews_of : list (string * Review.t * option object);
  _count_reviews : Z
}.

Definition newest_first (a b : string * Review.t) : Prop :=
  (Review.createdAt b.2 <= Review.createdAt a.2)%Z.

#[export] Instance newest_first_dec a b : Decision (newest_first a b).
Proof. unfold newest_first. apply _. Defined.

(** [include: { reviews: { include: { reviewer: {...} },
                           orderBy: { createdAt: 'desc' } } }] *)
Definition reviews_with_reviewer (d : Db) (snippetId : string)
    : list (string * Review.t * option object) :=
  map (λ kv : string * Review.t,
         (kv.1, kv.2,
          (λ u, select ["id"; "username"; "firstName"; "lastName"; "avatar"]
                  (user_object (Review.reviewerId kv.2) u))
          <$> users d !! Review.reviewerId kv.2))
    (merge_sort newest_first
       (filter (λ kv, Review.snippetId kv.2 = snippetId) (map_to_list (reviews d)))).

Record UserCreateInput := UserData {
  data_email : string;
  data_username : string;
  data_password : string;
  data_firstName : option string;
  data_lastName : option string
}.

(** Every string of the new user can be stored. *)
Definition storable_user (data : UserCreateInput) : bool :=
  storable (data_email data) && storable (data_username data) &&
  storable (data_password data) && storable_opt (data_firstName data) &&
  storable_opt (data_lastName data).

(** The writable columns of a snippet, each optional
    ([UpdateSnippetInput]); [description] may also be set to
    [null]. *)
Record SnippetUpdateInput := SnippetData {
  data_title : option string;
  data_description : option (option string);
  data_content : option string;
  data_language : option string;
  data_tags : option (list string);
  data_isPublic : option bool
}.

(** Every string the update writes can be stored. *)
Definition storable_update (data : SnippetUpdateInput) : bool :=
  storable_opt (data_title data) &&
  storable_opt (default None (data_description data)) &&
  storable_opt (data_content data) && storable_opt (data_language data) &&
  forallb storable (default [] (data_tags data)).

End Prisma.

(** The queries the services send, on a database in environment [e]. *)
Module PrismaClient.
Import Prisma.

Section Client.
Variable e : env.

(** The next [cuid()]. *)
Definition fresh_id (w : world) : string * world :=
  (cuid e (ids w), World (db w) (clock w) (S (ids w)) (salts w) (console w)).

(** [prisma.user.findUnique({ where: { email } })] *)
Definition user_findUnique_email (email : string) : M (option (string * User.t)) :=
  call e UserFindUniqueByEmail (λ w,
    (Js.Normal (find_row (λ u, String.eqb (User.email u) email) (users (db w))), w)).

(** [prisma.user.findUnique({ where: { username } })] *)
Definition user_findUnique_username (username : string)
    : M (option (string * User.t)) :=
  call e UserFindUniqueByUsername (λ w,
    (Js.Normal (find_row (λ u, String.eqb (User.username u) username) (users (db w))),
     w)).

(** [prisma.user.findUnique({ where: { id } })] *)
Definition user_findUnique_id (id : string) : M (option (string * User.t)) :=
  call e UserFindUniqueById (λ w,
    (Js.Normal ((λ u, (id, u)) <$> users (db w) !! id), w)).

(** [prisma.user.create({ data })]: the database reads the values,
    then checks the unique indexes on [email] and [username]. *)
Definition user_create (data : UserCreateInput) : M (string * User.t) :=
  call e UserCreate (λ w0,
    let '(id, w) := fresh_id w0 in
    let t := users (db w) in
    if negb (storable_user data) then (Js.Throw invalid_byte_sequence, w)
    else if has_row (λ u, String.eqb (User.email u) (data_email data)) t then
      (Js.Throw (P2002 "(`email`)"), w)
    else if has_row (λ u, String.eqb (User.username u) (data_username data)) t then
      (Js.Throw (P2002 "(`username`)"), w)
    else if bool_decide (is_Some (t !! id)) then
      (Js.Throw (P2002 "(`id`)"), w)
    else
      let row := User.Row (data_email data) (data_username data) (data_password data)
                   (data_firstName data) (data_lastName data) None None
                   0 1 (clock w) (clock w) in
      (Js.Normal (id, row), set_db (set_users <[id := row]>) w)).

(** [prisma.user.update({ where: { id },
                          data: { points: { increment } } })] *)
Definition user_update_points_increment (id : string) (increment : Z)
    : M (string * User.t) :=
  call e UserUpdate (λ w,
    match users (db w) !! id with
    | None => (Js.Throw P2025, w)
    | Some u =>
        if negb (in_int4 (User.points u + increment)) then
          (Js.Throw integer_out_of_range, w)
        else
          let row := User.Row (User.email u) (User.username u) (User.password u)
                       (User.firstName u) (User.lastName u) (User.avatar u) (User.bio u)
                       (User.points u + increment) (User.level u)
                       (User.createdAt u) (clock w) in
          (Js.Normal (id, row), set_db (set_users <[id := row]>) w)
    end).

(** [prisma.pointTransaction.create({ data })] *)
Definition pointTransaction_create (userId : string) (amount : Z) (reason : string)
    (type : PointTransaction.TransactionType) : M (string * PointTransaction.t) :=
  call e PointTransactionCreate (λ w0,
    let '(id, w) := fresh_id w0 in
    if negb (bool_decide (is_Some (users (db w) !! userId))) then
      (Js.Throw (P2003 "point_transactions_userId_fkey"), w)
    else if bool_decide (is_Some (pointTransactions (db w) !! id)) then
      (Js.Throw (P2002 "(`id`)"), w)
    else
      let row := PointTransaction.Row amount reason type (clock w) userId in
      (Js.Normal (id, row), set_db (set_pointTransactions <[id := row]>) w)).

(** [prisma.badge.findUnique({ where: { name } })] *)
Definition badge_findUnique_name (name : string) : M (option (string * Badge.t)) :=
  call e BadgeFindUniqueByName (λ w,
    (Js.Normal (find_row (λ b, String.eqb (Badge.name b) name) (badges (db w))), w)).

(** [prisma.userBadge.findUnique({ where: { userId_badgeId } })] *)
Definition userBadge_findUnique (userId badgeId : string)
    : M (option (string * UserBadge.t)) :=
  call e UserBadgeFindUnique (λ w,
    (Js.Normal (find_row (λ ub, String.eqb (UserBadge.userId ub) userId &&
                                String.eqb (UserBadge.badgeId ub) badgeId)
                  (userBadges (db w))), w)).

(** [prisma.userBadge.create({ data: { userId, badgeId } })] *)
Definition userBadge_create (userId badgeId : string) : M (string * UserBadge.t) :=
  call e UserBadgeCreate (λ w0,
    let '(id, w) := fresh_id w0 in
    if has_row (λ ub, String.eqb (UserBadge.userId ub) userId &&
                      String.eqb (UserBadge.badgeId ub) badgeId)
         (userBadges (db w)) then
      (Js.Throw (P2002 "(`userId`,`badgeId`)"), w)
    else if negb (bool_decide (is_Some (users (db w) !! userId))) then
      (Js.Throw (P2003 "user_badges_userId_fkey"), w)
    else if negb (bool_decide (is_Some (badges (db w) !! badgeId))) then
      (Js.Throw (P2003 "user_badges_badgeId_fkey"), w)
    else if bool_decide (is_Some (userBadges (db w) !! id)) then
      (Js.Throw (P2002 "(`id`)"), w)
    else
      let row := UserBadge.Row (clock w) userId badgeId in
      (Js.Normal (id, row), set_db (set_userBadges <[id := row]>) w)).

(** [prisma.snippet.findUnique({ where: { id },
      include: { author, reviews, _count } })] *)
Definition snippet_findUnique_include (id : string) : M (option SnippetResult) :=
  call e SnippetFindUnique (λ w,
    (Js.Normal ((λ s, Result id s (author_of (db w) s)
                        (reviews_with_reviewer (db w) id) (count_reviews (db w) id))
                <$> snippets (db w) !! id), w)).

(** [prisma.snippet.findUnique({ where: { id },
      select: { id: true, authorId: true } })] *)
Definition snippet_findUnique_authorId (id : string) : M (option (string * string)) :=
  call e SnippetFindUnique (λ w,
    (Js.Normal ((λ s, (id, Snippet.authorId s)) <$> snippets (db w) !! id), w)).

(** [prisma.snippet.findMany({ where, include: { author, _count },
      orderBy, skip, take })] *)
Definition snippet_findMany (wh : SnippetWhere) (f : SortField) (o : SortOrder)
    (skip take : Z) : M (list SnippetResult) :=
  call e SnippetFindMany (λ w,
    if (skip <? 0)%Z || negb (in_int8 skip) then
      (Js.Throw (validation_error "Invalid value for skip argument"), w)
    else if negb (in_int8 take) then
      (Js.Throw (validation_error "Invalid value for take argument"), w)
    else
      (Js.Normal
         (map (λ kv : string * Snippet.t,
                 Result kv.1 kv.2 (author_of (db w) kv.2) []
                   (count_reviews (db w) kv.1))
            (paginate skip take
               (merge_sort (before (collate e) f o)
                  (filter (λ kv, where_holds wh kv.2 = true)
                     (map_to_list (snippets (db w))))))), w)).

(** [prisma.snippet.count({ where })] *)
Definition snippet_count (wh : SnippetWhere) : M Z :=
  call e SnippetCount (λ w,
    (Js.Normal (Z.of_nat (length (filter (λ kv, where_holds wh kv.2 = true)
                                    (map_to_list (snippets (db w)))))), w)).

(** [prisma.snippet.update({ where: { id },
      data: { views: { increment } } })]; the client sets the
    [@updatedAt] column on every update, and the database refuses
    a counter that leaves the range of [Int]. *)
Definition snippet_update_views_increment (id : string) (increment : Z)
    : M (string * Snippet.t) :=
  call e SnippetUpdate (λ w,
    match snippets (db w) !! id with
    | None => (Js.Throw P2025, w)
    | Some s =>
        if negb (in_int4 (Snippet.views s + increment)) then
          (Js.Throw integer_out_of_range, w)
        else
          let row := Snippet.Row (Snippet.title s) (Snippet.description s)
                       (Snippet.content s) (Snippet.language s) (Snippet.tags s)
                       (Snippet.isPublic s) (Snippet.views s + increment)
                       (Snippet.likes s) (Snippet.createdAt s) (clock w)
                       (Snippet.authorId s) in
          (Js.Normal (id, row), set_db (set_snippets <[id := row]>) w)
    end).

(** [prisma.snippet.update({ where: { id },
      data: { ...updateData, updatedAt }, include: { author } })] *)
Definition snippet_update (id : string) (data : SnippetUpdateInput) (updatedAt : Z)
    : M SnippetResult :=
  call e SnippetUpdate (λ w,
    match snippets (db w) !! id with
    | None => (Js.Throw P2025, w)
    | Some s =>
        if negb (storable_update data) then (Js.Throw invalid_byte_sequence, w)
        else
          let row := Snippet.Row
                       (default (Snippet.title s) (data_title data))
                       (default (Snippet.description s) (data_description data))
                       (default (Snippet.content s) (data_content data))
                       (default (Snippet.language s) (data_language data))
                       (default (Snippet.tags s) (data_tags data))
                       (default (Snippet.isPublic s) (data_isPublic data))
                       (Snippet.views s) (Snippet.likes s) (Snippet.createdAt s)
                       updatedAt (Snippet.authorId s) in
          (Js.Normal (Result id row (author_of (db w) row) [] 0),
           set_db (set_snippets <[id := row]>) w)
    end).

(** [prisma.snippet.delete({ where: { id } })]; the reviews of the
    snippet go with it ([onDelete: Cascade]). *)
Definition snippet_delete (id : string) : M (string * Snippet.t) :=
  call e SnippetDelete (λ w,
    match snippets (db w) !! id with
    | None => (Js.Throw P2025, w)
    | Some s =>
        (Js.Normal (id, s),
         set_db (λ d, set_reviews (filter (λ kv, Review.snippetId kv.2 ≠ id))
                        (set_snippets (delete id) d)) w)
    end).

End Client.

End PrismaClient.

(* ================================================================= *)
(** ** bcryptjs                                                       *)
(* ================================================================= *)

Module Bcrypt.

(** The hash function, kept abstract: [hash_with plaintext rounds n]
    is the digest computed with the [n]-th generated salt. *)
Record t := Make {
  hash_with : string -> Z -> nat -> string;
  compare_with : string -> string -> bool
}.

(** [await bcrypt.hash(plaintext, rounds)] *)
Definition hash (b : t) (plaintext : string) (rounds : Z) : Prisma.M string :=
  λ w, (Js.Normal (hash_with b plaintext rounds (Prisma.salts w)),
        Prisma.World (Prisma.db w) (Prisma.clock w) (Prisma.ids w)
          (S (Prisma.salts w)) (Prisma.console w)).

(** [await bcrypt.compare(plaintext, digest)] *)
Definition compare (b : t) (plaintext digest : string) : Prisma.M bool :=
  Prisma.ret (compare_with b plaintext digest).

End Bcrypt.

Notation "'await' x := m 'in' k" := (Prisma.bind m (λ x, k))
  (at level 10, x name, m at level 100, k at level 200,
   format "'[v' 'await'  x  :=  m  'in' '/' k ']'").

(* ================================================================= *)
(** ** services/authService.ts                                        *)
(* ================================================================= *)

Module RegisterInput.
Record t := Make {
  email : string;
  password : string;
  username : string;
  firstName : option string;
  lastName : option string
}.
End RegisterInput.

Module LoginInput.
Record t := Make {
  email : string;
  password : string
}.
End LoginInput.

Module AuthService.
Import Prisma PrismaClient.

(** [interface LoginResponse { token: string; user: UserResponse }] *)
Record LoginResponse := MkLoginResponse {
  token : string;
  user : object
}.

(** The [select] of the queries that return a [UserResponse]. *)
Definition select_UserResponse : list string :=
  ["id"; "email"; "username"; "firstName"; "lastName"; "avatar"; "bio"; "points";
   "level"; "createdAt"; "updatedAt"].

(** [x || null] on an optional string *)
Definition or_null (x : option string) : option string :=
  if Js.truthy_opt x then x else None.

Section Service.
Variable e : env.
Variable bcrypt : Bcrypt.t.
Variable jwt : Jwt.codec.
Variable jwtSecret : string.     (* config.jwtSecret *)

Definition awardWelcomeBadge (userId : string) : M unit :=
  try_catch
    (await communityBadge := badge_findUnique_name e "Community Member" in
     match communityBadge with
     | Some (badgeId, _) =>
         await existingUserBadge := userBadge_findUnique e userId badgeId in
         match existingUserBadge with
         | None =>
             await _ := userBadge_create e userId badgeId in
             ret tt
         | Some _ => ret tt
         end
     | None => ret tt
     end)
    (λ error,
       (* Don't throw error for badge awarding failure *)
       console_error "Error awarding welcome badge:" error).

Definition registerUser (userData : RegisterInput.t) : M object :=
  try_catch
    (await existingUserByEmail :=
       user_findUnique_email e (RegisterInput.email userData) in
     if bool_decide (is_Some existingUserByEmail) then
       throw (Js.new_AuthError "Usuário com este email já existe" 409)
     else
     await existingUserByUsername :=
       user_findUnique_username e (RegisterInput.username userData) in
     if bool_decide (is_Some existingUserByUsername) then
       throw (Js.new_AuthError "Nome de usuário já está em uso" 409)
     else
     let saltRounds := 12 in
     await hashedPassword :=
       Bcrypt.hash bcrypt (RegisterInput.password userData) saltRounds in
     await created :=
       user_create e
         (UserData (RegisterInput.email userData) (RegisterInput.username userData)
            hashedPassword
            (or_null (RegisterInput.firstName userData))
            (or_null (RegisterInput.lastName userData))) in
     let newUser := select_user select_UserResponse created in
     let newUser_id := created.1 in
     await _ :=
       promise_all3
         (pointTransaction_create e newUser_id 10
            "Bônus de boas-vindas ao CodeCollab" PointTransaction.BONUS)
         (user_update_points_increment e newUser_id 10)
         (awardWelcomeBadge newUser_id) in
     ret newUser)
    (λ error,
       if Js.instanceof error Js.AuthError then throw error
       else
         await _ := console_error "Error registering user:" error in
         throw (Js.new_AuthError "Erro interno do servidor ao registrar usuário" 500)).

Definition loginUser (loginData : LoginInput.t) : M LoginResponse :=
  try_catch
    (await user :=
       user_findUnique_email e (LoginInput.email loginData) in
     match user with
     | None => throw (Js.new_AuthError "Credenciais inválidas" 401)
     | Some row =>
         let user := select_user ("password" :: select_UserResponse) row in
         await isPasswordValid :=
           Bcrypt.compare bcrypt (LoginInput.password loginData)
             (User.password row.2) in
         if negb isPasswordValid then
           throw (Js.new_AuthError "Credenciais inválidas" 401)
         else
           await token :=
             (λ w, (Js.Normal
                      (Jwt.sign jwt (clock w / 1000) row.1 (User.email row.2)
                         (User.username row.2) jwtSecret "codecollab-api" row.1),
                    w)) in
           (* const { password: _, ...userWithoutPassword } = user *)
           let userWithoutPassword := delete "password" user in
           ret (MkLoginResponse token userWithoutPassword)
     end)
    (λ error,
       if Js.instanceof error Js.AuthError then throw error
       else
         await _ := console_error "Error during login:" error in
         throw (Js.new_AuthError "Erro interno do servidor durante login" 500)).

(** [verifyToken], with the call [jwt.verify(token,
    config.jwtSecret)] at a given time as the parameter [verify]. *)
Definition verifyToken_with (verify : Z -> string -> Js.completion Jwt.claims)
    (token : string) : M object :=
  try_catch
    (await decoded := (λ w, (verify (clock w / 1000) token, w)) in
     await user := user_findUnique_id e (Jwt.id decoded) in
     match user with
     | None => throw (Js.new_AuthError "Usuário não encontrado" 404)
     | Some row => ret (select_user select_UserResponse row)
     end)
    (λ error,
       if Js.instanceof error Js.JsonWebTokenError then
         throw (Js.new_AuthError "Token inválido" 401)
       else if Js.instanceof error Js.TokenExpiredError then
         throw (Js.new_AuthError "Token expirado" 401)
       else if Js.instanceof error Js.AuthError then throw error
       else
         await _ := console_error "Error verifying token:" error in
         throw (Js.new_AuthError "Erro interno do servidor ao verificar token" 500)).

Definition verifyToken (token : string) : M object :=
  verifyToken_with (λ now token, Jwt.verify jwt now token jwtSecret) token.

Definition getUserProfile (userId : string) : M object :=
  try_catch
    (await user := user_findUnique_id e userId in
     match user with
     | None => throw (Js.new_AuthError "Usuário não encontrado" 404)
     | Some row => ret (select_user select_UserResponse row)
     end)
    (λ error,
       if Js.instanceof error Js.AuthError then throw error
       else
         await _ := console_error "Error getting user profile:" error in
         throw (Js.new_AuthError "Erro interno do servidor ao buscar perfil" 500)).

End Service.

End AuthService.

(* ================================================================= *)
(** ** services/snippetService.ts                                     *)
(* ================================================================= *)

Module ListSnippetsQuery.
Inductive SortBy := created | updated | views | likes | title.
Record t := Make {
  page : option Z;
  limit : option Z;
  language : option string;
  search : option string;
  tag : option string;
  author : option string;
  sortBy : option SortBy;
  sortOrder : option Prisma.SortOrder;
  isPublic : option bool
}.
End ListSnippetsQuery.

Module SnippetService.
Import Prisma PrismaClient.

(** A JavaScript number that is an integer, or the result of a
    division by zero. *)
Inductive number :=
| Num (n : Z)
| Infinity
| NaN.

(** [Math.ceil(a / b)] for integers [a >= 0] and [b] *)
Definition ceil_div (a b : Z) : number :=
  if (b =? 0)%Z then (if (a =? 0)%Z then NaN else Infinity)
  else Num (- ((- a) / b)).

(** [page < n] *)
Definition lt_number (page : Z) (n : number) : bool :=
  match n with
  | Num z => (page <? z)%Z
  | Infinity => true
  | NaN => false
  end.

Record Pagination := MkPagination {
  currentPage : Z;
  totalPages : number;
  totalCount : Z;
  hasNextPage : bool;
  hasPrevPage : bool;
  pagination_limit : Z
}.

Record PaginatedSnippets := MkPaginated {
  snippets_of : list SnippetResult;
  pagination : Pagination
}.

(** Assignments to the properties of the [where] object. *)
Definition set_isPublic (b : bool) (wh : SnippetWhere) : SnippetWhere :=
  Where (Some b) (where_OR wh) (where_language wh) (where_authorId wh)
    (where_tags_has wh).
Definition set_OR (cs : list SnippetCond) (wh : SnippetWhere) : SnippetWhere :=
  Where (where_isPublic wh) (Some cs) (where_language wh) (where_authorId wh)
    (where_tags_has wh).
Definition set_language (l : string) (wh : SnippetWhere) : SnippetWhere :=
  Where (where_isPublic wh) (where_OR wh) (Some l) (where_authorId wh)
    (where_tags_has wh).
Definition set_authorId (a : string) (wh : SnippetWhere) : SnippetWhere :=
  Where (where_isPublic wh) (where_OR wh) (where_language wh) (Some a)
    (where_tags_has wh).
Definition set_tags_has (t : string) (wh : SnippetWhere) : SnippetWhere :=
  Where (where_isPublic wh) (where_OR wh) (where_language wh) (where_authorId wh)
    (Some t).

(** The [where] clause [getSnippetsWithPagination] builds. *)
Definition build_where (query : ListSnippetsQuery.t) (userId : option string)
    : SnippetWhere :=
  let where_ := Where None None None None None in
  (* Public/private filter *)
  let where_ :=
    match ListSnippetsQuery.isPublic query with
    | Some isPublic => set_isPublic isPublic where_
    | None =>
        if negb (Js.truthy_opt userId) then set_isPublic true where_
        else set_OR [CondIsPublic true; CondAuthorId (default "" userId)] where_
    end in
  (* Language filter *)
  let where_ :=
    if Js.truthy_opt (ListSnippetsQuery.language query)
    then set_language (default "" (ListSnippetsQuery.language query)) where_
    else where_ in
  (* Author filter *)
  let where_ :=
    if Js.truthy_opt (ListSnippetsQuery.author query)
    then set_authorId (default "" (ListSnippetsQuery.author query)) where_
    else where_ in
  (* Tag filter *)
  let where_ :=
    if Js.truthy_opt (ListSnippetsQuery.tag query)
    then set_tags_has (default "" (ListSnippetsQuery.tag query)) where_
    else where_ in
  (* Search filter *)
  let where_ :=
    if Js.truthy_opt (ListSnippetsQuery.search query)
    then
      let search := default "" (ListSnippetsQuery.search query) in
      set_OR (default [] (where_OR where_) ++
              [CondTitleContains search; CondDescriptionContains search;
               CondContentContains search]) where_
    else where_ in
  where_.

(** The [orderBy] clause: the [switch] on [sortBy]. *)
Definition build_orderBy (sortBy : ListSnippetsQuery.SortBy) (sortOrder : SortOrder)
    : SortField * SortOrder :=
  match sortBy with
  | ListSnippetsQuery.created => (ByCreatedAt, sortOrder)
  | ListSnippetsQuery.updated => (ByUpdatedAt, sortOrder)
  | ListSnippetsQuery.views => (ByViews, sortOrder)
  | ListSnippetsQuery.likes => (ByLikes, sortOrder)
  | ListSnippetsQuery.title => (ByTitle, sortOrder)
  end.

(** [snippet.views += 1] on the object the query returned *)
Definition add_view (r : SnippetResult) : SnippetResult :=
  let s := snippet r in
  Result (id r)
    (Snippet.Row (Snippet.title s) (Snippet.description s) (Snippet.content s)
       (Snippet.language s) (Snippet.tags s) (Snippet.isPublic s)
       (Snippet.views s + 1) (Snippet.likes s) (Snippet.createdAt s)
       (Snippet.updatedAt s) (Snippet.authorId s))
    (author r) (reviews_of r) (_count_reviews r).

Section Service.
Variable e : env.

Definition getSnippetsWithPagination (query : ListSnippetsQuery.t)
    (userId : option string) : M PaginatedSnippets :=
  try_catch
    (let page := default 1 (ListSnippetsQuery.page query) in
     let limit := default 20 (ListSnippetsQuery.limit query) in
     let sortBy := default ListSnippetsQuery.created (ListSnippetsQuery.sortBy query) in
     let sortOrder := default Desc (ListSnippetsQuery.sortOrder query) in
     let where_ := build_where query userId in
     let orderBy := build_orderBy sortBy sortOrder in
     let skip := (page - 1) * limit in
     await both :=
       promise_all2
         (snippet_findMany e where_ orderBy.1 orderBy.2 skip limit)
         (snippet_count e where_) in
     let snippets := both.1 in
     let totalCount := both.2 in
     let totalPages := ceil_div totalCount limit in
     let hasNextPage := lt_number page totalPages in
     let hasPrevPage := (1 <? page)%Z in
     ret (MkPaginated snippets
            (MkPagination page totalPages totalCount hasNextPage hasPrevPage limit)))
    (λ error,
       await _ := console_error "Erro ao buscar snippets com paginação:" error in
       throw (Js.new_SnippetError "Erro interno ao buscar snippets" 500)).

Definition getSnippetById (snippetId : string) (userId : option string)
    : M SnippetResult :=
  try_catch
    (await found := snippet_findUnique_include e snippetId in
     match found with
     | None => throw (Js.new_SnippetError "Snippet não encontrado" 404)
     | Some snippet =>
         (* Check if user can access this snippet *)
         let canAccess :=
           Snippet.isPublic (Prisma.snippet snippet) ||
           (Js.truthy_opt userId &&
            bool_decide (Some (Snippet.authorId (Prisma.snippet snippet)) = userId)) in
         if negb canAccess then
           throw (Js.new_SnippetError "Acesso negado ao snippet" 403)
         else
           (* Increment view count if it's not the author viewing *)
           if bool_decide (userId ≠ Some (Snippet.authorId (Prisma.snippet snippet)))
           then
             await _ := snippet_update_views_increment e snippetId 1 in
             ret (add_view snippet)
           else ret snippet
     end)
    (λ error,
       if Js.instanceof error Js.SnippetError then throw error
       else
         await _ := console_error "Erro ao buscar snippet:" error in
         throw (Js.new_SnippetError "Erro interno ao buscar snippet" 500)).

Definition updateSnippet (snippetId : string) (updateData : SnippetUpdateInput)
    (authorId : string) : M SnippetResult :=
  try_catch
    (await existingSnippet := snippet_findUnique_authorId e snippetId in
     match existingSnippet with
     | None => throw (Js.new_SnippetError "Snippet não encontrado" 404)
     | Some existing =>
         if bool_decide (existing.2 ≠ authorId) then
           throw (Js.new_SnippetError
                    "Você não tem permissão para editar este snippet" 403)
         else
           await now := (λ w, (Js.Normal (clock w), w)) in
           await updatedSnippet := snippet_update e snippetId updateData now in
           ret updatedSnippet
     end)
    (λ error,
       if Js.instanceof error Js.SnippetError then throw error
       else
         await _ := console_error "Erro ao atualizar snippet:" error in
         throw (Js.new_SnippetError "Erro interno ao atualizar snippet" 500)).

Definition deleteSnippet (snippetId : string) (authorId : string) : M string :=
  try_catch
    (await existingSnippet := snippet_findUnique_authorId e snippetId in
     match existingSnippet with
     | None => throw (Js.new_SnippetError "Snippet não encontrado" 404)
     | Some existing =>
         if bool_decide (existing.2 ≠ authorId) then
           throw (Js.new_SnippetError
                    "Você não tem permissão para deletar este snippet" 403)
         else
           await _ := snippet_delete e snippetId in
           ret "Snippet deletado com sucesso"
     end)
    (λ error,
       if Js.instanceof error Js.SnippetError then throw error
       else
         await _ := console_error "Erro ao deletar snippet:" error in
         throw (Js.new_SnippetError "Erro interno ao deletar snippet" 500)).

End Service.

End SnippetService.

(* ================================================================= *)
(** ** More of zod: look-ahead patterns and optional strings          *)
(* ================================================================= *)

Module ZodRest.
Import Zod.

(** The code units [.] does not match (no [s] flag): LF and CR. *)
Definition is_line_terminator (c : ascii) : bool :=
  ((Js.code c =? 10) || (Js.code c =? 13))%N.

(** [/^.*[cls]/] on [s]: some character of the class is reached from
    the start without crossing a line terminator. *)
Fixpoint dot_star_then (cls : char_class) (s : string) : bool :=
  match s with
  | EmptyString => false
  | String c r =>
      class_matches cls c || (negb (is_line_terminator c) && dot_star_then cls r)
  end.

(** [/^(?=.*[c1])(?=.*[c2])...(?=.*[cn])/.test(s)] *)
Definition lookaheads_test (classes : list char_class) (s : string) : bool :=
  forallb (λ cls, dot_star_then cls s) classes.

(** The checks of [Zod], and [.regex] with a pattern of look-aheads. *)
Inductive check :=
| Plain (c : string_check)
| RegexLookaheads (classes : list char_class) (message : string).

Definition run_check (path : list string) (ch : check)
    (payload : string * list issue) : string * list issue :=
  match ch with
  | Plain c => Zod.run_check path c payload
  | RegexLookaheads classes m =>
      let '(v, issues) := payload in
      if lookaheads_test classes v then (v, issues) else (v, issues ++ [Issue path m])
  end.

Definition runChecks (path : list string) (chs : list check)
    (payload : string * list issue) : string * list issue :=
  fold_left (λ p ch, run_check path ch p) chs payload.

(** [z.string({ message }).<checks>] *)
Definition parse_string (type_message : string) (chs : list check)
    (path : list string) (input : Js.value) : parse_result string :=
  match input with
  | Js.VString s =>
      let '(v, issues) := runChecks path chs (s, []) in
      match issues with
      | [] => ParseSuccess v
      | _ => ParseFailure issues
      end
  | _ => ParseFailure [Issue path type_message]
  end.

(** [z.string().<checks>.optional()] on a property that is absent
    ([None]) or holds a string. *)
Definition parse_optional_string (chs : list check) (path : list string)
    (input : option string) : parse_result (option string) :=
  match input with
  | None => ParseSuccess None
  | Some s =>
      let '(v, issues) := runChecks path chs (s, []) in
      match issues with
      | [] => ParseSuccess (Some v)
      | _ => ParseFailure issues
      end
  end.

End ZodRest.

(* ================================================================= *)
(** ** schemas/authSchema.ts: passwords and names                     *)
(* ================================================================= *)

Module AuthSchemaRest.
Import Zod ZodRest.

(** The [password] member of [registerSchema]. *)
Definition registerSchema_password : list check :=
  [ Plain (Min 6 "Senha deve ter no mínimo 6 caracteres");
    Plain (Max 128 "Senha deve ter no máximo 128 caracteres");
    RegexLookaheads [ [("a", "z")]; [("A", "Z")]; [("0", "9")] ]%char
      "Senha deve conter pelo menos uma letra minúscula, uma maiúscula e um número" ].

Definition parse_register_password (input : Js.value) : parse_result string :=
  parse_string "Senha deve ser uma string" registerSchema_password ["password"] input.

(** The [password] member of [loginSchema]. *)
Definition loginSchema_password : list check :=
  [ Plain (Min 1 "Senha é obrigatória") ].

Definition parse_login_password (input : Js.value) : parse_result string :=
  parse_string "Senha deve ser uma string" loginSchema_password ["password"] input.

(** The [firstName] and [lastName] members of [registerSchema]. *)
Definition registerSchema_firstName : list check :=
  [ Plain (Min 1 "Nome não pode estar vazio");
    Plain (Max 50 "Nome deve ter no máximo 50 caracteres");
    Plain Trim ].

Definition registerSchema_lastName : list check :=
  [ Plain (Min 1 "Sobrenome não pode estar vazio");
    Plain (Max 50 "Sobrenome deve ter no máximo 50 caracteres");
    Plain Trim ].

Definition parse_firstName (input : option string) : parse_result (option string) :=
  parse_optional_string registerSchema_firstName ["firstName"] input.

Definition parse_lastName (input : option string) : parse_result (option string) :=
  parse_optional_string registerSchema_lastName ["lastName"] input.

End AuthSchemaRest.

(* ================================================================= *)
(** ** services/snippetService.ts: the other functions                *)
(* ================================================================= *)

(** [CreateSnippetInput] *)
Module CreateSnippetInput.
Record t := Make {
  title : string;
  description : option string;
  content : string;
  language : string;
  tags : option (list string);
  isPublic : option bool
}.
End CreateSnippetInput.

Module PrismaClientRest.
Import Prisma PrismaClient.

(** What a request cannot control of [prisma.snippet.create]: the
    error it is rejected with for a reason outside the data, and the
    writes of other requests that land before it. *)
Record create_env := CreateEnv {
  create_fault : option Js.exn;
  create_concurrent : Db -> Db
}.

(** Every string of the new row can be stored. *)
Definition storable_snippet (title : string) (description : option string)
    (content language : string) (tags : list string) : bool :=
  storable title && storable_opt description && storable content &&
  storable language && forallb storable tags.

(** [prisma.snippet.create({ data, include: { author } })]: the
    columns that are not given take their defaults; no review is
    included or counted.  The database refuses a string with the
    code unit 0 before it checks any constraint. *)
Definition snippet_create (e : env) (c : create_env)
    (title : string) (description : option string) (content language : string)
    (tags : list string) (isPublic : bool) (authorId : string) : M SnippetResult :=
  λ w0,
    let w1 := set_db (create_concurrent c) w0 in
    match create_fault c with
    | Some err => (Js.Throw err, w1)
    | None =>
        let '(id, w) := fresh_id e w1 in
        if negb (storable_snippet title description content language tags) then
          (Js.Throw invalid_byte_sequence, w)
        else if negb (bool_decide (is_Some (users (db w) !! authorId))) then
          (Js.Throw (P2003 "snippets_authorId_fkey"), w)
        else if bool_decide (is_Some (snippets (db w) !! id)) then
          (Js.Throw (P2002 "(`id`)"), w)
        else
          let row := Snippet.Row title description content language tags isPublic
                       0 0 (clock w) (clock w) authorId in
          (Js.Normal (Result id row (author_of (db w) row) [] 0),
           set_db (set_snippets <[id := row]>) w)
    end.

(** [prisma.snippet.findMany({ where, include: { author, _count },
      orderBy })], without [skip] and [take]. *)
Definition snippet_findMany_all (e : env) (wh : SnippetWhere) (f : SortField)
    (o : SortOrder) : M (list SnippetResult) :=
  call e SnippetFindMany (λ w,
    (Js.Normal
       (map (λ kv : string * Snippet.t,
               Result kv.1 kv.2 (author_of (db w) kv.2) [] (count_reviews (db w) kv.1))
          (merge_sort (before (collate e) f o)
             (filter (λ kv, where_holds wh kv.2 = true)
                (map_to_list (snippets (db w)))))), w)).

End PrismaClientRest.

Module SnippetServiceRest.
Import Prisma PrismaClient PrismaClientRest.

Section Service.
Variable e : env.
Variable c : create_env.

Definition createSnippet (snippetData : CreateSnippetInput.t) (authorId : string)
    : M SnippetResult :=
  try_catch
    ((* Verify that the author exists *)
     await author := user_findUnique_id e authorId in
     match author with
     | None => throw (Js.new_SnippetError "Autor não encontrado" 404)
     | Some _ =>
         await createdSnippet :=
           snippet_create e c
             (CreateSnippetInput.title snippetData)
             (CreateSnippetInput.description snippetData)
             (CreateSnippetInput.content snippetData)
             (CreateSnippetInput.language snippetData)
             (default [] (CreateSnippetInput.tags snippetData))
             (default true (CreateSnippetInput.isPublic snippetData))
             authorId in
         ret createdSnippet
     end)
    (λ error,
       if Js.instanceof error Js.SnippetError then throw error
       else
         await _ := console_error "Erro ao criar snippet:" error in
         throw (Js.new_SnippetError "Erro interno ao criar snippet" 500)).

Definition getAllSnippets : M (list SnippetResult) :=
  try_catch
    (await snippets :=
       snippet_findMany_all e (Where (Some true) None None None None)
         ByCreatedAt Desc in
     ret snippets)
    (λ error,
       await _ := console_error "Erro ao buscar snippets:" error in
       throw (Js.new_SnippetError "Erro interno ao buscar snippets" 500)).

Definition getSnippetsByUserId (userId : string) (requesterId : option string)
    : M (list SnippetResult) :=
  try_catch
    ((* Check if user exists *)
     await user := user_findUnique_id e userId in
     match user with
     | None => throw (Js.new_SnippetError "Usuário não encontrado" 404)
     | Some _ =>
         (* show public snippets, and private ones if it's the same user *)
         let where_ := Where None None None (Some userId) None in
         let where_ :=
           if bool_decide (requesterId ≠ Some userId)
           then SnippetService.set_isPublic true where_
           else where_ in
         await snippets := snippet_findMany_all e where_ ByCreatedAt Desc in
         ret snippets
     end)
    (λ error,
       if Js.instanceof error Js.SnippetError then throw error
       else
         await _ := console_error "Erro ao buscar snippets do usuário:" error in
         throw (Js.new_SnippetError "Erro interno ao buscar snippets do usuário" 500)).

End Service.

End SnippetServiceRest.

(* ================================================================= *)
(** ** controllers/snippetController.ts, controllers/authController.ts *)
(* ================================================================= *)

(** What a controller sends: [res.status(s).json(body)]. *)
Module Express.
Import Prisma.

(** The [data] property of a body. *)
Inductive data :=
| NoData                                             (* no such property *)
| DataNull                                           (* data: null *)
| DataSnippet (snippet : SnippetResult)              (* { snippet } *)
| DataSnippets (snippets : list SnippetResult) (count : Z)  (* { snippets, count } *)
| DataUser (user : object).                          (* { user } *)

Record json := Json {
  success : bool;
  error : option string;
  message : option string;
  payload : data
}.

Record response := Response {
  status : Z;
  body : json
}.

(** The request as the controllers read it: [req.params] and the id
    of [req.user] ([None] when the middleware attached no user). *)
Record request := Request {
  params : gmap string string;
  user : option string
}.

End Express.

Module SnippetController.
Import Prisma PrismaClient Express Zod.

(** The [id] member of [snippetIdSchema]. *)
Definition snippetIdSchema_id : list string_check :=
  [ Min 1 "ID do snippet é obrigatório";
    Regex (AnchoredPlus [("a", "z"); ("A", "Z"); ("0", "9"); ("_", "_"); ("-", "-")]%char)
      "ID do snippet inválido" ].

(** [snippetIdSchema.safeParse(req.params)]: the validated id when the
    parse succeeds (the controllers do not read the issues). *)
Definition safeParse_id (params : gmap string string) : option string :=
  match params !! "id" with
  | None => None
  | Some s =>
      let '(v, issues) := runChecks ["id"] snippetIdSchema_id (s, []) in
      match issues with
      | [] => Some v
      | _ => None
      end
  end.

(** [res.status(error.statusCode).json({ success: false,
                                         error: error.message })];
    the [statusCode] of an instance is 400 when its constructor was
    given none. *)
Definition error_response (error : Js.exn) : response :=
  Response (default 400 (Js.exn_statusCode error))
    (Json false (Some (Js.exn_message error)) None NoData).

Section Controller.
Variable e : env.
Variable c : PrismaClientRest.create_env.

Definition getAllSnippets (req : request) : M response :=
  try_catch
    (await snippets := SnippetServiceRest.getAllSnippets e in
     ret (Response 200
            (Json true None (Some "Snippets obtidos com sucesso")
               (DataSnippets snippets (Z.of_nat (length snippets))))))
    (λ error,
       if Js.instanceof error Js.SnippetError then ret (error_response error)
       else
         await _ := console_error "Get all snippets controller error:" error in
         ret (Response 500
                (Json false (Some "Erro interno do servidor")
                   (Some "Erro ao buscar snippets") NoData))).

Definition getSnippetById (req : request) : M response :=
  try_catch
    (match safeParse_id (params req) with
     | None =>
         ret (Response 400 (Json false (Some "ID do snippet inválido") None NoData))
     | Some id =>
         (* Get user ID if authenticated (optional for public snippets) *)
         let userId := user req in
         await snippet := SnippetService.getSnippetById e id userId in
         ret (Response 200
                (Json true None (Some "Snippet encontrado com sucesso")
                   (DataSnippet snippet)))
     end)
    (λ error,
       if Js.instanceof error Js.SnippetError then ret (error_response error)
       else
         await _ := console_error "Get snippet by ID controller error:" error in
         ret (Response 500
                (Json false (Some "Erro interno do servidor")
                   (Some "Erro ao buscar snippet") NoData))).

Definition deleteSnippet (req : request) : M response :=
  try_catch
    (match safeParse_id (params req) with
     | None =>
         ret (Response 400 (Json false (Some "ID do snippet inválido") None NoData))
     | Some id =>
         (* Check authentication *)
         match user req with
         | None =>
             ret (Response 401
                    (Json false (Some "Não autorizado") (Some "Usuário não autenticado")
                       NoData))
         | Some authorId =>
             await result := SnippetService.deleteSnippet e id authorId in
             ret (Response 200 (Json true None (Some result) DataNull))
         end
     end)
    (λ error,
       if Js.instanceof error Js.SnippetError then ret (error_response error)
       else
         await _ := console_error "Delete snippet controller error:" error in
         ret (Response 500
                (Json false (Some "Erro interno do servidor")
                   (Some "Erro ao deletar snippet") NoData))).

Definition getUserSnippets (req : request) : M response :=
  try_catch
    (let userId := params req !! "userId" in
     if negb (Js.truthy_opt userId) then
       ret (Response 400 (Json false (Some "ID do usuário é obrigatório") None NoData))
     else
       (* Get requester ID if authenticated *)
       let requesterId := user req in
       await snippets :=
         SnippetServiceRest.getSnippetsByUserId e (default "" userId) requesterId in
       ret (Response 200
              (Json true None (Some "Snippets do usuário obtidos com sucesso")
                 (DataSnippets snippets (Z.of_nat (length snippets))))))
    (λ error,
       if Js.instanceof error Js.SnippetError then ret (error_response error)
       else
         await _ := console_error "Get user snippets controller error:" error in
         ret (Response 500
                (Json false (Some "Erro interno do servidor")
                   (Some "Erro ao buscar snippets do usuário") NoData))).

End Controller.

End SnippetController.

Module AuthController.
Import Prisma PrismaClient Express.

Section Controller.
Variable e : env.
Variable jwt : Jwt.codec.
Variable jwtSecret : string.

(** [getProfile]; [req.user] is what [authenticateToken] attached. *)
Definition getProfile (req : AuthMiddleware.request) : M response :=
  try_catch
    (match AuthMiddleware.user req with
     | None =>
         ret (Response 401 (Json false (Some "Usuário não autenticado") None NoData))
     | Some user =>
         await userProfile := AuthService.getUserProfile e (Jwt.id user) in
         ret (Response 200
                (Json true None (Some "Perfil do usuário obtido com sucesso")
                   (DataUser userProfile)))
     end)
    (λ error,
       if Js.instanceof error Js.AuthError then
         ret (SnippetController.error_response error)
       else
         await _ := console_error "Get profile controller error:" error in
         ret (Response 500
                (Json false (Some "Erro interno do servidor")
                   (Some "Erro ao obter perfil do usuário") NoData))).

(** [router.get('/profile', authenticateToken, getProfile)], with
    the call of [jwt.verify] in the middleware as the parameter
    [verify]. *)
Definition profile_route_with (verify : Z -> string -> Js.completion Jwt.claims)
    (req : AuthMiddleware.request) : M response :=
  await now := (λ w, (Js.Normal (clock w / 1000), w)) in
  match AuthMiddleware.authenticateToken_with (verify now) req with
  | AuthMiddleware.Respond status b =>
      ret (Response status
             (Json (AuthMiddleware.success b) (Some (AuthMiddleware.error b))
                (Some (AuthMiddleware.message b)) NoData))
  | AuthMiddleware.Next req' => getProfile req'
  end.

Definition profile_route (req : AuthMiddleware.request) : M response :=
  profile_route_with (λ now token, Jwt.verify jwt now token jwtSecret) req.

End Controller.

End AuthController.

(* ================================================================= *)
(** * Specification                                                   *)
(* ================================================================= *)

(** The predicates the statements below are written with, and a small
    installation on which the services are run. *)

(** ** User names *)

Module UsernameFormat.
Import Zod AuthSchema.

(** The characters of [[a-zA-Z0-9_]], by code. *)
Definition word_char (c : ascii) : Prop :=
  (97 <= Js.code c <= 122 \/ 65 <= Js.code c <= 90 \/
   48 <= Js.code c <= 57 \/ Js.code c = 95)%N.

(** What the code accepts: 3 to 30 word characters. *)
Definition username_ok (s : string) : Prop :=
  (3 <= String.length s <= 30)%nat /\
  Forall word_char (list_ascii_of_string s).

(** What the specification says is accepted: 3 to 50 characters of
    [[a-zA-Z0-9_-]]. *)
Definition spec_username_ok (s : string) : Prop :=
  (3 <= String.length s <= 50)%nat /\
  Forall (λ c, word_char c \/ Js.code c = 45%N) (list_ascii_of_string s).

(** The validator accepts the user name [s]. *)
Definition accepted (s : string) : Prop :=
  exists out, parse_username (Js.VString s) = ParseSuccess out.

End UsernameFormat.

(** ** The environment of a request *)

Module Conditions.
Import Prisma.

(** No other request writes while this one runs. *)
Definition quiet (e : env) : Prop := forall o d, concurrent e o d = d.

(** No call is rejected for a reason outside the data. *)
Definition reliable (e : env) : Prop := forall o, fault e o = None.

(** The error of a rejected call is the store's own, never one of the
    service's [AuthError]s. *)
Definition store_faults (e : env) : Prop :=
  forall o err, fault e o = Some err -> Js.instanceof err Js.AuthError = false.

End Conditions.

(** ** Registration, step by step *)

Module Registration.
Import Prisma PrismaClient AuthService.

Section Steps.
Variable e : env.
Variable bcrypt : Bcrypt.t.
Variable jwt : Jwt.codec.
Variable jwtSecret : string.

(** Both pre-checks find nothing. *)
Definition prechecks_pass (userData : RegisterInput.t) (w : world) : Prop :=
  let w1 := set_db (concurrent e UserFindUniqueByEmail) w in
  let w2 := set_db (concurrent e UserFindUniqueByUsername) w1 in
  fault e UserFindUniqueByEmail = None /\
  fault e UserFindUniqueByUsername = None /\
  find_row (λ u, String.eqb (User.email u) (RegisterInput.email userData))
    (users (db w1)) = None /\
  find_row (λ u, String.eqb (User.username u) (RegisterInput.username userData))
    (users (db w2)) = None.

(** The argument of [prisma.user.create] in [registerUser]. *)
Definition create_data (userData : RegisterInput.t) (w : world) : UserCreateInput :=
  UserData (RegisterInput.email userData) (RegisterInput.username userData)
    (Bcrypt.hash_with bcrypt (RegisterInput.password userData) 12 (salts w))
    (or_null (RegisterInput.firstName userData))
    (or_null (RegisterInput.lastName userData)).

(** The state in which [prisma.user.create] is called. *)
Definition before_create (userData : RegisterInput.t) (w : world) : world :=
  (Bcrypt.hash bcrypt (RegisterInput.password userData) 12
     (set_db (concurrent e UserFindUniqueByUsername)
        (set_db (concurrent e UserFindUniqueByEmail) w))).2.

(** The creation is rejected by a unique index: the data can be
    stored, and the email or the user name is taken. *)
Definition duplicate_at_create (userData : RegisterInput.t) (w : world) : Prop :=
  let t := users (db (set_db (concurrent e UserCreate) (before_create userData w))) in
  storable_user (create_data userData w) = true /\
  (has_row (λ u, String.eqb (User.email u) (RegisterInput.email userData)) t = true \/
   has_row (λ u, String.eqb (User.username u) (RegisterInput.username userData)) t
   = true).

(** The creation succeeds: the data can be stored and no unique
    index rejects it. *)
Definition creation_succeeds (userData : RegisterInput.t) (w : world) : Prop :=
  let w4 := set_db (concurrent e UserCreate) (before_create userData w) in
  fault e UserCreate = None /\
  storable_user (create_data userData w) = true /\
  has_row (λ u, String.eqb (User.email u) (RegisterInput.email userData))
    (users (db w4)) = false /\
  has_row (λ u, String.eqb (User.username u) (RegisterInput.username userData))
    (users (db w4)) = false /\
  users (db w4) !! cuid e (ids w4) = None.


End Steps.

End Registration.

(** ** The ownership policy *)

Module Ownership.
Import Prisma SnippetService.

(** The ownership policy of the specification. *)
Definition canRead (s : Snippet.t) (callerId : option string) : Prop :=
  Snippet.isPublic s = true \/ callerId = Some (Snippet.authorId s).

Definition canWrite (s : Snippet.t) (callerId : string) : Prop :=
  callerId = Snippet.authorId s.

(** The ids and rows of a listing. *)
Definition listed (r : Js.completion PaginatedSnippets * world)
    : option (list (string * Snippet.t)) :=
  match r.1 with
  | Js.Normal page => Some (map (λ x, (id x, snippet x)) (snippets_of page))
  | Js.Throw _ => None
  end.

End Ownership.

(** ** A small installation *)

Module Sample.
Import Prisma PrismaClient AuthService SnippetService.

(** A codec with three tokens: ["good"] (signed with the server's
    secret, expires at 2000), ["old"] (signed with the server's
    secret, expired at 500) and ["forged"] (signed with another
    secret). *)
Definition alice_claims (exp : Z) : Jwt.claims :=
  Jwt.Claims "u1" "alice@example.com" "alice" 0 exp "codecollab-api" "u1".

Definition three_tokens : Jwt.codec :=
  Jwt.Codec
    (λ _, "good")
    (λ s, if String.eqb s "good" then Some (Jwt.Jws (alice_claims 2000) "s3cret")
          else if String.eqb s "old" then Some (Jwt.Jws (alice_claims 500) "s3cret")
          else if String.eqb s "forged" then Some (Jwt.Jws (alice_claims 2000) "other")
          else None).

Definition demo_bcrypt : Bcrypt.t :=
  Bcrypt.Make (λ plaintext _ _, "$2b$12$" +:+ plaintext)
    (λ plaintext digest, String.eqb digest ("$2b$12$" +:+ plaintext)).

Definition demo_cuid (n : nat) : string :=
  match n with
  | 0%nat => "c0"
  | 1%nat => "c1"
  | 2%nat => "c2"
  | _ => "c3"
  end.

Definition demo_codec : Jwt.codec :=
  Jwt.Codec
    (λ t, "jwt:" +:+ Jwt.id (Jwt.jws_payload t))
    (λ s, if String.eqb s "jwt:u1"
          then Some (Jwt.Jws (Jwt.Claims "u1" "alice@example.com" "alice" 5 3605
                                "codecollab-api" "u1") "s3cret")
          else None).

Definition connection_lost : Js.exn :=
  Js.Exn Js.PrismaClientInitializationError "Can't reach database server" None None.

(** Nothing fails and nobody else writes; text is ordered by code
    unit. *)
Definition calm : env := Env (λ _, None) (λ _ d, d) demo_cuid String.leb.

(** The point-transaction table cannot be written. *)
Definition no_ledger : env :=
  Env (λ o, if decide (o = PointTransactionCreate) then Some connection_lost else None)
    (λ _ d, d) demo_cuid String.leb.

(** The user table cannot be updated. *)
Definition no_increment : env :=
  Env (λ o, if decide (o = UserUpdate) then Some connection_lost else None)
    (λ _ d, d) demo_cuid String.leb.

(** The badge tables cannot be read. *)
Definition no_badges : env :=
  Env (λ o, if decide (o = BadgeFindUniqueByName) then Some connection_lost else None)
    (λ _ d, d) demo_cuid String.leb.

(** Another request registers bob@example.com just before this
    request's [prisma.user.create] is executed. *)
Definition rival : User.t :=
  User.Row "bob@example.com" "bobby" "$2b$12$Other1" None None None None 0 1 4999 4999.

Definition race : env :=
  Env (λ _, None)
    (λ o d, if decide (o = UserCreate) then set_users <["r1" := rival]> d else d)
    demo_cuid String.leb.

Definition alice : User.t :=
  User.Row "alice@example.com" "alice" "$2b$12$Passw0rd" None None None None
    10 1 1000 1000.

Definition w_alice : world :=
  World (set_users <["u1" := alice]> empty_db) 5000 0 0 [].

Definition bob : RegisterInput.t :=
  RegisterInput.Make "bob@example.com" "Passw0rd" "bob" None None.

Definition bob_row (points : Z) : User.t :=
  User.Row "bob@example.com" "bob" "$2b$12$Passw0rd" None None None None
    points 1 5000 5000.

Definition ana : User.t :=
  User.Row "ana@example.com" "ana" "$2b$12$x" None None None None 10 1 50 50.
Definition bia : User.t :=
  User.Row "bia@example.com" "bia" "$2b$12$y" None None None None 10 1 60 60.

(** Three snippets: a private and a public one of ana, a private one
    of bia. *)
Definition deploy_keys : Snippet.t :=
  Snippet.Row "Deploy keys" None "token = 42" "bash" ["ops"] false 0 0 300 300 "ana".
Definition hello : Snippet.t :=
  Snippet.Row "Hello" None "print 1" "python" [] true 0 0 200 200 "ana".
Definition notes : Snippet.t :=
  Snippet.Row "Notes" None "todo" "markdown" [] false 0 0 100 100 "bia".

Definition library : world :=
  World (MkDb (<["ana" := ana]> (<["bia" := bia]> ∅))
           (<["s1" := deploy_keys]> (<["s2" := hello]> (<["s3" := notes]> ∅)))
           ∅ ∅ ∅ ∅)
    5000 0 0 [].

Definition no_filter : ListSnippetsQuery.t :=
  ListSnippetsQuery.Make None None None None None None None None None.

Definition search_for (term : string) : ListSnippetsQuery.t :=
  ListSnippetsQuery.Make None None None (Some term) None None None None None.

Definition private_only : ListSnippetsQuery.t :=
  ListSnippetsQuery.Make None None None None None None None None (Some false).

End Sample.

(** ** How a run ends *)

Module Outcomes.
Import Prisma.

(** The run returns, or it is rejected with an instance of [cls]. *)
Definition throws_only (cls : Js.error_class) {A} (r : Js.completion A * world) : Prop :=
  match r.1 with
  | Js.Throw err => Js.instanceof err cls = true
  | Js.Normal _ => True
  end.

(** The run is rejected, or what it returns satisfies [P]. *)
Definition returns_only {A} (P : A -> Prop) (r : Js.completion A * world) : Prop :=
  match r.1 with
  | Js.Normal a => P a
  | Js.Throw _ => True
  end.

(** What a controller answers from the outcome of its service call:
    [ok] of the value returned, or the status and message of the
    [SnippetError] thrown. *)
Definition relay {A} (ok : A -> Express.response) (r : Js.completion A * world)
    : Js.completion Express.response * world :=
  match r with
  | (Js.Normal a, w') => (Js.Normal (ok a), w')
  | (Js.Throw err, w') => (Js.Normal (SnippetController.error_response err), w')
  end.

End Outcomes.

(** ** The rows of a registration *)

Module Welcome.
Import Prisma PrismaClient AuthService.

Section Rows.
Variable e : env.
Variable bcrypt : Bcrypt.t.

(** The row [prisma.user.create] inserts for [userData] in [w]. *)
Definition new_row (userData : RegisterInput.t) (w : world) : User.t :=
  User.Row (RegisterInput.email userData) (RegisterInput.username userData)
    (Bcrypt.hash_with bcrypt (RegisterInput.password userData) 12 (salts w))
    (or_null (RegisterInput.firstName userData))
    (or_null (RegisterInput.lastName userData)) None None 0 1 (clock w) (clock w).

(** The same row once the welcome bonus is credited. *)
Definition credited_row (userData : RegisterInput.t) (w : world) : User.t :=
  User.Row (RegisterInput.email userData) (RegisterInput.username userData)
    (Bcrypt.hash_with bcrypt (RegisterInput.password userData) 12 (salts w))
    (or_null (RegisterInput.firstName userData))
    (or_null (RegisterInput.lastName userData)) None None 10 1 (clock w) (clock w).

(** The transaction of the welcome bonus. *)
Definition bonus_row (w : world) : PointTransaction.t :=
  PointTransaction.Row 10 "Bônus de boas-vindas ao CodeCollab" PointTransaction.BONUS
    (clock w) (cuid e (ids w)).

(** Nothing of [w] stands in the way of registering [userData]: the
    email and the user name are free, so are the two ids the
    database generates next, and the strings of the new row can be
    stored. *)
Definition free (userData : RegisterInput.t) (w : world) : Prop :=
  find_row (λ u, String.eqb (User.email u) (RegisterInput.email userData))
    (users (db w)) = None /\
  find_row (λ u, String.eqb (User.username u) (RegisterInput.username userData))
    (users (db w)) = None /\
  users (db w) !! cuid e (ids w) = None /\
  pointTransactions (db w) !! cuid e (S (ids w)) = None /\
  storable_user (Registration.create_data bcrypt userData w) = true.

End Rows.

End Welcome.

(** ** Listings *)

Module Listing.
Import Prisma.

(** The stored snippets a [where] clause selects. *)
Definition matching (wh : SnippetWhere) (w : world) : list (string * Snippet.t) :=
  filter (λ kv, where_holds wh kv.2 = true) (map_to_list (snippets (db w))).

(** The ids and rows of a list of results. *)
Definition rows (l : list SnippetResult) : list (string * Snippet.t) :=
  map (λ x, (id x, snippet x)) l.

(** The keys an included author or reviewer may have. *)
Definition public_profile (o : object) : Prop :=
  forall k, is_Some (o !! k) -> k ∈ ["id"; "username"; "firstName"; "lastName"; "avatar"].

(** A result that shows of its author and of its reviewers the
    public profile only. *)
Definition discreet (r : SnippetResult) : Prop :=
  (forall o, author r = Some o -> public_profile o) /\
  (forall x o, x ∈ reviews_of r -> x.2 = Some o -> public_profile o).

End Listing.

(** ** The format of passwords and of snippet ids *)

Module PasswordFormat.

Definition lower (c : ascii) : Prop := (97 <= Js.code c <= 122)%N.
Definition upper (c : ascii) : Prop := (65 <= Js.code c <= 90)%N.
Definition digit (c : ascii) : Prop := (48 <= Js.code c <= 57)%N.

Definition line_terminator (c : ascii) : Prop := Js.code c = 10%N \/ Js.code c = 13%N.

(** A character with [P] occurs in [s] before any line terminator. *)
Definition on_first_line (P : ascii -> Prop) (s : string) : Prop :=
  exists pre c post,
    list_ascii_of_string s = pre ++ c :: post /\ P c /\
    Forall (λ x, ~ line_terminator x) pre.

Definition password_ok (s : string) : Prop :=
  (6 <= String.length s <= 128)%nat /\
  on_first_line lower s /\ on_first_line upper s /\ on_first_line digit s.

End PasswordFormat.

Module SnippetIdFormat.

Definition id_char (c : ascii) : Prop :=
  UsernameFormat.word_char c \/ Js.code c = 45%N.

Definition id_ok (s : string) : Prop :=
  s <> "" /\ Forall id_char (list_ascii_of_string s).

End SnippetIdFormat.

(** ** New snippets *)

Module Creation.
Import Prisma PrismaClientRest.

(** The strings of [snippetData] can be stored: none of them has
    the code unit 0, which a text column refuses. *)
Definition storable_input (snippetData : CreateSnippetInput.t) : bool :=
  storable_snippet (CreateSnippetInput.title snippetData)
    (CreateSnippetInput.description snippetData)
    (CreateSnippetInput.content snippetData)
    (CreateSnippetInput.language snippetData)
    (default [] (CreateSnippetInput.tags snippetData)).

End Creation.

(** ** More of the small installation *)

Module Scenes.
Import Prisma PrismaClient PrismaClientRest AuthService Sample.

(** The installation once bob has registered. *)
Definition w_bob : world := (registerUser calm demo_bcrypt bob w_alice).2.

(** The installation an hour and more after the token of alice was
    issued. *)
Definition w_later : world := World (db w_alice) 4000000 0 0 [].

(** A public snippet of ana whose view counter is full, in the
    library. *)
Definition viral : Snippet.t :=
  Snippet.Row "Viral" None "echo" "bash" [] true 2147483647 0 400 400 "ana".

Definition w_viral : world :=
  World (set_snippets <["s4" := viral]> (db library)) 5000 0 0 [].

(** [prisma.snippet.create] is not rejected and nobody else writes. *)
Definition ready : create_env := CreateEnv None (λ d, d).

Definition gist : CreateSnippetInput.t :=
  CreateSnippetInput.Make "Gist" None "ls -la" "bash" None None.

(** The same with the code unit 0 in the title. *)
Definition unstorable_gist : CreateSnippetInput.t :=
  CreateSnippetInput.Make (String (Ascii.ascii_of_nat 0) "Gist") None "ls -la" "bash"
    None None.

Definition page_zero : ListSnippetsQuery.t :=
  ListSnippetsQuery.Make (Some 0) None None None None None None None None.

Definition retitle : SnippetUpdateInput :=
  SnippetData (Some "Hello, world") None None None None None.

(** A request for the snippet [snippetId] by [caller]. *)
Definition for_snippet (snippetId : string) (caller : option string) : Express.request :=
  Express.Request {["id" := snippetId]} caller.

End Scenes.

(* ================================================================= *)
(** * Properties                                                      *)
(* ================================================================= *)

Module AuthSchemaFacts.
Import Zod AuthSchema UsernameFormat.

Lemma class_matches_word c :
  class_matches [("a", "z"); ("A", "Z"); ("0", "9"); ("_", "_")]%char c = true
  <-> word_char c.
Proof.
  unfold class_matches, word_char, Js.between, Js.code; simpl.
  rewrite !orb_true_iff, !andb_true_iff, !N.leb_le. lia.
Qed.

Lemma forallb_word cs :
  forallb (class_matches [("a", "z"); ("A", "Z"); ("0", "9"); ("_", "_")]%char) cs = true
  <-> Forall word_char cs.
Proof.
  induction cs as [|c cs IH].
  - split; [constructor | reflexivity].
  - cbn [forallb]. rewrite andb_true_iff, Forall_cons, IH, class_matches_word. tauto.
Qed.

Lemma regexp_test_word s :
  regexp_test (AnchoredPlus [("a", "z"); ("A", "Z"); ("0", "9"); ("_", "_")]%char) s = true
  <-> s <> "" /\ Forall word_char (list_ascii_of_string s).
Proof.
  unfold regexp_test. destruct s as [|c r].
  - cbn. split; [discriminate | intros [H _]; congruence].
  - cbn [list_ascii_of_string]. rewrite forallb_word.
    split; [intros H; split; [discriminate | done] | tauto].
Qed.

Lemma word_char_not_space c : word_char c -> Js.is_space (Js.lower_char c) = false.
Proof.
  intros H. apply class_matches_word in H. revert H.
  destruct c as [[] [] [] [] [] [] [] []]; vm_compute; congruence.
Qed.

Lemma trimEnd_id s :
  Forall (λ c, Js.is_space c = false) (list_ascii_of_string s) -> Js.trimEnd s = s.
Proof.
  induction s as [|c r IH]; [done|].
  cbn [list_ascii_of_string]. rewrite Forall_cons. intros [Hc Hr].
  cbn [Js.trimEnd]. rewrite IH by done. destruct r; [by rewrite Hc | done].
Qed.

Lemma trim_id s :
  Forall (λ c, Js.is_space c = false) (list_ascii_of_string s) -> Js.trim s = s.
Proof.
  intros H. unfold Js.trim.
  assert (Js.trimStart s = s) as ->; [|by apply trimEnd_id].
  destruct s as [|c r]; [done|]. cbn [list_ascii_of_string] in H.
  apply Forall_cons in H as [Hc _]. cbn. by rewrite Hc.
Qed.

Lemma toLowerCase_chars s :
  list_ascii_of_string (Js.toLowerCase s) = map Js.lower_char (list_ascii_of_string s).
Proof. induction s as [|c r IH]; [done|]. cbn. by rewrite IH. Qed.

Lemma trim_toLowerCase_word s :
  Forall word_char (list_ascii_of_string s) ->
  Js.trim (Js.toLowerCase s) = Js.toLowerCase s.
Proof.
  intros H. apply trim_id. rewrite toLowerCase_chars, Forall_map.
  eapply Forall_impl; [exact H|]. intros c Hc. by apply word_char_not_space.
Qed.

(** The three validating checks of the chain, evaluated on [s]. *)
Lemma parse_username_unfold s :
  parse_username (Js.VString s) =
  let issues :=
    (if (String.length s <? 3)%nat
     then [Issue ["username"] "Nome de usuário deve ter no mínimo 3 caracteres"] else []) ++
    (if (30 <? String.length s)%nat
     then [Issue ["username"] "Nome de usuário deve ter no máximo 30 caracteres"] else []) ++
    (if regexp_test (AnchoredPlus [("a", "z"); ("A", "Z"); ("0", "9"); ("_", "_")]%char) s
     then [] else [Issue ["username"]
                     "Nome de usuário pode conter apenas letras, números e underscore"]) in
  match issues with
  | [] => ParseSuccess (Js.trim (Js.toLowerCase s))
  | _ => ParseFailure issues
  end.
Proof.
  unfold parse_username, parse_string, registerSchema_username, checks, runChecks.
  cbn [fold_left run_check].
  destruct (String.length s <? 3)%nat; cbn [run_check app];
    (destruct (30 <? String.length s)%nat; cbn [run_check app];
     (destruct (regexp_test _ s); reflexivity)).
Qed.

Lemma username_ok_iff s :
  username_ok s <->
  (String.length s <? 3)%nat = false /\ (30 <? String.length s)%nat = false /\
  regexp_test (AnchoredPlus [("a", "z"); ("A", "Z"); ("0", "9"); ("_", "_")]%char) s = true.
Proof.
  unfold username_ok. rewrite regexp_test_word, !Nat.ltb_ge.
  split.
  - intros [[H1 H2] H3]. repeat split; try done.
    intros ->. cbn in H1. lia.
  - intros (H1 & H2 & _ & H3). done.
Qed.

(** C5 (as the code has it): the validator accepts exactly the user
    names of 3 to 30 characters that match [^[a-zA-Z0-9_]+$]; an
    accepted name is returned in lower case (trimming changes
    nothing); every other string is rejected with a non-empty list
    of issues, each of which the middleware reports under the field
    ["username"]. *)
Theorem parse_username_accepts_3_to_30_word_chars (s : string) :
  (accepted s <-> username_ok s) /\
  (username_ok s ->
     parse_username (Js.VString s) = ParseSuccess (Js.trim (Js.toLowerCase s)) /\
     Js.trim (Js.toLowerCase s) = Js.toLowerCase s) /\
  (~ username_ok s ->
     exists issues,
       parse_username (Js.VString s) = ParseFailure issues /\
       issues <> [] /\
       Forall (λ e, field e = "username") (formattedErrors issues)).
Proof.
  assert (Hok : username_ok s ->
     parse_username (Js.VString s) = ParseSuccess (Js.trim (Js.toLowerCase s))).
  { intros H. apply username_ok_iff in H as (H1 & H2 & H3).
    rewrite parse_username_unfold, H1, H2, H3. reflexivity. }
  assert (Hbad : ~ username_ok s ->
     exists issues,
       parse_username (Js.VString s) = ParseFailure issues /\
       issues <> [] /\
       Forall (λ e, field e = "username") (formattedErrors issues)).
  { intros H. rewrite username_ok_iff in H. rewrite parse_username_unfold.
    destruct (String.length s <? 3)%nat, (30 <? String.length s)%nat,
      (regexp_test _ s); cbn;
      try (exfalso; apply H; done);
      (eexists; split; [reflexivity|]; split; [discriminate|];
       repeat constructor). }
  split; [|split; [|done]].
  - split.
    + intros [out Hout]. destruct (decide (username_ok s)) as [|Hn]; [done|].
      destruct (Hbad Hn) as (issues & Hf & _). congruence.
    + intros H. eexists. by apply Hok.
  - intros H. split; [by apply Hok|]. apply trim_toLowerCase_word, H.
Qed.

Example parse_username_johndoe :
  parse_username (Js.VString "JohnDoe_42") = ParseSuccess "johndoe_42".
Proof. reflexivity. Qed.

Example parse_username_missing :
  parse_username Js.VUndefined
  = ParseFailure [Issue ["username"] "Nome de usuário deve ser uma string"].
Proof. reflexivity. Qed.

Example parse_username_two_issues :
  formattedErrors
    match parse_username (Js.VString "a ") with
    | ParseSuccess _ => []
    | ParseFailure issues => issues
    end
  = [ FieldError "username" "Nome de usuário deve ter no mínimo 3 caracteres";
      FieldError "username"
        "Nome de usuário pode conter apenas letras, números e underscore" ].
Proof. reflexivity. Qed.

(** C5 fails as stated: a 40-character user name and a user name
    with a hyphen are both within the 3-50 / [[a-zA-Z0-9_-]] format
    of the specification, and the validator rejects both. *)
Lemma parse_username_rejects_spec_usernames :
  spec_username_ok "aaaaaaaaaabbbbbbbbbbccccccccccdddddddddd" /\
  parse_username (Js.VString "aaaaaaaaaabbbbbbbbbbccccccccccdddddddddd")
  = ParseFailure
      [Issue ["username"] "Nome de usuário deve ter no máximo 30 caracteres"] /\
  spec_username_ok "mary-ann" /\
  parse_username (Js.VString "mary-ann")
  = ParseFailure
      [Issue ["username"]
         "Nome de usuário pode conter apenas letras, números e underscore"].
Proof.
  assert (Hspec : forall s,
    ((3 <=? String.length s)%nat && (String.length s <=? 50)%nat &&
     forallb (λ c, class_matches
                     [("a", "z"); ("A", "Z"); ("0", "9"); ("_", "_"); ("-", "-")]%char c)
             (list_ascii_of_string s)) = true -> spec_username_ok s).
  { intros s. rewrite !andb_true_iff, !Nat.leb_le, forallb_forall.
    intros [[H1 H2] H3]. split; [lia|]. apply Forall_forall. intros c Hc.
    apply list_elem_of_In, H3 in Hc. revert Hc.
    unfold class_matches, word_char, Js.between, Js.code. cbn [existsb fst snd].
    rewrite !orb_true_iff, !andb_true_iff, !N.leb_le. cbn. lia. }
  repeat split; try (apply Hspec; reflexivity); reflexivity.
Qed.
End AuthSchemaFacts.

(* ================================================================= *)
(** ** The JWT middleware                                             *)
(* ================================================================= *)

Module AuthMiddlewareFacts.
Import AuthMiddleware Sample.

Section Facts.
Variable jwt : Jwt.codec.
Variable jwtSecret : string.
Variable now : Z.

Lemma startsWith_Bearer (t : string) : Js.startsWith ("Bearer " +:+ t) "Bearer " = true.
Proof. cbn. by destruct t. Qed.

Lemma extract_token_Bearer (t : string) :
  extract_token ("Bearer " +:+ t) = t.
Proof. unfold extract_token. rewrite startsWith_Bearer. reflexivity. Qed.

Lemma extract_token_bare (h : string) :
  Js.startsWith h "Bearer " = false -> extract_token h = h.
Proof. unfold extract_token. by intros ->. Qed.

Lemma truthy_nonempty (s : string) : s <> "" -> Js.truthy s = true.
Proof. by destruct s. Qed.

Lemma truthy_Bearer (t : string) : Js.truthy ("Bearer " +:+ t) = true.
Proof. reflexivity. Qed.

(** The required-mode middleware on a header that carries the
    non-empty token [t], bare or after the prefix: the answer only
    depends on [jwt.verify t]. *)
Lemma authenticateToken_with_token (h t : string) (u : option Jwt.claims) :
  Js.truthy h = true -> extract_token h = t -> t <> "" ->
  authenticateToken jwt jwtSecret now (Request (Some h) u) =
  match Jwt.verify jwt now t jwtSecret with
  | Js.Normal decoded => Next (Request (Some h) (Some decoded))
  | Js.Throw error =>
      if Js.instanceof error Js.JsonWebTokenError then
        Respond 401 (Body false "Token inválido" "Token JWT inválido ou malformado")
      else if Js.instanceof error Js.TokenExpiredError then
        Respond 401 (Body false "Token expirado" "Token JWT expirado")
      else
        Respond 500 (Body false "Erro interno do servidor" "Erro durante autenticação")
  end.
Proof.
  intros Hh Ht Hne. unfold authenticateToken, authenticateToken_with. cbn [authorization Js.truthy_opt default from_option id].
  rewrite Hh, Ht, (truthy_nonempty t Hne). reflexivity.
Qed.

Lemma optionalAuth_with_token (h t : string) (u : option Jwt.claims) :
  Js.truthy h = true -> extract_token h = t -> t <> "" ->
  optionalAuth jwt jwtSecret now (Request (Some h) u) =
  match Jwt.verify jwt now t jwtSecret with
  | Js.Normal decoded => Next (Request (Some h) (Some decoded))
  | Js.Throw _ => Next (Request (Some h) u)
  end.
Proof.
  intros Hh Ht Hne. unfold optionalAuth. cbn [authorization Js.truthy_opt default from_option id].
  rewrite Hh, Ht, (truthy_nonempty t Hne). reflexivity.
Qed.

(** [jwt.verify] on a well-formed, correctly signed token that is
    past its expiration. *)
Lemma verify_expired (t : string) (j : Jwt.jws) :
  t <> "" ->
  Jwt.decode jwt t = Some j -> Jwt.jws_key j = jwtSecret ->
  Jwt.exp (Jwt.jws_payload j) <= now ->
  Jwt.verify jwt now t jwtSecret
  = Js.Throw (Js.Exn Js.TokenExpiredError "jwt expired" None None).
Proof.
  intros Ht Hd Hk He. unfold Jwt.verify.
  rewrite (truthy_nonempty t Ht), Hd, Hk, String.eqb_refl. cbn [negb].
  by apply Z.leb_le in He as ->.
Qed.

Lemma verify_invalid (t : string) :
  (Jwt.decode jwt t = None \/
   exists j, Jwt.decode jwt t = Some j /\ Jwt.jws_key j <> jwtSecret) ->
  exists m, Jwt.verify jwt now t jwtSecret
            = Js.Throw (Js.Exn Js.JsonWebTokenError m None None).
Proof.
  unfold Jwt.verify. destruct (negb (Js.truthy t)); [by eexists|].
  intros [-> | (j & -> & Hk)]; [by eexists|].
  apply String.eqb_neq in Hk as ->. by eexists.
Qed.

(** C6 (the code departs from the claim): a token past its
    expiration is reported by [jwt.verify] as expired, and the
    required-mode middleware answers it with status 401 and the
    very same body it sends for a malformed token or a token with
    an invalid signature: the [instanceof JsonWebTokenError] test
    comes first and [TokenExpiredError] is a subclass of it, so the
    "Token expirado" branch is never taken. *)
Theorem authenticateToken_expired_answered_as_invalid
    (t t' : string) (j : Jwt.jws) (u : option Jwt.claims) :
  t <> "" -> t' <> "" ->
  Jwt.decode jwt t = Some j -> Jwt.jws_key j = jwtSecret ->
  Jwt.exp (Jwt.jws_payload j) <= now ->
  (Jwt.decode jwt t' = None \/
   exists j', Jwt.decode jwt t' = Some j' /\ Jwt.jws_key j' <> jwtSecret) ->
  Jwt.verify jwt now t jwtSecret
  = Js.Throw (Js.Exn Js.TokenExpiredError "jwt expired" None None) /\
  authenticateToken jwt jwtSecret now (Request (Some ("Bearer " +:+ t)) u)
  = Respond 401 (Body false "Token inválido" "Token JWT inválido ou malformado") /\
  authenticateToken jwt jwtSecret now (Request (Some ("Bearer " +:+ t')) u)
  = Respond 401 (Body false "Token inválido" "Token JWT inválido ou malformado").
Proof.
  intros Ht Ht' Hd Hk He Hbad.
  pose proof (verify_expired t j Ht Hd Hk He) as Hv.
  destruct (verify_invalid t' Hbad) as [m Hv'].
  split; [done|]. split.
  - rewrite (authenticateToken_with_token _ t u (truthy_Bearer t)
               (extract_token_Bearer t) Ht), Hv. reflexivity.
  - rewrite (authenticateToken_with_token _ t' u (truthy_Bearer t')
               (extract_token_Bearer t') Ht'), Hv'. reflexivity.
Qed.

(** C10: a present header that does not begin with "Bearer " is
    taken whole as the token; when it is a valid token both
    middlewares attach its claims, exactly as they do when the
    same token follows the prefix. *)
Theorem bare_header_is_the_token
    (h : string) (decoded : Jwt.claims) (u : option Jwt.claims) :
  h <> "" -> Js.startsWith h "Bearer " = false ->
  Jwt.verify jwt now h jwtSecret = Js.Normal decoded ->
  extract_token h = h /\
  authenticateToken jwt jwtSecret now (Request (Some h) u)
  = Next (Request (Some h) (Some decoded)) /\
  optionalAuth jwt jwtSecret now (Request (Some h) u)
  = Next (Request (Some h) (Some decoded)) /\
  authenticateToken jwt jwtSecret now (Request (Some ("Bearer " +:+ h)) u)
  = Next (Request (Some ("Bearer " +:+ h)) (Some decoded)) /\
  optionalAuth jwt jwtSecret now (Request (Some ("Bearer " +:+ h)) u)
  = Next (Request (Some ("Bearer " +:+ h)) (Some decoded)).
Proof.
  intros Hne Hbare Hv. pose proof (extract_token_bare h Hbare) as Hx.
  split; [done|].
  rewrite (authenticateToken_with_token h h u (truthy_nonempty h Hne) Hx Hne).
  rewrite (optionalAuth_with_token h h u (truthy_nonempty h Hne) Hx Hne).
  rewrite (authenticateToken_with_token _ h u (truthy_Bearer h)
             (extract_token_Bearer h) Hne).
  rewrite (optionalAuth_with_token _ h u (truthy_Bearer h)
             (extract_token_Bearer h) Hne).
  by rewrite Hv.
Qed.

(** The same holds whatever [jwt.verify] says of the bare header:
    both middlewares end as they do for the prefixed header, up to
    the header they leave on the request. *)
Lemma bare_header_same_answer (h : string) (u : option Jwt.claims) :
  h <> "" -> Js.startsWith h "Bearer " = false ->
  match authenticateToken jwt jwtSecret now (Request (Some h) u),
        authenticateToken jwt jwtSecret now (Request (Some ("Bearer " +:+ h)) u) with
  | Next r1, Next r2 => user r1 = user r2
  | Respond s1 b1, Respond s2 b2 => s1 = s2 /\ b1 = b2
  | _, _ => False
  end.
Proof.
  intros Hne Hbare. pose proof (extract_token_bare h Hbare) as Hx.
  rewrite (authenticateToken_with_token h h u (truthy_nonempty h Hne) Hx Hne).
  rewrite (authenticateToken_with_token _ h u (truthy_Bearer h)
             (extract_token_Bearer h) Hne).
  destruct (Jwt.verify jwt now h jwtSecret) as [d|err]; [done|].
  destruct (Js.instanceof err Js.JsonWebTokenError); [done|].
  by destruct (Js.instanceof err Js.TokenExpiredError).
Qed.

End Facts.

Lemma authenticateToken_expired_answered_as_invalid_witness :
  Jwt.verify three_tokens 1000 "old" "s3cret"
  = Js.Throw (Js.Exn Js.TokenExpiredError "jwt expired" None None) /\
  authenticateToken three_tokens "s3cret" 1000 (Request (Some "Bearer old") None)
  = Respond 401 (Body false "Token inválido" "Token JWT inválido ou malformado") /\
  authenticateToken three_tokens "s3cret" 1000 (Request (Some "Bearer forged") None)
  = Respond 401 (Body false "Token inválido" "Token JWT inválido ou malformado").
Proof.
  apply (authenticateToken_expired_answered_as_invalid three_tokens "s3cret" 1000
           "old" "forged" (Jwt.Jws (alice_claims 500) "s3cret") None).
  - discriminate.
  - discriminate.
  - reflexivity.
  - reflexivity.
  - simpl. lia.
  - right. exists (Jwt.Jws (alice_claims 2000) "other"). split; [reflexivity | discriminate].
Defined.

Lemma bare_header_is_the_token_witness :
  extract_token "good" = "good" /\
  authenticateToken three_tokens "s3cret" 1000 (Request (Some "good") None)
  = Next (Request (Some "good") (Some (alice_claims 2000))) /\
  optionalAuth three_tokens "s3cret" 1000 (Request (Some "good") None)
  = Next (Request (Some "good") (Some (alice_claims 2000))) /\
  authenticateToken three_tokens "s3cret" 1000 (Request (Some "Bearer good") None)
  = Next (Request (Some "Bearer good") (Some (alice_claims 2000))) /\
  optionalAuth three_tokens "s3cret" 1000 (Request (Some "Bearer good") None)
  = Next (Request (Some "Bearer good") (Some (alice_claims 2000))).
Proof.
  apply (bare_header_is_the_token three_tokens "s3cret" 1000 "good" (alice_claims 2000) None).
  - discriminate.
  - reflexivity.
  - reflexivity.
Defined.

Example authenticateToken_no_header :
  authenticateToken three_tokens "s3cret" 1000 (Request None None)
  = Respond 401 (Body false "Token de acesso necessário"
                   "Authorization header não fornecido").
Proof. reflexivity. Qed.

Example authenticateToken_empty_token :
  authenticateToken three_tokens "s3cret" 1000 (Request (Some "Bearer ") None)
  = Respond 401 (Body false "Token de acesso necessário" "Token não fornecido").
Proof. reflexivity. Qed.

Example optionalAuth_expired_continues :
  optionalAuth three_tokens "s3cret" 1000 (Request (Some "Bearer old") None)
  = Next (Request (Some "Bearer old") None).
Proof. reflexivity. Qed.

End AuthMiddlewareFacts.

(* ================================================================= *)
(** ** The authentication service                                     *)
(* ================================================================= *)

Module AuthServiceFacts.
Import Prisma PrismaClient AuthService Conditions Registration Sample.

(** Inversion of the monadic combinators on a normal completion. *)
Lemma bind_Normal_inv {A B} (m : M A) (k : A -> M B) w b w' :
  bind m k w = (Js.Normal b, w') ->
  exists a w1, m w = (Js.Normal a, w1) /\ k a w1 = (Js.Normal b, w').
Proof.
  unfold bind. destruct (m w) as [[a|err] w1]; [eauto | discriminate].
Qed.

Lemma try_catch_Normal_inv {A} (m : M A) (h : Js.exn -> M A) w a w' :
  try_catch m h w = (Js.Normal a, w') ->
  m w = (Js.Normal a, w') \/
  exists err w1, m w = (Js.Throw err, w1) /\ h err w1 = (Js.Normal a, w').
Proof.
  unfold try_catch. destruct (m w) as [[a0|err] w1]; [by left | right; eauto].
Qed.

Lemma ret_Normal_inv {A} (a b : A) w w' :
  ret a w = (Js.Normal b, w') -> a = b /\ w = w'.
Proof. unfold ret. intros [= -> ->]. done. Qed.

Lemma throw_not_Normal {A} (err : Js.exn) w (a : A) w' :
  throw err w = (Js.Normal a, w') -> False.
Proof. discriminate. Qed.

Lemma log_throw_not_Normal {A} (label : string) (err err' : Js.exn) w (a : A) w' :
  bind (console_error label err) (λ _, throw err') w = (Js.Normal a, w') -> False.
Proof. discriminate. Qed.

Ltac no_throw H := exfalso; revert H; apply throw_not_Normal.
Ltac no_log_throw H := exfalso; revert H; apply log_throw_not_Normal.

Ltac inv_bind H :=
  let a := fresh "a" in let w := fresh "w" in let H1 := fresh H in
  apply bind_Normal_inv in H as (a & w & H1 & H).

Section Facts.
Variable e : env.
Variable bcrypt : Bcrypt.t.
Variable jwt : Jwt.codec.
Variable jwtSecret : string.

(** C7: when the look-up by email finds no user, or finds one
    whose stored hash does not match the password, [loginUser]
    throws the same [AuthError("Credenciais inválidas", 401)];
    nothing is returned (so no token is issued) and the request
    itself writes nothing. *)
Theorem loginUser_invalid_credentials (loginData : LoginInput.t) (w : world) :
  fault e UserFindUniqueByEmail = None ->
  let w1 := set_db (concurrent e UserFindUniqueByEmail) w in
  let found :=
    find_row (λ u, String.eqb (User.email u) (LoginInput.email loginData))
      (users (db w1)) in
  (found = None \/
   exists row, found = Some row /\
     Bcrypt.compare_with bcrypt (LoginInput.password loginData)
       (User.password row.2) = false) ->
  loginUser e bcrypt jwt jwtSecret loginData w
  = (Js.Throw (Js.new_AuthError "Credenciais inválidas" 401), w1).
Proof.
  intros Hf w1 found H.
  unfold loginUser, try_catch, bind, user_findUnique_email, call.
  rewrite Hf. fold w1. fold found.
  destruct H as [-> | (row & -> & Hc)].
  - reflexivity.
  - unfold Bcrypt.compare, ret. rewrite Hc. reflexivity.
Qed.

Lemma user_object_keys (id : string) (u : User.t) (k : string) (v : Js.value) :
  user_object id u !! k = Some v -> k = "password" \/ k ∈ select_UserResponse.
Proof.
  intros H. apply elem_of_list_to_map_2 in H.
  rewrite !elem_of_cons, elem_of_nil in H.
  destruct_or!; simplify_eq; first [by left | right; compute_done].
Qed.

(** The object a [UserResponse] query returns for a row: all its
    columns but [password]. *)
Lemma select_UserResponse_row (id : string) (u : User.t) :
  select select_UserResponse (user_object id u) = delete "password" (user_object id u).
Proof.
  apply map_eq. intros k. unfold select.
  destruct (decide (k = "password")) as [->|Hk].
  - rewrite lookup_delete_eq. apply map_lookup_filter_None. right.
    intros v _ Hin. cbn in Hin. revert Hin.
    change ("password" ∉ select_UserResponse). compute_done.
  - rewrite lookup_delete_ne by done.
    destruct (user_object id u !! k) as [v|] eqn:Hv.
    + apply map_lookup_filter_Some. split; [done|]. cbn.
      by destruct (user_object_keys _ _ _ _ Hv).
    + apply map_lookup_filter_None. by left.
Qed.

Lemma select_with_password_row (id : string) (u : User.t) :
  delete "password" (select ("password" :: select_UserResponse) (user_object id u))
  = delete "password" (user_object id u).
Proof.
  apply map_eq. intros k. unfold select.
  destruct (decide (k = "password")) as [->|Hk].
  - by rewrite !lookup_delete_eq.
  - rewrite !lookup_delete_ne by done.
    destruct (user_object id u !! k) as [v|] eqn:Hv.
    + apply map_lookup_filter_Some. split; [done|]. cbn.
      destruct (user_object_keys _ _ _ _ Hv); [done|]. by apply elem_of_cons; right.
    + apply map_lookup_filter_None. by left.
Qed.


Lemma loginUser_returns (loginData : LoginInput.t) w r w' :
  loginUser e bcrypt jwt jwtSecret loginData w = (Js.Normal r, w') ->
  exists row,
    user r = delete "password" (select_user ("password" :: select_UserResponse) row) /\
    token r = Jwt.sign jwt (clock w' / 1000) row.1 (User.email row.2)
                (User.username row.2) jwtSecret "codecollab-api" row.1.
Proof.
  intros H. unfold loginUser in H.
  apply try_catch_Normal_inv in H as [H | (err & w1 & _ & H)].
  - inv_bind H. destruct a as [row|]; [|no_throw H].
    inv_bind H. destruct a; [|no_throw H].
    inv_bind H. apply ret_Normal_inv in H as [<- <-].
    apply ret_Normal_inv in H2 as [<- <-]. exists row. done.
  - destruct (Js.instanceof err Js.AuthError);
      [no_throw H | no_log_throw H].
Qed.




Lemma call_ok {A} (o : op) (run : M A) (w : world) :
  fault e o = None -> call e o run w = run (set_db (concurrent e o) w).
Proof. unfold call. by intros ->. Qed.

Lemma call_fault {A} (o : op) (run : M A) (w : world) (err : Js.exn) :
  fault e o = Some err ->
  call e o run w = (Js.Throw err, set_db (concurrent e o) w).
Proof. unfold call. by intros ->. Qed.

(** [registerUser] once both pre-checks have passed: what is left
    is the creation, the welcome bonus and the handler. *)
Lemma registerUser_after_prechecks (userData : RegisterInput.t) (w : world) :
  prechecks_pass e userData w ->
  registerUser e bcrypt userData w =
  try_catch
    (await created :=
       user_create e
         (UserData (RegisterInput.email userData) (RegisterInput.username userData)
            (Bcrypt.hash_with bcrypt (RegisterInput.password userData) 12
               (salts w))
            (or_null (RegisterInput.firstName userData))
            (or_null (RegisterInput.lastName userData))) in
     await _ :=
       promise_all3
         (pointTransaction_create e created.1 10
            "Bônus de boas-vindas ao CodeCollab" PointTransaction.BONUS)
         (user_update_points_increment e created.1 10)
         (awardWelcomeBadge e created.1) in
     ret (select_user select_UserResponse created))
    (λ error,
       if Js.instanceof error Js.AuthError then throw error
       else
         await _ := console_error "Error registering user:" error in
         throw (Js.new_AuthError "Erro interno do servidor ao registrar usuário" 500))
    (Bcrypt.hash bcrypt (RegisterInput.password userData) 12
       (set_db (concurrent e UserFindUniqueByUsername)
          (set_db (concurrent e UserFindUniqueByEmail) w))).2.
Proof.
  intros (Hf1 & Hf2 & H1 & H2).
  unfold registerUser, try_catch at 1, bind at 1.
  unfold user_findUnique_email. rewrite (call_ok _ _ _ Hf1), H1.
  cbn [bool_decide decide_rel is_Some_dec option_eq_None_dec].
  unfold bind at 1, user_findUnique_username. rewrite (call_ok _ _ _ Hf2), H2.
  reflexivity.
Qed.

Lemma user_create_duplicate (userData : RegisterInput.t) (w : world) :
  fault e UserCreate = None ->
  duplicate_at_create e bcrypt userData w ->
  exists target,
    user_create e (create_data bcrypt userData w) (before_create e bcrypt userData w)
    = (Js.Throw (P2002 target),
       (fresh_id e (set_db (concurrent e UserCreate) (before_create e bcrypt userData w))).2).
Proof.
  intros Hf [Hst Hdup]. unfold user_create. rewrite (call_ok _ _ _ Hf).
  cbn zeta in Hdup. cbn [fresh_id]. rewrite Hst. cbn [negb].
  cbn [create_data data_email data_username db].
  destruct (has_row (λ u, String.eqb (User.email u) _) _) eqn:He; [by eexists|].
  destruct Hdup as [Hdup | Hdup]; [done|].
  rewrite Hdup. by eexists.
Qed.

(** C4 (the code departs from the claim): when both pre-checks pass
    and [prisma.user.create] is then rejected by the unique index on
    [email] or [username], because a concurrent registration
    committed in between, [registerUser] does not answer with the
    409 of its pre-checks: its catch block never looks at the code
    of the store's error, so it logs the error and throws
    [AuthError] with status 500 and the generic message.  Nothing is
    inserted. *)
Theorem registerUser_lost_race_is_500 (userData : RegisterInput.t) (w : world) :
  prechecks_pass e userData w ->
  fault e UserCreate = None ->
  duplicate_at_create e bcrypt userData w ->
  exists target w',
    registerUser e bcrypt userData w
    = (Js.Throw (Js.new_AuthError "Erro interno do servidor ao registrar usuário" 500),
       w') /\
    console w' = console w ++ [("Error registering user:", P2002 target)] /\
    db w' = db (set_db (concurrent e UserCreate) (before_create e bcrypt userData w)).
Proof.
  intros Hpre Hf Hdup.
  destruct (user_create_duplicate userData w Hf Hdup) as [target Hc].
  exists target. eexists.
  rewrite (registerUser_after_prechecks userData w Hpre).
  unfold try_catch, bind at 1. fold (before_create e bcrypt userData w).
  fold (create_data bcrypt userData w). rewrite Hc.
  cbn [Js.instanceof P2002 Js.exn_class Js.prototype_chain].
  split; [reflexivity|]. split; reflexivity.
Qed.

(** The pre-check itself answers a duplicate with status 409. *)
Lemma registerUser_precheck_is_409 (userData : RegisterInput.t) (w : world) row :
  fault e UserFindUniqueByEmail = None ->
  find_row (λ u, String.eqb (User.email u) (RegisterInput.email userData))
    (users (db (set_db (concurrent e UserFindUniqueByEmail) w))) = Some row ->
  registerUser e bcrypt userData w
  = (Js.Throw (Js.new_AuthError "Usuário com este email já existe" 409),
     set_db (concurrent e UserFindUniqueByEmail) w).
Proof.
  intros Hf H. unfold registerUser, try_catch, bind at 1, user_findUnique_email.
  rewrite (call_ok _ _ _ Hf), H. reflexivity.
Qed.

(** [awardWelcomeBadge] never rejects: its handler logs the error
    and returns. *)
Lemma awardWelcomeBadge_never_throws (userId : string) (w : world) :
  exists w', awardWelcomeBadge e userId w = (Js.Normal tt, w').
Proof.
  unfold awardWelcomeBadge, try_catch.
  match goal with |- context [bind ?m ?k w] => destruct (bind m k w) as [[[]|err] w1] end.
  - by eexists.
  - by eexists.
Qed.

Lemma pointTransaction_create_throws (userId : string) (amount : Z) (reason : string)
    (type : PointTransaction.TransactionType) (w w' : world) (x : Js.exn) :
  fault e PointTransactionCreate = None ->
  pointTransaction_create e userId amount reason type w = (Js.Throw x, w') ->
  Js.instanceof x Js.AuthError = false.
Proof.
  intros Hf. unfold pointTransaction_create. rewrite (call_ok _ _ _ Hf).
  cbn [fresh_id]. destruct (negb _); [by intros [= <- _]|].
  destruct (bool_decide _); [by intros [= <- _] | discriminate].
Qed.

(** The first two members of the [Promise.all] of [registerUser]
    are not guarded: when one of them is rejected, the whole is. *)
Lemma welcome_bonus_rejected (userId : string) (w : world) (err : Js.exn) :
  store_faults e ->
  fault e PointTransactionCreate = Some err \/ fault e UserUpdate = Some err ->
  exists x w',
    promise_all3
      (pointTransaction_create e userId 10 "Bônus de boas-vindas ao CodeCollab"
         PointTransaction.BONUS)
      (user_update_points_increment e userId 10)
      (awardWelcomeBadge e userId) w
    = (Js.Throw x, w') /\
    Js.instanceof x Js.AuthError = false.
Proof.
  intros Hstore [Hf | Hf]; unfold promise_all3.
  - unfold pointTransaction_create at 1. rewrite (call_fault _ _ _ _ Hf).
    destruct (user_update_points_increment _ _ _ _) as [r2 w2].
    destruct (awardWelcomeBadge_never_throws userId w2) as [w3 ->].
    do 2 eexists. split; [reflexivity | exact (Hstore _ _ Hf)].
  - destruct (pointTransaction_create _ _ _ _ _ w) as [r1 w1] eqn:H1.
    unfold user_update_points_increment at 1. rewrite (call_fault _ _ _ _ Hf).
    destruct (awardWelcomeBadge_never_throws userId
                (set_db (concurrent e UserUpdate) w1)) as [w3 ->].
    destruct r1 as [a|x].
    + do 2 eexists. split; [reflexivity | exact (Hstore _ _ Hf)].
    + do 2 eexists. split; [reflexivity|].
      destruct (fault e PointTransactionCreate) as [y|] eqn:Hp.
      * unfold pointTransaction_create in H1. rewrite (call_fault _ _ _ _ Hp) in H1.
        injection H1 as <- _. exact (Hstore _ _ Hp).
      * exact (pointTransaction_create_throws _ _ _ _ _ _ _ Hp H1).
Qed.

Lemma user_create_succeeds (userData : RegisterInput.t) (w : world) :
  creation_succeeds e bcrypt userData w ->
  exists row w5,
    user_create e (create_data bcrypt userData w) (before_create e bcrypt userData w)
    = (Js.Normal (cuid e (ids w), row), w5) /\
    users (db w5) !! cuid e (ids w) = Some row /\
    User.email row = RegisterInput.email userData /\
    User.username row = RegisterInput.username userData /\
    ids w5 = S (ids w) /\
    pointTransactions (db w5)
    = pointTransactions
        (db (set_db (concurrent e UserCreate) (before_create e bcrypt userData w))) /\
    User.points row = 0.
Proof.
  intros (Hf & Hst & H1 & H2 & H3). unfold user_create. rewrite (call_ok _ _ _ Hf).
  cbn [fresh_id]. rewrite Hst. cbn [negb].
  cbn [fresh_id create_data data_email data_username db] in *.
  rewrite H1, H2.
  rewrite bool_decide_eq_false_2 by (rewrite H3; by intros [? ?]).
  do 2 eexists. split; [reflexivity|].
  cbn. rewrite lookup_insert_eq. done.
Qed.

(** C3 (the code departs from the claim): once the new row is
    persisted, a rejection of [prisma.pointTransaction.create] or of
    [prisma.user.update], the two unguarded steps of the welcome
    bonus, makes [registerUser] log the error and throw [AuthError]
    with status 500 instead of returning the created user. *)
Theorem registerUser_bonus_failure_fails_registration
    (userData : RegisterInput.t) (w : world) (err : Js.exn) :
  prechecks_pass e userData w ->
  creation_succeeds e bcrypt userData w ->
  store_faults e ->
  fault e PointTransactionCreate = Some err \/ fault e UserUpdate = Some err ->
  exists row w5 w' logged,
    user_create e (create_data bcrypt userData w) (before_create e bcrypt userData w)
    = (Js.Normal (cuid e (ids w), row), w5) /\
    users (db w5) !! cuid e (ids w) = Some row /\
    registerUser e bcrypt userData w
    = (Js.Throw (Js.new_AuthError "Erro interno do servidor ao registrar usuário" 500),
       w') /\
    last (console w') = Some ("Error registering user:", logged).
Proof.
  intros Hpre Hcr Hstore Hf.
  destruct (user_create_succeeds userData w Hcr) as (row & w5 & Hc & Hrow & _).
  destruct (welcome_bonus_rejected (cuid e (ids w)) w5 err Hstore Hf)
    as (x & w6 & Hall & Hx).
  exists row, w5. do 2 eexists. split; [done|]. split; [done|].
  rewrite (registerUser_after_prechecks userData w Hpre).
  unfold try_catch, bind at 1. fold (before_create e bcrypt userData w).
  fold (create_data bcrypt userData w). rewrite Hc.
  unfold bind at 1. cbn [fst]. rewrite Hall, Hx.
  split; [reflexivity|]. cbn. by rewrite last_snoc.
Qed.


(** [verifyToken] has the same order of tests as the middleware: a
    token past its expiration is answered with the message of an
    invalid token. *)
Lemma verifyToken_expired_reported_as_invalid (tok : string) (j : Jwt.jws) (w : world) :
  tok <> "" ->
  Jwt.decode jwt tok = Some j -> Jwt.jws_key j = jwtSecret ->
  Jwt.exp (Jwt.jws_payload j) <= clock w / 1000 ->
  verifyToken e jwt jwtSecret tok w
  = (Js.Throw (Js.new_AuthError "Token inválido" 401), w).
Proof.
  intros Ht Hd Hk He. unfold verifyToken, verifyToken_with, try_catch, bind at 1.
  rewrite (AuthMiddlewareFacts.verify_expired jwt jwtSecret _ tok j Ht Hd Hk He).
  reflexivity.
Qed.

End Facts.

(** *** Runs on the sample installation *)

Lemma loginUser_invalid_credentials_witness :
  loginUser calm demo_bcrypt demo_codec "s3cret"
    (LoginInput.Make "alice@example.com" "wrong") w_alice
  = (Js.Throw (Js.new_AuthError "Credenciais inválidas" 401), w_alice) /\
  loginUser calm demo_bcrypt demo_codec "s3cret"
    (LoginInput.Make "nobody@example.com" "Passw0rd") w_alice
  = (Js.Throw (Js.new_AuthError "Credenciais inválidas" 401), w_alice).
Proof.
  split.
  - apply (loginUser_invalid_credentials calm demo_bcrypt demo_codec "s3cret"
             (LoginInput.Make "alice@example.com" "wrong") w_alice).
    + reflexivity.
    + right. exists ("u1", alice). split; reflexivity.
  - apply (loginUser_invalid_credentials calm demo_bcrypt demo_codec "s3cret"
             (LoginInput.Make "nobody@example.com" "Passw0rd") w_alice).
    + reflexivity.
    + left. reflexivity.
Defined.

Example loginUser_alice :
  (loginUser calm demo_bcrypt demo_codec "s3cret"
     (LoginInput.Make "alice@example.com" "Passw0rd") w_alice).1
  = Js.Normal (MkLoginResponse "jwt:u1" (delete "password" (user_object "u1" alice))).
Proof. vm_compute. reflexivity. Qed.


Lemma prechecks_pass_bob (e : env) :
  fault e UserFindUniqueByEmail = None ->
  fault e UserFindUniqueByUsername = None ->
  concurrent e UserFindUniqueByEmail = (λ d, d) ->
  concurrent e UserFindUniqueByUsername = (λ d, d) ->
  prechecks_pass e bob w_alice.
Proof.
  intros H1 H2 H3 H4. unfold prechecks_pass, set_db. cbn. rewrite H3, H4.
  repeat split; try done; vm_compute; reflexivity.
Qed.

Lemma no_ledger_store_faults : store_faults no_ledger.
Proof.
  intros o err. unfold no_ledger. cbn. destruct (decide _); [|discriminate].
  by intros [= <-].
Qed.

Lemma registerUser_bonus_failure_fails_registration_witness :
  exists row w5 w' logged,
    user_create no_ledger (create_data demo_bcrypt bob w_alice)
      (before_create no_ledger demo_bcrypt bob w_alice)
    = (Js.Normal ("c0", row), w5) /\
    users (db w5) !! "c0" = Some row /\
    registerUser no_ledger demo_bcrypt bob w_alice
    = (Js.Throw (Js.new_AuthError "Erro interno do servidor ao registrar usuário" 500),
       w') /\
    last (console w') = Some ("Error registering user:", logged).
Proof.
  apply (registerUser_bonus_failure_fails_registration no_ledger demo_bcrypt bob
           w_alice connection_lost).
  - by apply prechecks_pass_bob.
  - repeat split; vm_compute; reflexivity.
  - exact no_ledger_store_faults.
  - left. reflexivity.
Defined.

(** The same run, evaluated: the row of bob is in the table (with
    the ten points of the increment, which was not rejected), there
    is no point transaction, and the caller gets status 500. *)
Example registerUser_no_ledger_run :
  let r := registerUser no_ledger demo_bcrypt bob w_alice in
  r.1 = Js.Throw (Js.new_AuthError "Erro interno do servidor ao registrar usuário" 500) /\
  users (db r.2) !! "c0" = Some (bob_row 10) /\
  pointTransactions (db r.2) = ∅ /\
  console r.2 = [("Error registering user:", connection_lost)].
Proof. cbv zeta. repeat (split; [reflexivity|]). reflexivity. Qed.

Example registerUser_no_increment_run :
  let r := registerUser no_increment demo_bcrypt bob w_alice in
  r.1 = Js.Throw (Js.new_AuthError "Erro interno do servidor ao registrar usuário" 500) /\
  users (db r.2) !! "c0" = Some (bob_row 0) /\
  pointTransactions (db r.2)
  = {[ "c1" := PointTransaction.Row 10 "Bônus de boas-vindas ao CodeCollab"
                 PointTransaction.BONUS 5000 "c0" ]}.
Proof. cbv zeta. repeat (split; [reflexivity|]). reflexivity. Qed.

Example verifyToken_expired_run :
  (verifyToken calm demo_codec "s3cret" "jwt:u1"
     (World (db w_alice) 4000000 0 0 [])).1
  = Js.Throw (Js.new_AuthError "Token inválido" 401).
Proof. reflexivity. Qed.

Example verifyToken_valid_run :
  (verifyToken calm demo_codec "s3cret" "jwt:u1" w_alice).1
  = Js.Normal (delete "password" (user_object "u1" alice)).
Proof. reflexivity. Qed.

Example registerUser_calm_run :
  let r := registerUser calm demo_bcrypt bob w_alice in
  r.1 = Js.Normal (delete "password" (user_object "c0" (bob_row 0))) /\
  users (db r.2) !! "c0" = Some (bob_row 10) /\
  pointTransactions (db r.2)
  = {[ "c1" := PointTransaction.Row 10 "Bônus de boas-vindas ao CodeCollab"
                 PointTransaction.BONUS 5000 "c0" ]}.
Proof. cbv zeta. repeat (split; [reflexivity|]). reflexivity. Qed.

Example registerUser_no_badges_run :
  let r := registerUser no_badges demo_bcrypt bob w_alice in
  r.1 = Js.Normal (delete "password" (user_object "c0" (bob_row 0))) /\
  console r.2 = [("Error awarding welcome badge:", connection_lost)].
Proof. cbv zeta. repeat (split; [reflexivity|]). reflexivity. Qed.

Lemma registerUser_lost_race_is_500_witness :
  exists target w',
    registerUser race demo_bcrypt bob w_alice
    = (Js.Throw (Js.new_AuthError "Erro interno do servidor ao registrar usuário" 500),
       w') /\
    console w' = console w_alice ++ [("Error registering user:", P2002 target)] /\
    db w' = db (set_db (concurrent race UserCreate)
                  (before_create race demo_bcrypt bob w_alice)).
Proof.
  apply (registerUser_lost_race_is_500 race demo_bcrypt bob w_alice).
  - by apply prechecks_pass_bob.
  - reflexivity.
  - split; [reflexivity|]. left. vm_compute. reflexivity.
Defined.

(** The lost race on the sample installation: both pre-checks pass,
    the store rejects the creation with the unique-index violation
    on [email], and the error [registerUser] throws has status 500,
    not 409. *)
Lemma registerUser_lost_race_not_409 :
  let r := registerUser race demo_bcrypt bob w_alice in
  prechecks_pass race bob w_alice /\
  (user_create race (create_data demo_bcrypt bob w_alice)
     (before_create race demo_bcrypt bob w_alice)).1
  = Js.Throw (P2002 "(`email`)") /\
  r.1 = Js.Throw (Js.new_AuthError "Erro interno do servidor ao registrar usuário" 500) /\
  ~ (exists m, r.1 = Js.Throw (Js.new_AuthError m 409)).
Proof.
  split; [by apply prechecks_pass_bob|].
  split; [vm_compute; reflexivity|].
  assert (H : (registerUser race demo_bcrypt bob w_alice).1
              = Js.Throw (Js.new_AuthError
                            "Erro interno do servidor ao registrar usuário" 500))
    by (vm_compute; reflexivity).
  split; [exact H|]. intros [m Hm]. cbv zeta in Hm. rewrite H in Hm. discriminate.
Qed.

End AuthServiceFacts.

(* ================================================================= *)
(** ** The snippet service                                            *)
(* ================================================================= *)

Module SnippetServiceFacts.
Import Prisma PrismaClient SnippetService Conditions Ownership Sample Scenes.

Section Facts.
Variable e : env.
Hypothesis Hreliable : reliable e.
Hypothesis Hquiet : quiet e.

Lemma call_run {A} (o : op) (run : M A) (w : world) : call e o run w = run w.
Proof.
  unfold call. rewrite Hreliable. f_equal.
  destruct w. unfold set_db. cbn. by rewrite Hquiet.
Qed.

Lemma canAccess_canRead (s : Snippet.t) (userId : option string) :
  Snippet.authorId s <> "" ->
  Snippet.isPublic s ||
    (Js.truthy_opt userId && bool_decide (Some (Snippet.authorId s) = userId)) = true
  <-> canRead s userId.
Proof.
  intros Hne. unfold canRead.
  rewrite orb_true_iff, andb_true_iff, bool_decide_eq_true.
  split.
  - intros [H | [_ H]]; [by left | by right].
  - intros [H | ->]; [by left | right]. split; [|done].
    cbn. by destruct (Snippet.authorId s).
Qed.

Lemma getSnippetById_found (snippetId : string) (s : Snippet.t)
    (userId : option string) (w : world) :
  snippets (db w) !! snippetId = Some s ->
  getSnippetById e snippetId userId w =
  let found := Result snippetId s (author_of (db w) s)
                 (reviews_with_reviewer (db w) snippetId)
                 (count_reviews (db w) snippetId) in
  if negb (Snippet.isPublic s ||
           (Js.truthy_opt userId && bool_decide (Some (Snippet.authorId s) = userId)))
  then (Js.Throw (Js.new_SnippetError "Acesso negado ao snippet" 403), w)
  else if bool_decide (userId ≠ Some (Snippet.authorId s))
  then if in_int4 (Snippet.views s + 1)
       then (Js.Normal (add_view found),
             set_db (set_snippets
                       <[snippetId :=
                           Snippet.Row (Snippet.title s) (Snippet.description s)
                             (Snippet.content s) (Snippet.language s) (Snippet.tags s)
                             (Snippet.isPublic s) (Snippet.views s + 1) (Snippet.likes s)
                             (Snippet.createdAt s) (clock w) (Snippet.authorId s)]>) w)
       else (Js.Throw (Js.new_SnippetError "Erro interno ao buscar snippet" 500),
             World (db w) (clock w) (ids w) (salts w)
               (console w ++ [("Erro ao buscar snippet:", integer_out_of_range)]))
  else (Js.Normal found, w).
Proof.
  intros Hs. unfold getSnippetById, try_catch, bind at 1, snippet_findUnique_include.
  rewrite call_run, Hs. cbn [fmap option_fmap option_map snippet].
  destruct (negb _); [reflexivity|].
  destruct (bool_decide (userId ≠ _)); [|reflexivity].
  unfold bind, snippet_update_views_increment. rewrite call_run, Hs.
  destruct (in_int4 _); reflexivity.
Qed.

Lemma updateSnippet_found (snippetId : string) (s : Snippet.t)
    (updateData : SnippetUpdateInput) (authorId : string) (w : world) :
  snippets (db w) !! snippetId = Some s ->
  (authorId = Snippet.authorId s -> storable_update updateData = true ->
   exists r w',
     updateSnippet e snippetId updateData authorId w = (Js.Normal r, w') /\
     id r = snippetId /\ snippets (db w') !! snippetId = Some (snippet r)) /\
  (authorId = Snippet.authorId s -> storable_update updateData = false ->
   exists w',
     updateSnippet e snippetId updateData authorId w
     = (Js.Throw (Js.new_SnippetError "Erro interno ao atualizar snippet" 500), w') /\
     db w' = db w) /\
  (authorId <> Snippet.authorId s ->
   updateSnippet e snippetId updateData authorId w
   = (Js.Throw (Js.new_SnippetError
                  "Você não tem permissão para editar este snippet" 403), w)).
Proof.
  intros Hs.
  assert (Hrun : updateSnippet e snippetId updateData authorId w =
            if bool_decide (Snippet.authorId s ≠ authorId)
            then (Js.Throw (Js.new_SnippetError
                              "Você não tem permissão para editar este snippet" 403), w)
            else try_catch
                   (await updated := snippet_update e snippetId updateData (clock w) in
                    ret updated)
                   (λ error,
                      if Js.instanceof error Js.SnippetError then throw error
                      else
                        await _ := console_error "Erro ao atualizar snippet:" error in
                        throw (Js.new_SnippetError
                                 "Erro interno ao atualizar snippet" 500)) w).
  { unfold updateSnippet, try_catch, bind at 1, snippet_findUnique_authorId.
    rewrite call_run, Hs. cbn [fmap option_fmap option_map snd].
    destruct (bool_decide _); reflexivity. }
  rewrite Hrun. split; [|split].
  - intros -> Hst. rewrite bool_decide_eq_false_2 by (intros H; by apply H).
    unfold try_catch, bind, snippet_update. rewrite call_run, Hs, Hst.
    do 2 eexists. split; [reflexivity|]. split; [reflexivity|].
    cbn. apply lookup_insert_eq.
  - intros -> Hst. rewrite bool_decide_eq_false_2 by (intros H; by apply H).
    unfold try_catch, bind, snippet_update. rewrite call_run, Hs, Hst.
    eexists. split; reflexivity.
  - intros Hne. by rewrite bool_decide_eq_true_2.
Qed.

Lemma deleteSnippet_found (snippetId : string) (s : Snippet.t)
    (authorId : string) (w : world) :
  snippets (db w) !! snippetId = Some s ->
  (authorId = Snippet.authorId s ->
   exists w', deleteSnippet e snippetId authorId w
              = (Js.Normal "Snippet deletado com sucesso", w') /\
              snippets (db w') !! snippetId = None) /\
  (authorId <> Snippet.authorId s ->
   deleteSnippet e snippetId authorId w
   = (Js.Throw (Js.new_SnippetError
                  "Você não tem permissão para deletar este snippet" 403), w)).
Proof.
  intros Hs.
  assert (Hrun : deleteSnippet e snippetId authorId w =
            if bool_decide (Snippet.authorId s ≠ authorId)
            then (Js.Throw (Js.new_SnippetError
                              "Você não tem permissão para deletar este snippet" 403), w)
            else try_catch
                   (await _ := snippet_delete e snippetId in
                    ret "Snippet deletado com sucesso")
                   (λ error,
                      if Js.instanceof error Js.SnippetError then throw error
                      else
                        await _ := console_error "Erro ao deletar snippet:" error in
                        throw (Js.new_SnippetError
                                 "Erro interno ao deletar snippet" 500)) w).
  { unfold deleteSnippet, try_catch, bind at 1, snippet_findUnique_authorId.
    rewrite call_run, Hs. cbn [fmap option_fmap option_map snd].
    destruct (bool_decide _); reflexivity. }
  rewrite Hrun. split.
  - intros ->. rewrite bool_decide_eq_false_2 by (intros H; by apply H).
    unfold try_catch, bind, snippet_delete. rewrite call_run, Hs.
    eexists. split; [reflexivity|]. cbn. apply lookup_delete_eq.
  - intros Hne. by rewrite bool_decide_eq_true_2.
Qed.

(** What holds of the access rule.  On a stored snippet,
    [getSnippetById] throws [SnippetError] 403 exactly when the
    caller may not read it; a caller who may read it gets the stored
    snippet (with the view the fetch adds, for anyone but the
    author) as long as the view counter can take the view.
    [updateSnippet] and [deleteSnippet] throw [SnippetError] 403
    exactly when the caller is not the author, whatever [isPublic]
    is; the author's deletion succeeds, and so does the author's
    update when its strings can be stored. *)
Lemma snippet_access_follows_ownership
    (snippetId : string) (s : Snippet.t) (w : world) :
  snippets (db w) !! snippetId = Some s ->
  Snippet.authorId s <> "" ->
  (forall callerId : option string,
     (canRead s callerId ->
      callerId = Some (Snippet.authorId s) \/ in_int4 (Snippet.views s + 1) = true ->
      exists r w',
        getSnippetById e snippetId callerId w = (Js.Normal r, w') /\
        id r = snippetId /\
        snippet r = (if bool_decide (callerId ≠ Some (Snippet.authorId s))
                     then snippet (add_view (Result snippetId s None [] 0))
                     else s)) /\
     (~ canRead s callerId ->
      getSnippetById e snippetId callerId w
      = (Js.Throw (Js.new_SnippetError "Acesso negado ao snippet" 403), w))) /\
  (forall (callerId : string) (updateData : SnippetUpdateInput),
     (canWrite s callerId -> storable_update updateData = true ->
      exists r w',
        updateSnippet e snippetId updateData callerId w = (Js.Normal r, w') /\
        id r = snippetId /\ snippets (db w') !! snippetId = Some (snippet r)) /\
     (~ canWrite s callerId ->
      updateSnippet e snippetId updateData callerId w
      = (Js.Throw (Js.new_SnippetError
                     "Você não tem permissão para editar este snippet" 403), w))) /\
  (forall callerId : string,
     (canWrite s callerId ->
      exists w', deleteSnippet e snippetId callerId w
                 = (Js.Normal "Snippet deletado com sucesso", w') /\
                 snippets (db w') !! snippetId = None) /\
     (~ canWrite s callerId ->
      deleteSnippet e snippetId callerId w
      = (Js.Throw (Js.new_SnippetError
                     "Você não tem permissão para deletar este snippet" 403), w))).
Proof.
  intros Hs Hne. split; [|split].
  - intros callerId. rewrite (getSnippetById_found _ _ callerId _ Hs). cbv zeta.
    pose proof (canAccess_canRead s callerId Hne) as Hiff.
    destruct (Snippet.isPublic s || _) eqn:Hacc; cbn [negb].
    + split; [|intros Hn; exfalso; by apply Hn, Hiff].
      intros _ Hok. destruct (decide (callerId = Some (Snippet.authorId s))) as [Hc|Hc].
      * rewrite !bool_decide_eq_false_2 by (intros H; by apply H).
        do 2 eexists. split; [reflexivity|]. split; reflexivity.
      * rewrite !bool_decide_eq_true_2 by done.
        destruct Hok as [Hok | Hok]; [by destruct Hc|]. rewrite Hok.
        do 2 eexists. split; [reflexivity|]. split; reflexivity.
    + split; [|done]. intros Hr. apply Hiff in Hr. discriminate.
  - intros callerId updateData.
    destruct (updateSnippet_found snippetId s updateData callerId w Hs) as (H1 & _ & H3).
    split; [exact H1 | exact H3].
  - intros callerId. apply deleteSnippet_found, Hs.
Qed.

(** C2 (the code departs from the claim): a snippet the caller may
    read is not returned once its view counter is full.  The fetch
    of anyone but the author increments [views] before it returns;
    at 2147483647, the largest value of the [Int] column, the
    database refuses the update, and [getSnippetById] logs the
    refusal and throws [SnippetError] 500 although the access check
    has passed.  Nothing is written, and the author, whose fetch
    counts no view, still gets the snippet. *)
Theorem getSnippetById_full_view_counter_is_500
    (snippetId : string) (s : Snippet.t) (callerId : option string) (w : world) :
  snippets (db w) !! snippetId = Some s ->
  Snippet.views s = int4_max ->
  canRead s callerId ->
  callerId <> Some (Snippet.authorId s) ->
  (exists logged,
     getSnippetById e snippetId callerId w
     = (Js.Throw (Js.new_SnippetError "Erro interno ao buscar snippet" 500),
        World (db w) (clock w) (ids w) (salts w)
          (console w ++ [("Erro ao buscar snippet:", logged)])) /\
     Js.instanceof logged Js.SnippetError = false) /\
  (Snippet.authorId s <> "" ->
   exists r,
     getSnippetById e snippetId (Some (Snippet.authorId s)) w = (Js.Normal r, w) /\
     snippet r = s).
Proof.
  intros Hs Hv Hr Hc. split.
  - rewrite (getSnippetById_found _ _ callerId _ Hs). cbv zeta.
    destruct Hr as [Hp | Hr]; [|by destruct Hc].
    rewrite Hp. cbn [orb negb]. rewrite bool_decide_eq_true_2 by done.
    rewrite Hv. eexists. split; reflexivity.
  - intros Hne. rewrite (getSnippetById_found _ _ _ _ Hs). cbv zeta.
    rewrite (proj2 (canAccess_canRead s (Some (Snippet.authorId s)) Hne))
      by (by right).
    cbn [negb]. rewrite bool_decide_eq_false_2 by (intros H; by apply H).
    eexists. split; reflexivity.
Qed.

(** C9 (as the code has it): a fetch that returns to anyone but the
    author has added exactly 1 to the stored [views] and has set the
    stored [updatedAt] to the time of the write ([@updatedAt]);
    every other column of the snippet, every other snippet and every
    other table is unchanged.  A fetch that returns to the author
    has changed nothing. *)
Theorem getSnippetById_view_counter
    (snippetId : string) (s : Snippet.t) (callerId : option string) (w w' : world)
    (r : SnippetResult) :
  snippets (db w) !! snippetId = Some s ->
  getSnippetById e snippetId callerId w = (Js.Normal r, w') ->
  (callerId = Some (Snippet.authorId s) -> w' = w) /\
  (callerId <> Some (Snippet.authorId s) ->
   exists s',
     snippets (db w') !! snippetId = Some s' /\
     Snippet.views s' = Snippet.views s + 1 /\
     Snippet.updatedAt s' = clock w /\
     Snippet.title s' = Snippet.title s /\
     Snippet.description s' = Snippet.description s /\
     Snippet.content s' = Snippet.content s /\
     Snippet.language s' = Snippet.language s /\
     Snippet.tags s' = Snippet.tags s /\
     Snippet.isPublic s' = Snippet.isPublic s /\
     Snippet.likes s' = Snippet.likes s /\
     Snippet.createdAt s' = Snippet.createdAt s /\
     Snippet.authorId s' = Snippet.authorId s /\
     (forall other, other <> snippetId ->
                    snippets (db w') !! other = snippets (db w) !! other) /\
     users (db w') = users (db w) /\
     reviews (db w') = reviews (db w) /\
     pointTransactions (db w') = pointTransactions (db w) /\
     badges (db w') = badges (db w) /\
     userBadges (db w') = userBadges (db w)).
Proof.
  intros Hs Hrun. rewrite (getSnippetById_found _ _ callerId _ Hs) in Hrun.
  cbv zeta in Hrun.
  destruct (negb _); [discriminate Hrun|].
  destruct (decide (callerId = Some (Snippet.authorId s))) as [Hc | Hc].
  - rewrite bool_decide_eq_false_2 in Hrun by (intros H; by apply H).
    apply pair_equal_spec in Hrun as [_ <-].
    split; [done|]. intros Hn. by destruct Hn.
  - rewrite bool_decide_eq_true_2 in Hrun by done.
    destruct (in_int4 _); [|discriminate Hrun].
    apply pair_equal_spec in Hrun as [_ <-].
    split; [done|]. intros _.
    eexists. split; [apply lookup_insert_eq|]. cbn.
    repeat (split; [reflexivity|]). split; [|done].
    intros other Ho. by apply lookup_insert_ne.
Qed.

End Facts.

(** *** The paginated listing *)

Section Listing.
Variable e : env.

Lemma paginate_subset {A} (skip take : Z) (l : list A) (x : A) :
  x ∈ paginate skip take l -> x ∈ l.
Proof.
  unfold paginate. destruct (0 <=? take)%Z.
  - intros H. by apply subseteq_take, subseteq_drop in H.
  - intros H. apply list_elem_of_In, in_rev, list_elem_of_In in H.
    apply subseteq_take, subseteq_drop in H.
    by apply list_elem_of_In, in_rev, list_elem_of_In in H.
Qed.

(** Every row [findMany] returns satisfies its [where]. *)
Lemma snippet_findMany_where (wh : SnippetWhere) (f : SortField) (o : SortOrder)
    (skip take : Z) (w w' : world) (l : list SnippetResult) (x : SnippetResult) :
  snippet_findMany e wh f o skip take w = (Js.Normal l, w') ->
  x ∈ l -> where_holds wh (snippet x) = true.
Proof.
  unfold snippet_findMany, call. destruct (fault e SnippetFindMany); [discriminate|].
  destruct ((skip <? 0)%Z || _); [discriminate|].
  destruct (negb (in_int8 take)); [discriminate|].
  intros [= <- _] Hx.
  apply list_elem_of_fmap in Hx as (kv & -> & Hkv).
  apply paginate_subset in Hkv. rewrite merge_sort_Permutation in Hkv.
  apply list_elem_of_filter in Hkv as [Hkv _]. exact Hkv.
Qed.

(** Without a search term, the visibility part of the [where]
    clause is what its first step made it. *)
Lemma build_where_no_search (query : ListSnippetsQuery.t) (userId : option string) :
  Js.truthy_opt (ListSnippetsQuery.search query) = false ->
  where_isPublic (build_where query userId) =
    match ListSnippetsQuery.isPublic query with
    | Some b => Some b
    | None => if Js.truthy_opt userId then None else Some true
    end /\
  where_OR (build_where query userId) =
    match ListSnippetsQuery.isPublic query with
    | Some _ => None
    | None => if Js.truthy_opt userId
              then Some [CondIsPublic true; CondAuthorId (default "" userId)]
              else None
    end.
Proof.
  intros Hs. unfold build_where. rewrite Hs.
  destruct (ListSnippetsQuery.isPublic query), (Js.truthy_opt userId),
    (Js.truthy_opt (ListSnippetsQuery.language query)),
    (Js.truthy_opt (ListSnippetsQuery.author query)),
    (Js.truthy_opt (ListSnippetsQuery.tag query)); split; reflexivity.
Qed.

Lemma where_no_search_canRead (query : ListSnippetsQuery.t) (userId : option string)
    (s : Snippet.t) :
  Js.truthy_opt (ListSnippetsQuery.search query) = false ->
  ListSnippetsQuery.isPublic query <> Some false ->
  where_holds (build_where query userId) s = true ->
  canRead s userId.
Proof.
  intros Hs Hp. destruct (build_where_no_search query userId Hs) as [H1 H2].
  unfold where_holds. rewrite H1, H2, !andb_true_iff.
  intros [[[[Ha Hb] _] _] _]. unfold canRead.
  destruct (ListSnippetsQuery.isPublic query) as [[]|].
  - cbn in Ha. left. by destruct (Snippet.isPublic s).
  - done.
  - destruct userId as [u|]; cbn in *.
    + destruct (Js.truthy u); cbn in *.
      * rewrite orb_false_r, orb_true_iff in Hb. destruct Hb as [Hb | Hb].
        -- left. by destruct (Snippet.isPublic s).
        -- right. f_equal. symmetry. by apply String.eqb_eq.
      * left. by destruct (Snippet.isPublic s).
    + left. by destruct (Snippet.isPublic s).
Qed.

(** What holds of C1: a listing without a search term, and without
    an explicit [isPublic=false] filter, only contains snippets the
    caller may read. *)
Lemma listing_without_search_is_readable (query : ListSnippetsQuery.t)
    (userId : option string) (w w' : world) (page : PaginatedSnippets)
    (x : SnippetResult) :
  Js.truthy_opt (ListSnippetsQuery.search query) = false ->
  ListSnippetsQuery.isPublic query <> Some false ->
  getSnippetsWithPagination e query userId w = (Js.Normal page, w') ->
  x ∈ snippets_of page -> canRead (snippet x) userId.
Proof.
  intros Hs Hp Hrun Hx.
  apply (where_no_search_canRead query userId _ Hs Hp).
  unfold getSnippetsWithPagination, try_catch, bind, promise_all2 in Hrun.
  destruct (snippet_findMany e _ _ _ _ _ w) as [[l|err] w1] eqn:Hfind.
  - destruct (snippet_count e _ w1) as [[n|err] w2]; [|discriminate].
    injection Hrun as <- _. cbn in Hx.
    eapply snippet_findMany_where; [exact Hfind | exact Hx].
  - destruct (snippet_count e _ w1) as [[n|err'] w2]; discriminate.
Qed.

End Listing.

(** *** Runs on the sample installation *)

Lemma steady_reliable : reliable calm.
Proof. intros o. reflexivity. Qed.

Lemma steady_quiet : quiet calm.
Proof. intros o d. reflexivity. Qed.

Example listing_for_bia :
  listed (getSnippetsWithPagination calm no_filter (Some "bia") library)
  = Some [("s2", hello); ("s3", notes)].
Proof. reflexivity. Qed.

Example listing_anonymous :
  listed (getSnippetsWithPagination calm no_filter None library)
  = Some [("s2", hello)].
Proof. reflexivity. Qed.

(** C1 (the code departs from the claim): bia searches for "deploy"
    and the listing contains ana's private snippet: the search
    conditions are appended to the [OR] list that holds the
    visibility conditions, so a match of the term alone admits a
    row. *)
Theorem search_listing_shows_foreign_private_snippet :
  listed (getSnippetsWithPagination calm (search_for "deploy") (Some "bia") library)
  = Some [("s1", deploy_keys); ("s2", hello); ("s3", notes)] /\
  Snippet.isPublic deploy_keys = false /\
  Snippet.authorId deploy_keys = "ana" /\
  ~ canRead deploy_keys (Some "bia").
Proof.
  split; [reflexivity|]. split; [reflexivity|]. split; [reflexivity|].
  intros [H | H]; discriminate.
Qed.

(** The [where] clause of that run. *)
Example search_where_clause :
  build_where (search_for "deploy") (Some "bia")
  = Where None
      (Some [CondIsPublic true; CondAuthorId "bia"; CondTitleContains "deploy";
             CondDescriptionContains "deploy"; CondContentContains "deploy"])
      None None None.
Proof. reflexivity. Qed.

(** The explicit filter [isPublic=false] replaces the visibility
    conditions altogether. *)
Example private_only_listing_shows_foreign_private_snippets :
  listed (getSnippetsWithPagination calm private_only (Some "bia") library)
  = Some [("s1", deploy_keys); ("s3", notes)].
Proof. reflexivity. Qed.

Lemma getSnippetById_full_view_counter_is_500_witness :
  (exists logged,
     getSnippetById calm "s4" None w_viral
     = (Js.Throw (Js.new_SnippetError "Erro interno ao buscar snippet" 500),
        World (db w_viral) (clock w_viral) (ids w_viral) (salts w_viral)
          (console w_viral ++ [("Erro ao buscar snippet:", logged)])) /\
     Js.instanceof logged Js.SnippetError = false) /\
  (Snippet.authorId viral <> "" ->
   exists r,
     getSnippetById calm "s4" (Some (Snippet.authorId viral)) w_viral
     = (Js.Normal r, w_viral) /\
     snippet r = viral).
Proof.
  apply (getSnippetById_full_view_counter_is_500 calm steady_reliable steady_quiet
           "s4" viral None w_viral).
  - reflexivity.
  - reflexivity.
  - left. reflexivity.
  - discriminate.
Defined.

(** The same fetch one view earlier returns the snippet. *)
Example getSnippetById_last_view :
  let almost := Snippet.Row "Viral" None "echo" "bash" [] true 2147483646 0 400 400 "ana" in
  let r := getSnippetById calm "s4" None
             (World (set_snippets <["s4" := almost]> (db library)) 5000 0 0 []) in
  Snippet.views <$> snippets (db r.2) !! "s4" = Some 2147483647 /\
  exists x, r.1 = Js.Normal x.
Proof. cbv zeta. split; [reflexivity|]. eexists. reflexivity. Qed.

Example getSnippetById_private_foreign :
  (getSnippetById calm "s1" (Some "bia") library).1
  = Js.Throw (Js.new_SnippetError "Acesso negado ao snippet" 403).
Proof. reflexivity. Qed.

Example getSnippetById_missing :
  (getSnippetById calm "s9" (Some "bia") library).1
  = Js.Throw (Js.new_SnippetError "Snippet não encontrado" 404).
Proof. reflexivity. Qed.

Example updateSnippet_public_foreign :
  (updateSnippet calm "s2" (SnippetData (Some "Hi") None None None None None)
     "bia" library).1
  = Js.Throw (Js.new_SnippetError
                "Você não tem permissão para editar este snippet" 403).
Proof. reflexivity. Qed.

Lemma getSnippetById_view_counter_witness :
  let w' := (getSnippetById calm "s2" None library).2 in
  (None = Some (Snippet.authorId hello) -> w' = library) /\
  (None <> Some (Snippet.authorId hello) ->
   exists s',
     snippets (db w') !! "s2" = Some s' /\
     Snippet.views s' = Snippet.views hello + 1 /\
     Snippet.updatedAt s' = clock library /\
     Snippet.title s' = Snippet.title hello /\
     Snippet.description s' = Snippet.description hello /\
     Snippet.content s' = Snippet.content hello /\
     Snippet.language s' = Snippet.language hello /\
     Snippet.tags s' = Snippet.tags hello /\
     Snippet.isPublic s' = Snippet.isPublic hello /\
     Snippet.likes s' = Snippet.likes hello /\
     Snippet.createdAt s' = Snippet.createdAt hello /\
     Snippet.authorId s' = Snippet.authorId hello /\
     (forall other, other <> "s2" ->
                    snippets (db w') !! other = snippets (db library) !! other) /\
     users (db w') = users (db library) /\
     reviews (db w') = reviews (db library) /\
     pointTransactions (db w') = pointTransactions (db library) /\
     badges (db w') = badges (db library) /\
     userBadges (db w') = userBadges (db library)).
Proof.
  apply (getSnippetById_view_counter calm steady_reliable steady_quiet
           "s2" hello None library (getSnippetById calm "s2" None library).2
           (add_view (Result "s2" hello (author_of (db library) hello) [] 0))).
  - reflexivity.
  - apply injective_projections; cbn [fst snd]; reflexivity.
Defined.

(** C9 fails as stated: after an anonymous fetch of the public
    snippet, the stored row has one more view and also another
    [updatedAt] (the time of the fetch instead of 200). *)
Lemma view_increment_also_sets_updatedAt :
  let r := getSnippetById calm "s2" None library in
  (exists x, r.1 = Js.Normal x) /\
  Snippet.views <$> snippets (db library) !! "s2" = Some 0 /\
  Snippet.views <$> snippets (db r.2) !! "s2" = Some 1 /\
  Snippet.updatedAt <$> snippets (db library) !! "s2" = Some 200 /\
  Snippet.updatedAt <$> snippets (db r.2) !! "s2" = Some 5000.
Proof.
  cbv zeta. split; [eexists; reflexivity|]. repeat (split; [reflexivity|]).
  reflexivity.
Qed.

Example getSnippetById_by_author_changes_nothing :
  (getSnippetById calm "s2" (Some "ana") library).2 = library.
Proof. reflexivity. Qed.

End SnippetServiceFacts.
(* ================================================================= *)
(** ** The JWT middleware, continued                                  *)
(* ================================================================= *)

Module AuthMiddlewareMore.
Import AuthMiddleware.

(** An error that is not a [JsonWebTokenError] is not a
    [TokenExpiredError] either. *)
Lemma TokenExpiredError_is_JsonWebTokenError (err : Js.exn) :
  Js.instanceof err Js.JsonWebTokenError = false ->
  Js.instanceof err Js.TokenExpiredError = false.
Proof. destruct err as [[] m s c]; vm_compute; congruence. Qed.

Section Verifier.
Variable verify : string -> Js.completion Jwt.claims.


(** X1: the required-mode middleware, whatever [jwt.verify] does.
    It calls [next()] exactly for a header whose non-empty token
    (bare or after "Bearer ") [jwt.verify] accepts, and then
    [req.user] is the payload of that token.  Every other request is
    answered with [success: false]: with 401 "Token de acesso
    necessário" when there is no token; with 401 "Token inválido"
    when [jwt.verify] throws a [JsonWebTokenError], which the error
    of an expired token is too; and with 500 "Erro interno do
    servidor" when it throws anything else, as it does when the
    decoding of the token throws.  The answer "Token expirado" is
    never given. *)
Theorem authenticateToken_passes_exactly_verified_tokens (req : request) :
  let token := extract_token (default "" (authorization req)) in
  match authenticateToken_with verify req with
  | Next req' =>
      exists h decoded,
        authorization req = Some h /\ extract_token h <> "" /\
        verify (extract_token h) = Js.Normal decoded /\
        req' = Request (Some h) (Some decoded)
  | Respond s b =>
      success b = false /\
      ((token = "" /\ s = 401 /\ error b = "Token de acesso necessário") \/
       (token <> "" /\
        exists err,
          verify token = Js.Throw err /\
          if Js.instanceof err Js.JsonWebTokenError
          then s = 401 /\ error b = "Token inválido"
          else s = 500 /\ error b = "Erro interno do servidor"))
  end.
Proof.
  cbv zeta.
  destruct req as [[h|] u]; unfold authenticateToken_with;
    cbn [authorization Js.truthy_opt default from_option id].
  2:{ cbn. split; [done|]. by left. }
  destruct (Js.truthy h) eqn:Hh; cbn [negb].
  2:{ split; [done|]. left. destruct h; [done | discriminate]. }
  destruct (Js.truthy (extract_token h)) eqn:Ht; cbn [negb].
  2:{ split; [done|]. left. by destruct (extract_token h). }
  assert (Hne : extract_token h <> "") by (intros Hx; by rewrite Hx in Ht).
  destruct (verify (extract_token h)) as [decoded|err] eqn:Hv.
  - by exists h, decoded.
  - destruct (Js.instanceof err Js.JsonWebTokenError) eqn:Hj.
    + split; [done|]. right. split; [done|]. exists err. by rewrite Hj.
    + rewrite (TokenExpiredError_is_JsonWebTokenError err Hj).
      split; [done|]. right. split; [done|]. exists err. by rewrite Hj.
Qed.

End Verifier.

(** A token whose decoding throws is answered with 500. *)
Example authenticateToken_decoding_throws :
  authenticateToken_with
    (λ _, Js.Throw (Js.Exn Js.SyntaxError "Unexpected token in JSON" None None))
    (Request (Some "Bearer e30.e30.x") None)
  = Respond 500 (Body false "Erro interno do servidor" "Erro durante autenticação").
Proof. reflexivity. Qed.

Section More.
Variable jwt : Jwt.codec.
Variable jwtSecret : string.
Variable now : Z.

(** X2: the optional-mode middleware never answers a request itself:
    it always calls [next()], with the header untouched; [req.user]
    becomes the payload of the token when [jwt.verify] accepts it and
    is left as it was in every other case. *)
Theorem optionalAuth_always_continues (req : request) :
  exists req',
    optionalAuth jwt jwtSecret now req = Next req' /\
    authorization req' = authorization req /\
    user req' =
      match authorization req with
      | Some h =>
          match Jwt.verify jwt now (extract_token h) jwtSecret with
          | Js.Normal decoded => Some decoded
          | Js.Throw _ => user req
          end
      | None => user req
      end.
Proof.
  destruct req as [[h|] u]; unfold optionalAuth; cbn [authorization Js.truthy_opt user].
  2:{ by eexists. }
  destruct (Js.truthy h) eqn:Hh; cbn [negb default from_option id].
  2:{ eexists. repeat split. destruct h; [|discriminate]. reflexivity. }
  destruct (Js.truthy (extract_token h)) eqn:Ht; cbn [negb].
  2:{ eexists. repeat split. destruct (extract_token h); [|discriminate]. reflexivity. }
  destruct (Jwt.verify jwt now (extract_token h) jwtSecret) as [decoded|err];
    by eexists.
Qed.

End More.

End AuthMiddlewareMore.
(* ================================================================= *)
(** ** The authentication service, continued                          *)
(* ================================================================= *)

Module AuthServiceMore.
Import Prisma PrismaClient AuthService Conditions Outcomes Welcome Sample Scenes
  AuthServiceFacts.

(** *** Look-ups by a unique column *)

Lemma find_row_Some {R} (p : R -> bool) (t : gmap string R) (row : string * R) :
  find_row p t = Some row -> t !! row.1 = Some row.2 /\ p row.2 = true.
Proof.
  unfold find_row. intros H. apply find_some in H as [Hin Hp]. split; [|done].
  apply list_elem_of_In in Hin. destruct row. by apply elem_of_map_to_list.
Qed.

Lemma find_row_None {R} (p : R -> bool) (t : gmap string R) :
  find_row p t = None -> forall k r, t !! k = Some r -> p r = false.
Proof.
  unfold find_row. intros H k r Hk. apply (find_none _ _ H (k, r)).
  by apply list_elem_of_In, elem_of_map_to_list.
Qed.

Lemma find_row_unique {R} (p : R -> bool) (t : gmap string R) (k : string) (r : R) :
  t !! k = Some r -> p r = true ->
  (forall k' r', t !! k' = Some r' -> p r' = true -> k' = k) ->
  find_row p t = Some (k, r).
Proof.
  intros Hk Hp Huniq. destruct (find_row p t) as [[k' r']|] eqn:Hf.
  - apply find_row_Some in Hf as [Hk' Hp']. cbn in *.
    pose proof (Huniq _ _ Hk' Hp') as ->. congruence.
  - pose proof (find_row_None _ _ Hf _ _ Hk). congruence.
Qed.

Lemma Normal_inj {A} (a b : A) : Js.Normal a = Js.Normal b -> a = b.
Proof. intros H. by injection H. Qed.

Section More.
Variable e : env.
Variable bcrypt : Bcrypt.t.
Variable jwt : Jwt.codec.
Variable jwtSecret : string.

(** *** What the service throws *)

(** X3: whatever the store does (faults, concurrent writes), every
    rejection of [registerUser], [loginUser], [verifyToken] and
    [getUserProfile] is an [AuthError]: no error of the store, of
    bcrypt or of jsonwebtoken reaches the caller. *)
Theorem auth_service_throws_only_AuthError
    (userData : RegisterInput.t) (loginData : LoginInput.t) (tok userId : string)
    (w : world) :
  throws_only Js.AuthError (registerUser e bcrypt userData w) /\
  throws_only Js.AuthError (loginUser e bcrypt jwt jwtSecret loginData w) /\
  throws_only Js.AuthError (verifyToken e jwt jwtSecret tok w) /\
  throws_only Js.AuthError (getUserProfile e userId w).
Proof.
  unfold throws_only. repeat split.
  - unfold registerUser, try_catch.
    match goal with |- context [bind ?m ?k w] => destruct (bind m k w) as [[a|err] w1] end;
      [done|].
    by destruct (Js.instanceof err Js.AuthError) eqn:Hi.
  - unfold loginUser, try_catch.
    match goal with |- context [bind ?m ?k w] => destruct (bind m k w) as [[a|err] w1] end;
      [done|].
    by destruct (Js.instanceof err Js.AuthError) eqn:Hi.
  - unfold verifyToken, verifyToken_with, try_catch.
    match goal with |- context [bind ?m ?k w] => destruct (bind m k w) as [[a|err] w1] end;
      [done|].
    destruct (Js.instanceof err Js.JsonWebTokenError); [done|].
    destruct (Js.instanceof err Js.TokenExpiredError); [done|].
    by destruct (Js.instanceof err Js.AuthError) eqn:Hi.
  - unfold getUserProfile, try_catch.
    match goal with |- context [bind ?m ?k w] => destruct (bind m k w) as [[a|err] w1] end;
      [done|].
    by destruct (Js.instanceof err Js.AuthError) eqn:Hi.
Qed.

(** *** Tokens *)

(** X7: the token of a login.  It is the encoding of a payload with
    the id, email and user name of the returned user, issued at the
    time of the login and expiring 3600 seconds later, signed with
    the server's secret.  When the codec decodes it back, the
    required-mode middleware lets it through with that payload at any
    time before the expiration, and answers 401 from the expiration
    on. *)
Theorem loginUser_token_valid_for_one_hour
    (loginData : LoginInput.t) (w w' : world) (r : LoginResponse) :
  loginUser e bcrypt jwt jwtSecret loginData w = (Js.Normal r, w') ->
  exists j : Jwt.jws,
    token r = Jwt.encode jwt j /\
    Jwt.jws_key j = jwtSecret /\
    user r !! "id" = Some (Js.VString (Jwt.id (Jwt.jws_payload j))) /\
    user r !! "email" = Some (Js.VString (Jwt.email (Jwt.jws_payload j))) /\
    user r !! "username" = Some (Js.VString (Jwt.username (Jwt.jws_payload j))) /\
    Jwt.sub (Jwt.jws_payload j) = Jwt.id (Jwt.jws_payload j) /\
    Jwt.iat (Jwt.jws_payload j) = clock w' / 1000 /\
    Jwt.exp (Jwt.jws_payload j) = clock w' / 1000 + 3600 /\
    (token r <> "" -> Jwt.decode jwt (token r) = Some j ->
     forall (now : Z) (u : option Jwt.claims),
       AuthMiddleware.authenticateToken jwt jwtSecret now
         (AuthMiddleware.Request (Some ("Bearer " +:+ token r)) u)
       = if (now <? clock w' / 1000 + 3600)%Z
         then AuthMiddleware.Next
                (AuthMiddleware.Request (Some ("Bearer " +:+ token r))
                   (Some (Jwt.jws_payload j)))
         else AuthMiddleware.Respond 401
                (AuthMiddleware.Body false "Token inválido"
                   "Token JWT inválido ou malformado")).
Proof.
  intros H. apply loginUser_returns in H as ([id row] & Hu & Ht).
  cbn [fst snd] in Hu, Ht. unfold select_user in Hu. cbn [fst snd] in Hu.
  rewrite select_with_password_row in Hu.
  eexists (Jwt.Jws _ jwtSecret). split; [exact Ht|]. split; [reflexivity|].
  cbn [Jwt.jws_payload Jwt.id Jwt.email Jwt.username Jwt.sub Jwt.iat Jwt.exp].
  rewrite Hu. split; [reflexivity|]. split; [reflexivity|]. split; [reflexivity|].
  split; [reflexivity|]. split; [reflexivity|]. split; [reflexivity|].
  intros Hne Hd now u.
  rewrite (AuthMiddlewareFacts.authenticateToken_with_token jwt jwtSecret now _
             (token r) u (AuthMiddlewareFacts.truthy_Bearer _)
             (AuthMiddlewareFacts.extract_token_Bearer _) Hne).
  unfold Jwt.verify. rewrite (AuthMiddlewareFacts.truthy_nonempty _ Hne), Hd.
  cbn [Jwt.jws_key Jwt.jws_payload Jwt.exp negb]. rewrite String.eqb_refl. cbn [negb].
  destruct (Z.ltb_spec now (clock w' / 1000 + 3600)) as [Hlt|Hge].
  - by apply Z.leb_gt in Hlt as ->.
  - by apply Z.leb_le in Hge as ->.
Qed.

(** X9: [verifyToken] on a token [jwt.verify] rejects, whatever the
    error.  A [JsonWebTokenError], which the error of an expired
    token is too, gives [AuthError("Token inválido", 401)]: the
    "Token expirado" branch is never taken.  Any other error, such
    as the one [jwt.verify] passes on when the decoding of the token
    throws, is logged and gives [AuthError] 500 (an [AuthError] would
    be thrown again as it is).  The store is not read. *)
Theorem verifyToken_rejected_token_is_invalid
    (verify : Z -> string -> Js.completion Jwt.claims)
    (tok : string) (err : Js.exn) (w : world) :
  verify (clock w / 1000) tok = Js.Throw err ->
  verifyToken_with e verify tok w
  = if Js.instanceof err Js.JsonWebTokenError
    then (Js.Throw (Js.new_AuthError "Token inválido" 401), w)
    else if Js.instanceof err Js.AuthError
    then (Js.Throw err, w)
    else (Js.Throw (Js.new_AuthError "Erro interno do servidor ao verificar token" 500),
          World (db w) (clock w) (ids w) (salts w)
            (console w ++ [("Error verifying token:", err)])).
Proof.
  intros Hv. unfold verifyToken_with, try_catch, bind at 1. rewrite Hv.
  destruct (Js.instanceof err Js.JsonWebTokenError) eqn:Hj; [reflexivity|].
  rewrite (AuthMiddlewareMore.TokenExpiredError_is_JsonWebTokenError err Hj).
  destruct (Js.instanceof err Js.AuthError); reflexivity.
Qed.

(** *** Reading operations *)

Lemma call_quiet {A} (o : op) (run : M A) (w : world) :
  quiet e ->
  call e o run w = match fault e o with
                   | Some err => (Js.Throw err, w)
                   | None => run w
                   end.
Proof.
  intros Hq. unfold call.
  assert (set_db (concurrent e o) w = w) as ->.
  { destruct w. unfold set_db. cbn. by rewrite Hq. }
  reflexivity.
Qed.

(** X10: [loginUser], [verifyToken] and [getUserProfile] only read:
    whether they return or throw, and whatever call fails, the
    database is after the run what it was before. *)
Theorem auth_reads_do_not_write
    (loginData : LoginInput.t) (tok userId : string) (w : world) :
  quiet e ->
  db (loginUser e bcrypt jwt jwtSecret loginData w).2 = db w /\
  db (verifyToken e jwt jwtSecret tok w).2 = db w /\
  db (getUserProfile e userId w).2 = db w.
Proof.
  intros Hq. repeat split.
  - unfold loginUser, try_catch, bind at 1, user_findUnique_email.
    rewrite (call_quiet _ _ _ Hq).
    destruct (fault e UserFindUniqueByEmail) as [err|].
    { by destruct (Js.instanceof err Js.AuthError). }
    destruct (find_row _ _) as [row|]; [|reflexivity].
    unfold bind, Bcrypt.compare, ret.
    by destruct (Bcrypt.compare_with _ _ _).
  - unfold verifyToken, verifyToken_with, try_catch, bind at 1.
    destruct (Jwt.verify _ _ _ _) as [decoded|err].
    + unfold bind, user_findUnique_id. rewrite (call_quiet _ _ _ Hq).
      destruct (fault e UserFindUniqueById) as [err|].
      { destruct (Js.instanceof err Js.JsonWebTokenError); [done|].
        destruct (Js.instanceof err Js.TokenExpiredError); [done|].
        by destruct (Js.instanceof err Js.AuthError). }
      by destruct (users (db w) !! Jwt.id decoded).
    + destruct (Js.instanceof err Js.JsonWebTokenError); [done|].
      destruct (Js.instanceof err Js.TokenExpiredError); [done|].
      by destruct (Js.instanceof err Js.AuthError).
  - unfold getUserProfile, try_catch, bind, user_findUnique_id.
    rewrite (call_quiet _ _ _ Hq).
    destruct (fault e UserFindUniqueById) as [err|].
    { by destruct (Js.instanceof err Js.AuthError). }
    by destruct (users (db w) !! userId).
Qed.

(** *** A store that answers and that nobody else writes to *)

Section Calm.
Hypothesis Hreliable : reliable e.
Hypothesis Hquiet : quiet e.

Lemma call_calm {A} (o : op) (run : M A) (w : world) : call e o run w = run w.
Proof. exact (SnippetServiceFacts.call_run e Hreliable Hquiet o run w). Qed.

Lemma set_db_quiet (o : op) (w : world) : set_db (concurrent e o) w = w.
Proof. destruct w. unfold set_db. cbn. by rewrite Hquiet. Qed.

(** [awardWelcomeBadge] only touches the badges of users. *)
Lemma awardWelcomeBadge_frame (userId : string) (w : world) :
  exists w',
    awardWelcomeBadge e userId w = (Js.Normal tt, w') /\
    users (db w') = users (db w) /\
    pointTransactions (db w') = pointTransactions (db w) /\
    snippets (db w') = snippets (db w) /\
    clock w' = clock w.
Proof.
  unfold awardWelcomeBadge, try_catch, bind at 1, badge_findUnique_name.
  rewrite call_calm.
  destruct (find_row _ (badges (db w))) as [[badgeId b]|]; [|by eexists].
  unfold bind at 1, userBadge_findUnique. rewrite call_calm.
  destruct (find_row _ (userBadges (db w))) as [ub|]; [by eexists|].
  unfold bind, userBadge_create. rewrite call_calm. cbn [fresh_id].
  destruct (has_row _ _); [by eexists|].
  destruct (negb _); [by eexists|].
  destruct (negb _); [by eexists|].
  destruct (bool_decide _); by eexists.
Qed.

(** A registration that nothing stands in the way of. *)
Lemma registerUser_run (userData : RegisterInput.t) (w : world) :
  free e bcrypt userData w ->
  exists w',
    registerUser e bcrypt userData w
    = (Js.Normal (select_user select_UserResponse
                    (cuid e (ids w), new_row bcrypt userData w)), w') /\
    users (db w') = <[cuid e (ids w) := credited_row bcrypt userData w]> (users (db w)) /\
    pointTransactions (db w')
    = <[cuid e (S (ids w)) := bonus_row e w]> (pointTransactions (db w)) /\
    snippets (db w') = snippets (db w) /\
    clock w' = clock w.
Proof.
  intros (He & Hu & Hid & Hpt & Hst).
  assert (Hpre : Registration.prechecks_pass e userData w).
  { unfold Registration.prechecks_pass. rewrite !set_db_quiet. repeat split; done. }
  rewrite (registerUser_after_prechecks e bcrypt userData w Hpre).
  rewrite !set_db_quiet.
  unfold try_catch, bind at 1, user_create. rewrite call_calm.
  unfold Registration.create_data in Hst. rewrite Hst. cbn [negb].
  cbn [fresh_id Bcrypt.hash snd fst db ids clock salts console data_email data_username
         data_password data_firstName data_lastName].
  unfold has_row. rewrite He, Hu.
  rewrite bool_decide_eq_false_2 by (rewrite Hid; by intros [? ?]).
  unfold bind at 1, promise_all3. cbn [fst].
  unfold pointTransaction_create at 1. rewrite call_calm.
  cbn [fresh_id fst snd db set_db set_users users pointTransactions ids clock salts console].
  rewrite lookup_insert_eq, Hpt.
  rewrite bool_decide_eq_true_2 by done.
  rewrite bool_decide_eq_false_2 by (by intros [? ?]).
  cbn [negb].
  unfold user_update_points_increment at 1. rewrite call_calm.
  cbn [db set_db set_pointTransactions set_users users ids clock salts console].
  rewrite lookup_insert_eq. cbn [User.points].
  change (negb (in_int4 (0 + 10))) with false. cbv iota.
  match goal with
  | |- context [awardWelcomeBadge e ?u ?w0] =>
      destruct (awardWelcomeBadge_frame u w0) as (w7 & -> & Hus & Hpts & Hsn & Hcl)
  end.
  eexists. split; [reflexivity|].
  cbn in Hus, Hpts, Hsn, Hcl.
  rewrite Hus, Hpts, Hsn, Hcl. rewrite insert_insert_eq.
  repeat split; reflexivity.
Qed.

(** A registration only returns when nothing stood in its way. *)
Lemma registerUser_Normal_free (userData : RegisterInput.t) (w w' : world) (u : object) :
  registerUser e bcrypt userData w = (Js.Normal u, w') -> free e bcrypt userData w.
Proof.
  intros H. unfold registerUser, try_catch, bind at 1, user_findUnique_email in H.
  rewrite call_calm in H.
  destruct (find_row _ (users (db w))) as [r|] eqn:He; [discriminate H|].
  cbn [bool_decide decide_rel is_Some_dec option_eq_None_dec] in H.
  unfold bind at 1, user_findUnique_username in H. rewrite call_calm in H.
  destruct (find_row (λ u0, String.eqb (User.username u0) _) (users (db w)))
    as [r|] eqn:Hu; [discriminate H|].
  cbn [bool_decide decide_rel is_Some_dec option_eq_None_dec] in H.
  unfold bind at 1, Bcrypt.hash in H.
  unfold bind at 1, user_create in H. rewrite call_calm in H.
  cbn [fresh_id snd fst db ids clock salts console data_email data_username
         data_password data_firstName data_lastName] in H.
  match type of H with
  | context [negb (storable_user ?d)] => destruct (storable_user d) eqn:Hst
  end; [|discriminate H].
  cbn [negb] in H.
  unfold has_row in H. rewrite He, Hu in H.
  destruct (users (db w) !! cuid e (ids w)) as [r|] eqn:Hid.
  { rewrite bool_decide_eq_true_2 in H by eauto. discriminate H. }
  rewrite bool_decide_eq_false_2 in H by (by intros [? ?]).
  unfold bind at 1, promise_all3 in H. cbn [fst] in H.
  unfold pointTransaction_create at 1 in H. rewrite call_calm in H.
  cbn [fresh_id fst snd db set_db set_users users pointTransactions ids clock salts
         console] in H.
  rewrite lookup_insert_eq in H.
  rewrite bool_decide_eq_true_2 in H by done. cbn [negb] in H.
  destruct (pointTransactions (db w) !! cuid e (S (ids w))) as [r|] eqn:Hpt.
  { exfalso. rewrite bool_decide_eq_true_2 in H by eauto.
    destruct (user_update_points_increment _ _ _ _) as [r2 w2].
    destruct (awardWelcomeBadge_frame (cuid e (ids w)) w2) as (w3 & Hb & _).
    rewrite Hb in H. destruct r2; discriminate H. }
  done.
Qed.


(** X5: registering and then logging in.  With a bcrypt that
    accepts the digests it produced, a login with the email and the
    password of a registration that succeeded succeeds: it returns
    the stored user, now with its 10 points, and a token signed for
    that user; the login itself changes nothing. *)
Theorem registerUser_then_loginUser
    (userData : RegisterInput.t) (w w' : world) (u : object) :
  (forall p n, Bcrypt.compare_with bcrypt p (Bcrypt.hash_with bcrypt p 12 n) = true) ->
  registerUser e bcrypt userData w = (Js.Normal u, w') ->
  loginUser e bcrypt jwt jwtSecret
    (LoginInput.Make (RegisterInput.email userData) (RegisterInput.password userData)) w'
  = (Js.Normal
       (MkLoginResponse
          (Jwt.sign jwt (clock w / 1000) (cuid e (ids w)) (RegisterInput.email userData)
             (RegisterInput.username userData) jwtSecret "codecollab-api"
             (cuid e (ids w)))
          (delete "password"
             (user_object (cuid e (ids w)) (credited_row bcrypt userData w)))),
     w').
Proof.
  intros Hb H. pose proof (registerUser_Normal_free _ _ _ _ H) as Hfree.
  destruct (registerUser_run userData w Hfree) as (w1 & Hrun & Hus & _ & _ & Hcl).
  rewrite Hrun in H. apply pair_equal_spec in H as [_ <-].
  destruct Hfree as (He & _ & Hid & _).
  unfold loginUser, try_catch, bind at 1, user_findUnique_email. rewrite call_calm.
  cbn [LoginInput.email LoginInput.password].
  rewrite (find_row_unique _ (users (db w1)) (cuid e (ids w))
             (credited_row bcrypt userData w)).
  - unfold bind at 1, Bcrypt.compare, ret. cbn [snd fst User.password credited_row].
    rewrite Hb. cbn [negb]. unfold bind. rewrite Hcl.
    cbn [User.email User.username].
    unfold select_user. cbn [fst snd]. by rewrite select_with_password_row.
  - rewrite Hus. apply lookup_insert_eq.
  - cbn. apply String.eqb_refl.
  - intros k' r'. rewrite Hus. intros Hk' Hp'.
    destruct (decide (k' = cuid e (ids w))) as [->|Hne]; [done|].
    rewrite lookup_insert_ne in Hk' by done.
    by rewrite (find_row_None _ _ He _ _ Hk') in Hp'.
Qed.

(** X6: registering twice.  After a registration that succeeded, a
    second one with the same email is refused with status 409, and
    so is one with another (free) email and the same user name;
    neither writes anything. *)
Theorem registerUser_twice_is_409
    (userData again : RegisterInput.t) (w w' : world) (u : object) :
  registerUser e bcrypt userData w = (Js.Normal u, w') ->
  (RegisterInput.email again = RegisterInput.email userData ->
   registerUser e bcrypt again w'
   = (Js.Throw (Js.new_AuthError "Usuário com este email já existe" 409), w')) /\
  (find_row (λ r, String.eqb (User.email r) (RegisterInput.email again))
     (users (db w')) = None ->
   RegisterInput.username again = RegisterInput.username userData ->
   registerUser e bcrypt again w'
   = (Js.Throw (Js.new_AuthError "Nome de usuário já está em uso" 409), w')).
Proof.
  intros H. pose proof (registerUser_Normal_free _ _ _ _ H) as Hfree.
  destruct (registerUser_run userData w Hfree) as (w1 & Hrun & Hus & _).
  rewrite Hrun in H. apply pair_equal_spec in H as [_ <-].
  assert (Hrow : users (db w1) !! cuid e (ids w) = Some (credited_row bcrypt userData w)).
  { rewrite Hus. apply lookup_insert_eq. }
  split.
  - intros Heq.
    destruct (find_row (λ r, String.eqb (User.email r) (RegisterInput.email again))
                (users (db w1))) as [row|] eqn:Hf.
    + pose proof (registerUser_precheck_is_409 e bcrypt again w1 row
                    (Hreliable _)) as Hp.
      rewrite set_db_quiet in Hp. by apply Hp.
    + pose proof (find_row_None _ _ Hf _ _ Hrow) as Hn. cbn in Hn.
      rewrite Heq, String.eqb_refl in Hn. discriminate.
  - intros Hf Heq.
    unfold registerUser, try_catch, bind at 1, user_findUnique_email.
    rewrite call_calm, Hf.
    cbn [bool_decide decide_rel is_Some_dec option_eq_None_dec].
    unfold bind at 1, user_findUnique_username. rewrite call_calm.
    destruct (find_row (λ r, String.eqb (User.username r) _) (users (db w1)))
      as [row|] eqn:Hg; [reflexivity|].
    pose proof (find_row_None _ _ Hg _ _ Hrow) as Hn. cbn in Hn.
    rewrite Heq, String.eqb_refl in Hn. discriminate.
Qed.

(** X8: [verifyToken] looks the user of the token up again.  On a
    token [jwt.verify] accepts, it returns the row the store holds
    now under the id of the token, without the password, whatever
    the token says of email and user name, and it throws
    [AuthError] 404 when that row is gone; the middleware, which
    does not read the store, lets the same token through in both
    cases. *)
Theorem verifyToken_reads_current_user
    (tok : string) (decoded : Jwt.claims) (w : world) :
  Jwt.verify jwt (clock w / 1000) tok jwtSecret = Js.Normal decoded ->
  verifyToken e jwt jwtSecret tok w =
    match users (db w) !! Jwt.id decoded with
    | Some row =>
        (Js.Normal (delete "password" (user_object (Jwt.id decoded) row)), w)
    | None => (Js.Throw (Js.new_AuthError "Usuário não encontrado" 404), w)
    end /\
  AuthMiddleware.authenticateToken jwt jwtSecret (clock w / 1000)
    (AuthMiddleware.Request (Some ("Bearer " +:+ tok)) None)
  = AuthMiddleware.Next
      (AuthMiddleware.Request (Some ("Bearer " +:+ tok)) (Some decoded)).
Proof.
  intros Hv. split.
  - unfold verifyToken, verifyToken_with, try_catch, bind at 1. rewrite Hv.
    unfold bind, user_findUnique_id. rewrite call_calm.
    destruct (users (db w) !! Jwt.id decoded) as [row|]; [|reflexivity].
    cbn [fmap option_fmap option_map]. unfold ret, select_user. cbn [fst snd].
    by rewrite select_UserResponse_row.
  - assert (Hne : tok <> "") by (intros ->; discriminate Hv).
    rewrite (AuthMiddlewareFacts.authenticateToken_with_token jwt jwtSecret _ _ tok None
               (AuthMiddlewareFacts.truthy_Bearer tok)
               (AuthMiddlewareFacts.extract_token_Bearer tok) Hne).
    by rewrite Hv.
Qed.

End Calm.

End More.

(** *** Runs on the sample installation *)


Lemma registerUser_then_loginUser_witness :
  loginUser calm demo_bcrypt demo_codec "s3cret"
    (LoginInput.Make (RegisterInput.email bob) (RegisterInput.password bob)) w_bob
  = (Js.Normal
       (MkLoginResponse
          (Jwt.sign demo_codec (clock w_alice / 1000) (cuid calm (ids w_alice))
             (RegisterInput.email bob) (RegisterInput.username bob) "s3cret"
             "codecollab-api" (cuid calm (ids w_alice)))
          (delete "password"
             (user_object (cuid calm (ids w_alice))
                (credited_row demo_bcrypt bob w_alice)))),
     w_bob).
Proof.
  apply (registerUser_then_loginUser calm demo_bcrypt demo_codec "s3cret"
           SnippetServiceFacts.steady_reliable SnippetServiceFacts.steady_quiet
           bob w_alice w_bob (delete "password" (user_object "c0" (bob_row 0)))).
  - intros p n. simpl. apply String.eqb_refl.
  - apply injective_projections; cbn [fst snd]; reflexivity.
Defined.

Lemma registerUser_twice_is_409_witness :
  (RegisterInput.email bob = RegisterInput.email bob ->
   registerUser calm demo_bcrypt bob w_bob
   = (Js.Throw (Js.new_AuthError "Usuário com este email já existe" 409), w_bob)) /\
  (find_row (λ r, String.eqb (User.email r) (RegisterInput.email bob))
     (users (db w_bob)) = None ->
   RegisterInput.username bob = RegisterInput.username bob ->
   registerUser calm demo_bcrypt bob w_bob
   = (Js.Throw (Js.new_AuthError "Nome de usuário já está em uso" 409), w_bob)).
Proof.
  apply (registerUser_twice_is_409 calm demo_bcrypt
           SnippetServiceFacts.steady_reliable SnippetServiceFacts.steady_quiet
           bob bob w_alice w_bob (delete "password" (user_object "c0" (bob_row 0)))).
  apply injective_projections; cbn [fst snd]; reflexivity.
Defined.

Lemma verifyToken_reads_current_user_witness :
  verifyToken calm demo_codec "s3cret" "jwt:u1" w_alice =
    match users (db w_alice)
          !! Jwt.id (Jwt.Claims "u1" "alice@example.com" "alice" 5 3605
                       "codecollab-api" "u1") with
    | Some row =>
        (Js.Normal
           (delete "password"
              (user_object
                 (Jwt.id (Jwt.Claims "u1" "alice@example.com" "alice" 5 3605
                            "codecollab-api" "u1")) row)), w_alice)
    | None => (Js.Throw (Js.new_AuthError "Usuário não encontrado" 404), w_alice)
    end /\
  AuthMiddleware.authenticateToken demo_codec "s3cret" (clock w_alice / 1000)
    (AuthMiddleware.Request (Some ("Bearer " +:+ "jwt:u1")) None)
  = AuthMiddleware.Next
      (AuthMiddleware.Request (Some ("Bearer " +:+ "jwt:u1"))
         (Some (Jwt.Claims "u1" "alice@example.com" "alice" 5 3605
                  "codecollab-api" "u1"))).
Proof.
  apply (verifyToken_reads_current_user calm demo_codec "s3cret"
           SnippetServiceFacts.steady_reliable SnippetServiceFacts.steady_quiet
           "jwt:u1" _ w_alice).
  reflexivity.
Defined.

Lemma loginUser_token_valid_for_one_hour_witness :
  exists j : Jwt.jws,
    "jwt:u1" = Jwt.encode demo_codec j /\
    Jwt.jws_key j = "s3cret" /\
    delete "password" (user_object "u1" alice) !! "id"
    = Some (Js.VString (Jwt.id (Jwt.jws_payload j))) /\
    delete "password" (user_object "u1" alice) !! "email"
    = Some (Js.VString (Jwt.email (Jwt.jws_payload j))) /\
    delete "password" (user_object "u1" alice) !! "username"
    = Some (Js.VString (Jwt.username (Jwt.jws_payload j))) /\
    Jwt.sub (Jwt.jws_payload j) = Jwt.id (Jwt.jws_payload j) /\
    Jwt.iat (Jwt.jws_payload j) = clock w_alice / 1000 /\
    Jwt.exp (Jwt.jws_payload j) = clock w_alice / 1000 + 3600 /\
    ("jwt:u1" <> "" -> Jwt.decode demo_codec "jwt:u1" = Some j ->
     forall (now : Z) (u : option Jwt.claims),
       AuthMiddleware.authenticateToken demo_codec "s3cret" now
         (AuthMiddleware.Request (Some ("Bearer " +:+ "jwt:u1")) u)
       = if (now <? clock w_alice / 1000 + 3600)%Z
         then AuthMiddleware.Next
                (AuthMiddleware.Request (Some ("Bearer " +:+ "jwt:u1"))
                   (Some (Jwt.jws_payload j)))
         else AuthMiddleware.Respond 401
                (AuthMiddleware.Body false "Token inválido"
                   "Token JWT inválido ou malformado")).
Proof.
  refine (loginUser_token_valid_for_one_hour calm demo_bcrypt demo_codec "s3cret"
            (LoginInput.Make "alice@example.com" "Passw0rd") w_alice w_alice
            (MkLoginResponse "jwt:u1" (delete "password" (user_object "u1" alice))) _).
  apply injective_projections; cbn [fst snd]; reflexivity.
Defined.

Lemma verifyToken_rejected_token_is_invalid_witness :
  verifyToken_with calm
    (λ _ _, Js.Throw (Js.Exn Js.SyntaxError "Unexpected token in JSON" None None))
    "e30.e30.x" w_later
  = if Js.instanceof (Js.Exn Js.SyntaxError "Unexpected token in JSON" None None)
         Js.JsonWebTokenError
    then (Js.Throw (Js.new_AuthError "Token inválido" 401), w_later)
    else if Js.instanceof (Js.Exn Js.SyntaxError "Unexpected token in JSON" None None)
              Js.AuthError
    then (Js.Throw (Js.Exn Js.SyntaxError "Unexpected token in JSON" None None), w_later)
    else (Js.Throw (Js.new_AuthError "Erro interno do servidor ao verificar token" 500),
          World (db w_later) (clock w_later) (ids w_later) (salts w_later)
            (console w_later
             ++ [("Error verifying token:",
                  Js.Exn Js.SyntaxError "Unexpected token in JSON" None None)])).
Proof.
  apply (verifyToken_rejected_token_is_invalid calm
           (λ _ _, Js.Throw (Js.Exn Js.SyntaxError "Unexpected token in JSON" None None))
           "e30.e30.x"
           (Js.Exn Js.SyntaxError "Unexpected token in JSON" None None) w_later).
  reflexivity.
Defined.

(** An expired token is answered as an invalid one. *)
Example verifyToken_expired_is_invalid :
  verifyToken calm demo_codec "s3cret" "jwt:u1" w_later
  = (Js.Throw (Js.new_AuthError "Token inválido" 401), w_later).
Proof. reflexivity. Qed.

Lemma auth_reads_do_not_write_witness :
  db (loginUser calm demo_bcrypt demo_codec "s3cret"
        (LoginInput.Make "alice@example.com" "Passw0rd") w_alice).2 = db w_alice /\
  db (verifyToken calm demo_codec "s3cret" "jwt:u1" w_alice).2 = db w_alice /\
  db (getUserProfile calm "u1" w_alice).2 = db w_alice.
Proof.
  apply (auth_reads_do_not_write calm demo_bcrypt demo_codec "s3cret"
           (LoginInput.Make "alice@example.com" "Passw0rd") "jwt:u1" "u1" w_alice).
  intros o d. reflexivity.
Defined.


End AuthServiceMore.

(* ================================================================= *)
(** ** The snippet service, continued                                 *)
(* ================================================================= *)

Module SnippetServiceMore.
Import Prisma PrismaClient SnippetService PrismaClientRest SnippetServiceRest.
Import Conditions Ownership Outcomes Listing Creation Sample Scenes AuthServiceFacts
  AuthServiceMore.

(** *** The order of a listing *)

Lemma before_total (le : string -> string -> bool) (f : SortField) (o : SortOrder) :
  (f = ByTitle -> forall a b : string, le a b = true \/ le b a = true) ->
  Total (before le f o).
Proof.
  intros Hle x y. unfold before.
  assert (H : field_leb le f x.2 y.2 = true \/ field_leb le f y.2 x.2 = true).
  { destruct f; cbn; rewrite ?Z.leb_le; try lia. by apply Hle. }
  destruct o, H as [H|H]; rewrite ?H; cbn; auto.
Qed.



Lemma Sorted_weaken {A} (R1 R2 : relation A) (l : list A) :
  (forall x y, R1 x y -> R2 x y) -> Sorted R1 l -> Sorted R2 l.
Proof.
  intros HR. induction 1 as [|x l Hl IH Hd]; constructor; [done|].
  destruct Hd; constructor. by apply HR.
Qed.

Lemma rows_results (d : Db) (l : list (string * Snippet.t)) :
  rows (map (λ kv : string * Snippet.t,
               Result kv.1 kv.2 (author_of d kv.2) [] (count_reviews d kv.1)) l) = l.
Proof.
  unfold rows. rewrite map_map. cbn. induction l as [|[k s] l IH]; [done|].
  cbn. by rewrite IH.
Qed.

Lemma elem_of_matching (wh : SnippetWhere) (w : world) (k : string) (s : Snippet.t) :
  (k, s) ∈ matching wh w <->
  snippets (db w) !! k = Some s /\ where_holds wh s = true.
Proof.
  unfold matching. rewrite list_elem_of_filter, elem_of_map_to_list. cbn. tauto.
Qed.


(** *** What the results show of other users *)

Lemma select_public_profile (o : object) :
  public_profile (select ["id"; "username"; "firstName"; "lastName"; "avatar"] o).
Proof.
  intros k [v Hv]. unfold select in Hv.
  apply map_lookup_filter_Some in Hv as [_ Hk]. exact Hk.
Qed.

Lemma author_of_public (d : Db) (s : Snippet.t) (o : object) :
  author_of d s = Some o -> public_profile o.
Proof.
  unfold author_of. destruct (users d !! Snippet.authorId s) as [u|]; [|discriminate].
  intros H. apply (inj Some) in H. subst o. apply select_public_profile.
Qed.

Lemma reviews_with_reviewer_public (d : Db) (snippetId : string)
    (x : string * Review.t * option object) (o : object) :
  x ∈ reviews_with_reviewer d snippetId -> x.2 = Some o -> public_profile o.
Proof.
  unfold reviews_with_reviewer. intros Hx Ho.
  apply list_elem_of_fmap in Hx as (kv & -> & _). cbn in Ho.
  destruct (users d !! Review.reviewerId kv.2) as [u|]; [|discriminate].
  apply (inj Some) in Ho. subst o. apply select_public_profile.
Qed.

Lemma found_discreet (d : Db) (k : string) (s : Snippet.t) :
  discreet (Result k s (author_of d s) (reviews_with_reviewer d k) (count_reviews d k)).
Proof.
  split; cbn.
  - apply author_of_public.
  - intros x o. apply reviews_with_reviewer_public.
Qed.

Lemma add_view_discreet (r : SnippetResult) : discreet r -> discreet (add_view r).
Proof. intros [H1 H2]. split; [exact H1 | exact H2]. Qed.

Lemma listed_discreet (d : Db) (k : string) (s : Snippet.t) (n : Z) :
  discreet (Result k s (author_of d s) [] n).
Proof.
  split; cbn.
  - apply author_of_public.
  - intros x o Hx. by apply elem_of_nil in Hx.
Qed.

Lemma results_discreet (d : Db) (l : list (string * Snippet.t)) :
  Forall discreet
    (map (λ kv : string * Snippet.t,
            Result kv.1 kv.2 (author_of d kv.2) [] (count_reviews d kv.1)) l).
Proof. apply Forall_fmap, Forall_forall. intros kv _. apply listed_discreet. Qed.

Section Any.
Variable e : env.
Variable c : create_env.

(** X12: whatever the store does, a snippet a service returns shows
    of its author, and of the reviewers of its reviews, nothing but
    the id, the user name, the names and the avatar: never the
    email, the password hash or the points. *)
Theorem snippet_results_are_discreet
    (snippetId : string) (userId : option string) (authorId : string)
    (updateData : SnippetUpdateInput) (snippetData : CreateSnippetInput.t)
    (query : ListSnippetsQuery.t) (w : world) :
  returns_only discreet (getSnippetById e snippetId userId w) /\
  returns_only discreet (updateSnippet e snippetId updateData authorId w) /\
  returns_only discreet (createSnippet e c snippetData authorId w) /\
  returns_only (λ p, Forall discreet (snippets_of p))
    (getSnippetsWithPagination e query userId w) /\
  returns_only (Forall discreet) (getAllSnippets e w) /\
  returns_only (Forall discreet) (getSnippetsByUserId e authorId userId w).
Proof.
  unfold returns_only. repeat split.
  - unfold getSnippetById, try_catch, bind at 1, snippet_findUnique_include, call.
    destruct (fault e SnippetFindUnique) as [err|].
    { by destruct (Js.instanceof err Js.SnippetError). }
    destruct (snippets _ !! snippetId) as [s|]; [|done].
    cbn [fmap option_fmap option_map snippet].
    destruct (negb _); [done|].
    destruct (bool_decide _); [|apply found_discreet].
    unfold bind, snippet_update_views_increment, call.
    destruct (fault e SnippetUpdate) as [err|].
    { by destruct (Js.instanceof err Js.SnippetError). }
    destruct (snippets _ !! snippetId) as [s'|]; [|done].
    destruct (negb (in_int4 _)); [done|].
    apply add_view_discreet, found_discreet.
  - unfold updateSnippet, try_catch, bind at 1, snippet_findUnique_authorId, call.
    destruct (fault e SnippetFindUnique) as [err|].
    { by destruct (Js.instanceof err Js.SnippetError). }
    destruct (snippets _ !! snippetId) as [s|]; [|done].
    cbn [fmap option_fmap option_map snd].
    destruct (bool_decide _); [done|].
    unfold bind, snippet_update, call.
    destruct (fault e SnippetUpdate) as [err|].
    { by destruct (Js.instanceof err Js.SnippetError). }
    destruct (snippets _ !! snippetId) as [s'|]; [|done].
    destruct (negb (storable_update _)); [done|].
    apply listed_discreet.
  - unfold createSnippet, try_catch, bind at 1, user_findUnique_id, call.
    destruct (fault e UserFindUniqueById) as [err|].
    { by destruct (Js.instanceof err Js.SnippetError). }
    destruct (users _ !! authorId) as [u|]; [|done].
    cbn [fmap option_fmap option_map].
    unfold bind, snippet_create.
    destruct (create_fault c) as [err|].
    { by destruct (Js.instanceof err Js.SnippetError). }
    cbn [fresh_id]. destruct (negb (storable_snippet _ _ _ _ _)); [done|].
    destruct (negb _); [done|].
    destruct (bool_decide _); [done|].
    apply listed_discreet.
  - unfold getSnippetsWithPagination, try_catch, bind, promise_all2,
      snippet_findMany, snippet_count, call.
    destruct (fault e SnippetFindMany) as [err|];
      destruct (fault e SnippetCount) as [err'|]; try done.
    + destruct (_ || _); [done|]. destruct (negb _); done.
    + destruct (_ || _); [done|]. destruct (negb _); [done|]. apply results_discreet.
  - unfold getAllSnippets, try_catch, bind, snippet_findMany_all, call.
    destruct (fault e SnippetFindMany) as [err|]; [done|]. apply results_discreet.
  - unfold getSnippetsByUserId, try_catch, bind at 1, user_findUnique_id, call.
    destruct (fault e UserFindUniqueById) as [err|].
    { by destruct (Js.instanceof err Js.SnippetError). }
    destruct (users _ !! authorId) as [u|]; [|done].
    cbn [fmap option_fmap option_map].
    unfold bind, snippet_findMany_all, call.
    destruct (fault e SnippetFindMany) as [err|].
    { by destruct (Js.instanceof err Js.SnippetError). }
    apply results_discreet.
Qed.

(** X13: whatever the store does, every rejection of a function of
    the snippet service is a [SnippetError]: the controllers never
    see an error of the store. *)
Theorem snippet_service_throws_only_SnippetError
    (snippetId : string) (userId : option string) (authorId : string)
    (updateData : SnippetUpdateInput) (snippetData : CreateSnippetInput.t)
    (query : ListSnippetsQuery.t) (w : world) :
  throws_only Js.SnippetError (getSnippetById e snippetId userId w) /\
  throws_only Js.SnippetError (updateSnippet e snippetId updateData authorId w) /\
  throws_only Js.SnippetError (deleteSnippet e snippetId authorId w) /\
  throws_only Js.SnippetError (createSnippet e c snippetData authorId w) /\
  throws_only Js.SnippetError (getSnippetsWithPagination e query userId w) /\
  throws_only Js.SnippetError (getAllSnippets e w) /\
  throws_only Js.SnippetError (getSnippetsByUserId e authorId userId w).
Proof.
  unfold throws_only.
  repeat split;
    [ unfold getSnippetById | unfold updateSnippet | unfold deleteSnippet
    | unfold createSnippet | unfold getSnippetsWithPagination | unfold getAllSnippets
    | unfold getSnippetsByUserId ];
    unfold try_catch;
    match goal with |- context [bind ?m ?k w] => destruct (bind m k w) as [[a|err] w1] end;
    try done;
    by destruct (Js.instanceof err Js.SnippetError) eqn:Hi.
Qed.

End Any.

Section Calm.
Variable e : env.
Hypothesis Hreliable : reliable e.
Hypothesis Hquiet : quiet e.

Lemma call_steady {A} (o : op) (run : M A) (w : world) : call e o run w = run w.
Proof. exact (SnippetServiceFacts.call_run e Hreliable Hquiet o run w). Qed.


(** X14: the listing does not check its page number.  A page number
    and a page size that make [skip] negative (page 0, say) are sent
    to the store as they are; the store refuses the query, and the
    service logs the refusal and throws the generic
    [SnippetError] 500. *)
Theorem getSnippetsWithPagination_negative_skip_is_500
    (query : ListSnippetsQuery.t) (userId : option string) (w : world) :
  (default 1 (ListSnippetsQuery.page query) - 1)
  * default 20 (ListSnippetsQuery.limit query) < 0 ->
  exists logged,
    getSnippetsWithPagination e query userId w
    = (Js.Throw (Js.new_SnippetError "Erro interno ao buscar snippets" 500),
       World (db w) (clock w) (ids w) (salts w)
         (console w ++ [("Erro ao buscar snippets com paginação:", logged)])) /\
    Js.instanceof logged Js.SnippetError = false.
Proof.
  intros Hskip. apply Z.ltb_lt in Hskip.
  unfold getSnippetsWithPagination, try_catch, bind, promise_all2,
    snippet_findMany, snippet_count.
  rewrite call_steady, Hskip. cbn [orb]. rewrite call_steady.
  eexists. split; reflexivity.
Qed.

(** X15: deleting.  After a deletion that succeeded the snippet is
    gone and its reviews with it, the other snippets and the users
    are as they were, and both a fetch and a second deletion of the
    same id, by anyone, are answered with [SnippetError] 404. *)
Theorem deleteSnippet_then_not_found
    (snippetId authorId : string) (w w' : world) (message : string) :
  deleteSnippet e snippetId authorId w = (Js.Normal message, w') ->
  snippets (db w') = delete snippetId (snippets (db w)) /\
  reviews (db w')
  = filter (λ kv, Review.snippetId kv.2 ≠ snippetId) (reviews (db w)) /\
  users (db w') = users (db w) /\
  (forall caller : option string,
     getSnippetById e snippetId caller w'
     = (Js.Throw (Js.new_SnippetError "Snippet não encontrado" 404), w')) /\
  (forall caller : string,
     deleteSnippet e snippetId caller w'
     = (Js.Throw (Js.new_SnippetError "Snippet não encontrado" 404), w')).
Proof.
  intros H.
  unfold deleteSnippet, try_catch, bind at 1, snippet_findUnique_authorId in H.
  rewrite call_steady in H.
  destruct (snippets (db w) !! snippetId) as [s|] eqn:Hs; [|discriminate H].
  cbn [fmap option_fmap option_map snd] in H.
  destruct (bool_decide (Snippet.authorId s ≠ authorId)); [discriminate H|].
  unfold bind, snippet_delete in H. rewrite call_steady, Hs in H.
  apply pair_equal_spec in H as [_ <-].
  cbn [db set_db set_reviews set_snippets snippets reviews users].
  repeat (split; [reflexivity|]). split.
  - intros caller.
    unfold getSnippetById, try_catch, bind, snippet_findUnique_include.
    rewrite call_steady. cbn [db set_db set_reviews set_snippets snippets].
    by rewrite lookup_delete_eq.
  - intros caller.
    unfold deleteSnippet, try_catch, bind, snippet_findUnique_authorId.
    rewrite call_steady. cbn [db set_db set_reviews set_snippets snippets].
    by rewrite lookup_delete_eq.
Qed.

(** X16: updating.  An update only succeeds on a stored snippet of
    the caller; it replaces that one row by the returned one, in
    which the columns given in the update have their new values,
    the other writable columns their old ones, [updatedAt] is the
    time of the update, and the author, the counters and the
    creation date are untouched; no other table changes. *)
Theorem updateSnippet_changes_only_the_given_columns
    (snippetId authorId : string) (updateData : SnippetUpdateInput)
    (w w' : world) (r : SnippetResult) :
  updateSnippet e snippetId updateData authorId w = (Js.Normal r, w') ->
  exists s,
    snippets (db w) !! snippetId = Some s /\
    Snippet.authorId s = authorId /\
    id r = snippetId /\
    snippets (db w') = <[snippetId := snippet r]> (snippets (db w)) /\
    users (db w') = users (db w) /\
    reviews (db w') = reviews (db w) /\
    Snippet.authorId (snippet r) = Snippet.authorId s /\
    Snippet.views (snippet r) = Snippet.views s /\
    Snippet.likes (snippet r) = Snippet.likes s /\
    Snippet.createdAt (snippet r) = Snippet.createdAt s /\
    Snippet.updatedAt (snippet r) = clock w /\
    Snippet.title (snippet r) = default (Snippet.title s) (data_title updateData) /\
    Snippet.description (snippet r)
    = default (Snippet.description s) (data_description updateData) /\
    Snippet.content (snippet r) = default (Snippet.content s) (data_content updateData) /\
    Snippet.language (snippet r)
    = default (Snippet.language s) (data_language updateData) /\
    Snippet.tags (snippet r) = default (Snippet.tags s) (data_tags updateData) /\
    Snippet.isPublic (snippet r)
    = default (Snippet.isPublic s) (data_isPublic updateData).
Proof.
  intros H.
  unfold updateSnippet, try_catch, bind at 1, snippet_findUnique_authorId in H.
  rewrite call_steady in H.
  destruct (snippets (db w) !! snippetId) as [s|] eqn:Hs; [|discriminate H].
  cbn [fmap option_fmap option_map snd] in H.
  destruct (decide (Snippet.authorId s = authorId)) as [Ha|Ha].
  2:{ rewrite bool_decide_eq_true_2 in H by done. discriminate H. }
  rewrite bool_decide_eq_false_2 in H by (intros Hn; by apply Hn).
  unfold bind, snippet_update in H. rewrite call_steady, Hs in H.
  destruct (negb (storable_update updateData)); [discriminate H|].
  apply pair_equal_spec in H as [Hr <-]. apply Normal_inj in Hr. subst r.
  exists s. cbn. done.
Qed.

(** *** The unpaginated listings *)

Lemma NoDup_sorted_matching (wh : SnippetWhere) (f : SortField) (o : SortOrder)
    (w : world) :
  NoDup (merge_sort (before (collate e) f o) (matching wh w)).
Proof.
  rewrite merge_sort_Permutation. unfold matching.
  apply NoDup_filter, NoDup_map_to_list.
Qed.

Lemma newest_first_sorted (l : list (string * Snippet.t)) :
  Sorted (λ a b, Snippet.createdAt b.2 <= Snippet.createdAt a.2)
    (merge_sort (before (collate e) ByCreatedAt Desc) l).
Proof.
  apply (Sorted_weaken (before (collate e) ByCreatedAt Desc));
    [|by apply Sorted_merge_sort, before_total].
  intros x y. unfold before. cbn. intros H. apply Is_true_true in H. by apply Z.leb_le.
Qed.

Lemma snippet_findMany_all_calm (wh : SnippetWhere) (f : SortField) (o : SortOrder)
    (w : world) :
  exists l,
    snippet_findMany_all e wh f o w = (Js.Normal l, w) /\
    rows l = merge_sort (before (collate e) f o) (matching wh w).
Proof.
  unfold snippet_findMany_all. rewrite call_steady. eexists. split; [reflexivity|].
  apply rows_results.
Qed.

(** X17: [getAllSnippets] returns, without writing anything, every
    public snippet of the store exactly once and no private one,
    whoever they belong to, the newest first. *)
Theorem getAllSnippets_lists_the_public_snippets (w : world) :
  exists l,
    getAllSnippets e w = (Js.Normal l, w) /\
    (forall k s, (k, s) ∈ rows l <->
                 snippets (db w) !! k = Some s /\ Snippet.isPublic s = true) /\
    NoDup (rows l) /\
    Sorted (λ a b, Snippet.createdAt b.2 <= Snippet.createdAt a.2) (rows l).
Proof.
  destruct (snippet_findMany_all_calm (Where (Some true) None None None None)
              ByCreatedAt Desc w) as (l & Hrun & Hrows).
  exists l. unfold getAllSnippets, try_catch, bind. rewrite Hrun.
  split; [reflexivity|]. rewrite Hrows. split; [|split].
  - intros k s. rewrite merge_sort_Permutation, elem_of_matching.
    unfold where_holds. cbn. rewrite !andb_true_r.
    by destruct (Snippet.isPublic s).
  - apply NoDup_sorted_matching.
  - apply newest_first_sorted.
Qed.


(** *** Creating *)

(** X19: creating a snippet.  For an author the store does not know
    [createSnippet] throws [SnippetError] 404 and writes nothing.
    For a known author and data one of whose strings has the code
    unit 0, which the database cannot store, it logs the refusal of
    the database and throws [SnippetError] 500, and nothing is
    inserted.  For a known author and data that can be stored it
    inserts one row under a fresh id, with the given title,
    description, content and language, no tags and public unless
    said otherwise, no views and no likes, created now by that
    author; a fetch of the new id by the author returns that row and
    counts no view, and unless the snippet was created private a
    fetch by anybody else succeeds too. *)
Theorem createSnippet_then_getSnippetById
    (c : create_env) (snippetData : CreateSnippetInput.t) (authorId : string)
    (w : world) :
  create_fault c = None -> (forall d, create_concurrent c d = d) ->
  (users (db w) !! authorId = None ->
   createSnippet e c snippetData authorId w
   = (Js.Throw (Js.new_SnippetError "Autor não encontrado" 404), w)) /\
  (is_Some (users (db w) !! authorId) ->
   storable_input snippetData = false ->
   exists w' logged,
     createSnippet e c snippetData authorId w
     = (Js.Throw (Js.new_SnippetError "Erro interno ao criar snippet" 500), w') /\
     console w' = console w ++ [("Erro ao criar snippet:", logged)] /\
     Js.instanceof logged Js.SnippetError = false /\
     db w' = db w) /\
  (is_Some (users (db w) !! authorId) ->
   storable_input snippetData = true ->
   snippets (db w) !! cuid e (ids w) = None ->
   authorId <> "" ->
   exists r w',
     createSnippet e c snippetData authorId w = (Js.Normal r, w') /\
     id r = cuid e (ids w) /\
     snippet r
     = Snippet.Row (CreateSnippetInput.title snippetData)
         (CreateSnippetInput.description snippetData)
         (CreateSnippetInput.content snippetData)
         (CreateSnippetInput.language snippetData)
         (default [] (CreateSnippetInput.tags snippetData))
         (default true (CreateSnippetInput.isPublic snippetData))
         0 0 (clock w) (clock w) authorId /\
     snippets (db w') = <[id r := snippet r]> (snippets (db w)) /\
     users (db w') = users (db w) /\
     (exists r',
        getSnippetById e (id r) (Some authorId) w' = (Js.Normal r', w') /\
        snippet r' = snippet r /\ author r' = author r) /\
     (CreateSnippetInput.isPublic snippetData <> Some false ->
      forall caller : option string,
        exists r' w'', getSnippetById e (id r) caller w' = (Js.Normal r', w''))).
Proof.
  intros Hcf Hcc.
  assert (Hdb : set_db (create_concurrent c) w = w).
  { destruct w. unfold set_db. cbn. by rewrite Hcc. }
  split; [|split].
  - intros Hu. unfold createSnippet, try_catch, bind, user_findUnique_id.
    rewrite call_steady, Hu. reflexivity.
  - intros [u Hu] Hst.
    unfold createSnippet, try_catch, bind at 1, user_findUnique_id.
    rewrite call_steady, Hu. cbn [fmap option_fmap option_map].
    unfold bind, snippet_create. rewrite Hcf, Hdb.
    unfold storable_input in Hst. cbn [fresh_id]. rewrite Hst.
    do 2 eexists. split; [reflexivity|]. split; [reflexivity|]. split; reflexivity.
  - intros [u Hu] Hst Hfresh Hne.
    unfold createSnippet, try_catch, bind at 1, user_findUnique_id.
    rewrite call_steady, Hu. cbn [fmap option_fmap option_map].
    unfold bind, snippet_create. rewrite Hcf, Hdb.
    unfold storable_input in Hst. cbn [fresh_id]. rewrite Hst. cbn [negb].
    cbn [fresh_id db ids clock salts console]. rewrite Hu, Hfresh.
    rewrite bool_decide_eq_true_2 by eauto.
    rewrite bool_decide_eq_false_2 by (by intros [? ?]).
    cbn [negb]. unfold ret.
    do 2 eexists. split; [reflexivity|].
    cbn [id snippet author db set_db set_snippets snippets users].
    repeat (split; [reflexivity|]).
    match goal with
    | |- context [getSnippetById e ?k _ ?w1] =>
        pose proof (λ caller, SnippetServiceFacts.getSnippetById_found e Hreliable Hquiet
                                k _ caller w1 (lookup_insert_eq _ _ _)) as Hget
    end.
    cbv zeta in Hget. split.
    + rewrite Hget. cbn [Snippet.isPublic Snippet.authorId Js.truthy_opt].
      rewrite (AuthMiddlewareFacts.truthy_nonempty _ Hne).
      rewrite bool_decide_eq_true_2 by done.
      rewrite orb_true_r. cbn [negb].
      rewrite bool_decide_eq_false_2 by (intros H; by apply H).
      eexists. split; [reflexivity|]. split; reflexivity.
    + intros Hpub caller. rewrite Hget. cbn [Snippet.isPublic].
      assert (default true (CreateSnippetInput.isPublic snippetData) = true) as ->.
      { by destruct (CreateSnippetInput.isPublic snippetData) as [[]|]. }
      cbn [orb negb]. destruct (bool_decide _); do 2 eexists; reflexivity.
Qed.

End Calm.

(** *** Runs on the sample installation *)


Lemma getSnippetsWithPagination_negative_skip_is_500_witness :
  exists logged,
    getSnippetsWithPagination calm page_zero None library
    = (Js.Throw (Js.new_SnippetError "Erro interno ao buscar snippets" 500),
       World (db library) (clock library) (ids library) (salts library)
         (console library ++ [("Erro ao buscar snippets com paginação:", logged)])) /\
    Js.instanceof logged Js.SnippetError = false.
Proof.
  apply (getSnippetsWithPagination_negative_skip_is_500 calm
           SnippetServiceFacts.steady_reliable SnippetServiceFacts.steady_quiet
           page_zero None library).
  simpl. lia.
Defined.

Lemma deleteSnippet_then_not_found_witness :
  let w' := (deleteSnippet calm "s2" "ana" library).2 in
  snippets (db w') = delete "s2" (snippets (db library)) /\
  reviews (db w')
  = filter (λ kv, Review.snippetId kv.2 ≠ "s2") (reviews (db library)) /\
  users (db w') = users (db library) /\
  (forall caller : option string,
     getSnippetById calm "s2" caller w'
     = (Js.Throw (Js.new_SnippetError "Snippet não encontrado" 404), w')) /\
  (forall caller : string,
     deleteSnippet calm "s2" caller w'
     = (Js.Throw (Js.new_SnippetError "Snippet não encontrado" 404), w')).
Proof.
  apply (deleteSnippet_then_not_found calm SnippetServiceFacts.steady_reliable
           SnippetServiceFacts.steady_quiet "s2" "ana" library
           (deleteSnippet calm "s2" "ana" library).2 "Snippet deletado com sucesso").
  apply injective_projections; cbn [fst snd]; reflexivity.
Defined.

Lemma updateSnippet_changes_only_the_given_columns_witness :
  let s' := Snippet.Row "Hello, world" None "print 1" "python" [] true 0 0 200 5000 "ana" in
  let r := Result "s2" s' (author_of (db library) s') [] 0 in
  let w' := (updateSnippet calm "s2" retitle "ana" library).2 in
  exists s,
    snippets (db library) !! "s2" = Some s /\
    Snippet.authorId s = "ana" /\
    id r = "s2" /\
    snippets (db w') = <["s2" := snippet r]> (snippets (db library)) /\
    users (db w') = users (db library) /\
    reviews (db w') = reviews (db library) /\
    Snippet.authorId (snippet r) = Snippet.authorId s /\
    Snippet.views (snippet r) = Snippet.views s /\
    Snippet.likes (snippet r) = Snippet.likes s /\
    Snippet.createdAt (snippet r) = Snippet.createdAt s /\
    Snippet.updatedAt (snippet r) = clock library /\
    Snippet.title (snippet r) = default (Snippet.title s) (data_title retitle) /\
    Snippet.description (snippet r)
    = default (Snippet.description s) (data_description retitle) /\
    Snippet.content (snippet r) = default (Snippet.content s) (data_content retitle) /\
    Snippet.language (snippet r)
    = default (Snippet.language s) (data_language retitle) /\
    Snippet.tags (snippet r) = default (Snippet.tags s) (data_tags retitle) /\
    Snippet.isPublic (snippet r)
    = default (Snippet.isPublic s) (data_isPublic retitle).
Proof.
  apply (updateSnippet_changes_only_the_given_columns calm
           SnippetServiceFacts.steady_reliable SnippetServiceFacts.steady_quiet
           "s2" "ana" retitle library).
  apply injective_projections; cbn [fst snd]; reflexivity.
Defined.

Lemma getAllSnippets_lists_the_public_snippets_witness :
  exists l,
    getAllSnippets calm library = (Js.Normal l, library) /\
    (forall k s, (k, s) ∈ rows l <->
                 snippets (db library) !! k = Some s /\ Snippet.isPublic s = true) /\
    NoDup (rows l) /\
    Sorted (λ a b, Snippet.createdAt b.2 <= Snippet.createdAt a.2) (rows l).
Proof.
  apply (getAllSnippets_lists_the_public_snippets calm
           SnippetServiceFacts.steady_reliable SnippetServiceFacts.steady_quiet library).
Defined.


Lemma createSnippet_then_getSnippetById_witness :
  (users (db library) !! "ana" = None ->
   createSnippet calm ready gist "ana" library
   = (Js.Throw (Js.new_SnippetError "Autor não encontrado" 404), library)) /\
  (is_Some (users (db library) !! "ana") ->
   storable_input gist = false ->
   exists w' logged,
     createSnippet calm ready gist "ana" library
     = (Js.Throw (Js.new_SnippetError "Erro interno ao criar snippet" 500), w') /\
     console w' = console library ++ [("Erro ao criar snippet:", logged)] /\
     Js.instanceof logged Js.SnippetError = false /\
     db w' = db library) /\
  (is_Some (users (db library) !! "ana") ->
   storable_input gist = true ->
   snippets (db library) !! cuid calm (ids library) = None ->
   "ana" <> "" ->
   exists r w',
     createSnippet calm ready gist "ana" library = (Js.Normal r, w') /\
     id r = cuid calm (ids library) /\
     snippet r
     = Snippet.Row (CreateSnippetInput.title gist)
         (CreateSnippetInput.description gist)
         (CreateSnippetInput.content gist)
         (CreateSnippetInput.language gist)
         (default [] (CreateSnippetInput.tags gist))
         (default true (CreateSnippetInput.isPublic gist))
         0 0 (clock library) (clock library) "ana" /\
     snippets (db w') = <[id r := snippet r]> (snippets (db library)) /\
     users (db w') = users (db library) /\
     (exists r',
        getSnippetById calm (id r) (Some "ana") w' = (Js.Normal r', w') /\
        snippet r' = snippet r /\ author r' = author r) /\
     (CreateSnippetInput.isPublic gist <> Some false ->
      forall caller : option string,
        exists r' w'', getSnippetById calm (id r) caller w' = (Js.Normal r', w''))).
Proof.
  apply (createSnippet_then_getSnippetById calm SnippetServiceFacts.steady_reliable
           SnippetServiceFacts.steady_quiet ready gist "ana" library).
  - reflexivity.
  - intros d. reflexivity.
Defined.

(** A title with the code unit 0 is refused by the database. *)
Example createSnippet_unstorable_title :
  storable_input unstorable_gist = false /\
  (createSnippet calm ready unstorable_gist "ana" library).1
  = Js.Throw (Js.new_SnippetError "Erro interno ao criar snippet" 500) /\
  db (createSnippet calm ready unstorable_gist "ana" library).2 = db library.
Proof. split; [reflexivity|]. split; reflexivity. Qed.

End SnippetServiceMore.

(* ================================================================= *)
(** ** The validators of passwords, names and snippet ids             *)
(* ================================================================= *)

Module SchemaMore.
Import Zod ZodRest AuthSchemaRest SnippetController PasswordFormat SnippetIdFormat.

Lemma is_line_terminator_spec (c : ascii) :
  is_line_terminator c = true <-> line_terminator c.
Proof.
  unfold is_line_terminator, line_terminator.
  by rewrite orb_true_iff, !N.eqb_eq.
Qed.

Lemma dot_star_then_spec (cls : char_class) (s : string) :
  dot_star_then cls s = true <-> on_first_line (λ c, class_matches cls c = true) s.
Proof.
  unfold on_first_line. induction s as [|c r IH]; cbn [dot_star_then list_ascii_of_string].
  - split; [discriminate|]. intros (pre & x & post & H & _). by destruct pre.
  - rewrite orb_true_iff, andb_true_iff, negb_true_iff, IH. split.
    + intros [Hc | [Hnt (pre & x & post & Heq & Hx & Hpre)]].
      * exists [], c, (list_ascii_of_string r). split; [done|]. split; [done|]. constructor.
      * exists (c :: pre), x, post. split; [by rewrite Heq|]. split; [done|].
        constructor; [|done]. rewrite <- is_line_terminator_spec. by rewrite Hnt.
    + intros (pre & x & post & Heq & Hx & Hpre). destruct pre as [|p pre].
      * injection Heq as -> _. by left.
      * injection Heq as -> Heq. apply Forall_cons in Hpre as [Hp Hpre].
        right. split.
        -- destruct (is_line_terminator p) eqn:Hlt; [|done].
           by apply is_line_terminator_spec in Hlt.
        -- by exists pre, x, post.
Qed.

Lemma on_first_line_iff (P Q : ascii -> Prop) (s : string) :
  (forall c, P c <-> Q c) -> on_first_line P s <-> on_first_line Q s.
Proof.
  intros HPQ. unfold on_first_line.
  split; intros (pre & c & post & H1 & H2 & H3); exists pre, c, post;
    (split; [done|]); (split; [by apply HPQ | done]).
Qed.

Lemma class_lower (c : ascii) : class_matches [("a", "z")]%char c = true <-> lower c.
Proof.
  unfold class_matches, lower, Js.between, Js.code; simpl.
  rewrite orb_false_r, andb_true_iff, !N.leb_le. done.
Qed.

Lemma class_upper (c : ascii) : class_matches [("A", "Z")]%char c = true <-> upper c.
Proof.
  unfold class_matches, upper, Js.between, Js.code; simpl.
  rewrite orb_false_r, andb_true_iff, !N.leb_le. done.
Qed.

Lemma class_digit (c : ascii) : class_matches [("0", "9")]%char c = true <-> digit c.
Proof.
  unfold class_matches, digit, Js.between, Js.code; simpl.
  rewrite orb_false_r, andb_true_iff, !N.leb_le. done.
Qed.

Lemma lookaheads_password (s : string) :
  lookaheads_test [ [("a", "z")]; [("A", "Z")]; [("0", "9")] ]%char s = true <->
  on_first_line lower s /\ on_first_line upper s /\ on_first_line digit s.
Proof.
  unfold lookaheads_test. cbn [forallb].
  rewrite !andb_true_iff, !dot_star_then_spec.
  rewrite (on_first_line_iff _ _ s class_lower), (on_first_line_iff _ _ s class_upper),
    (on_first_line_iff _ _ s class_digit). tauto.
Qed.

(** The three checks of the password of a registration, evaluated. *)
Lemma parse_register_password_unfold (s : string) :
  parse_register_password (Js.VString s) =
  let issues :=
    (if (String.length s <? 6)%nat
     then [Issue ["password"] "Senha deve ter no mínimo 6 caracteres"] else []) ++
    (if (128 <? String.length s)%nat
     then [Issue ["password"] "Senha deve ter no máximo 128 caracteres"] else []) ++
    (if lookaheads_test [ [("a", "z")]; [("A", "Z")]; [("0", "9")] ]%char s
     then []
     else [Issue ["password"]
             "Senha deve conter pelo menos uma letra minúscula, uma maiúscula e um número"])
  in
  match issues with
  | [] => ParseSuccess s
  | _ => ParseFailure issues
  end.
Proof.
  unfold parse_register_password, parse_string, registerSchema_password, runChecks.
  cbn [fold_left run_check Zod.run_check].
  destruct (String.length s <? 6)%nat; cbn [run_check Zod.run_check app];
    (destruct (128 <? String.length s)%nat; cbn [run_check Zod.run_check app];
     (destruct (lookaheads_test _ s); reflexivity)).
Qed.

(** X20: the password of a registration is accepted exactly when it
    has 6 to 128 characters and a lower-case letter, an upper-case
    letter and a digit, each standing before any line break; an
    accepted password is passed on unchanged (neither trimmed nor
    lower-cased) and is also accepted by the validator of the login;
    any other string is refused with issues, all of them on the
    field ["password"]. *)
Theorem parse_register_password_accepts (s : string) :
  (password_ok s ->
   parse_register_password (Js.VString s) = ParseSuccess s /\
   parse_login_password (Js.VString s) = ParseSuccess s) /\
  (~ password_ok s ->
   exists issues,
     parse_register_password (Js.VString s) = ParseFailure issues /\
     issues <> [] /\
     Forall (λ i, issue_path i = ["password"]) issues).
Proof.
  rewrite parse_register_password_unfold. cbv zeta. unfold password_ok.
  rewrite <- lookaheads_password.
  destruct (Nat.ltb_spec (String.length s) 6) as [H6|H6];
    destruct (Nat.ltb_spec 128 (String.length s)) as [H128|H128];
    destruct (lookaheads_test _ s) eqn:Hl; cbn [app];
    (split; [ intros (Hlen & Hla); try lia; try discriminate Hla
            | intros Hn; try (eexists; split; [reflexivity|];
                              split; [discriminate | repeat constructor]) ]).
  - split; [reflexivity|].
    unfold parse_login_password, parse_string, loginSchema_password, runChecks.
    cbn [fold_left run_check Zod.run_check].
    destruct (Nat.ltb_spec (String.length s) 1); [lia | reflexivity].
  - exfalso. apply Hn. split; [lia | reflexivity].
Qed.

Lemma trimStart_spaces (s : string) :
  Forall (λ c, Js.is_space c = true) (list_ascii_of_string s) -> Js.trimStart s = "".
Proof.
  induction s as [|c r IH]; [done|]. cbn [list_ascii_of_string Js.trimStart].
  rewrite Forall_cons. intros [-> Hr]. by apply IH.
Qed.

(** X21: the fields [firstName] and [lastName] of [registerSchema],
    parsed once.  A name of 1 to 50 characters is accepted and
    trimmed; the length is checked before the trimming, so a name
    made of white space only passes the test "must not be empty" and
    comes out as the empty string.  The expression [|| null] of
    [registerUser] turns such a name into [null]; the schema itself,
    given its own result to parse again, refuses it.  Names of any
    other length are refused, and an absent name is accepted as
    absent. *)
Theorem parse_firstName_trims_after_checking (s : string) :
  parse_firstName None = ParseSuccess None /\
  ((1 <= String.length s <= 50)%nat ->
   parse_firstName (Some s) = ParseSuccess (Some (Js.trim s)) /\
   parse_lastName (Some s) = ParseSuccess (Some (Js.trim s)) /\
   (Forall (λ c, Js.is_space c = true) (list_ascii_of_string s) ->
    Js.trim s = "" /\ AuthService.or_null (Some (Js.trim s)) = None /\
    exists issues,
      parse_firstName (Some (Js.trim s)) = ParseFailure issues /\ issues <> [])) /\
  (~ (1 <= String.length s <= 50)%nat ->
   exists issues,
     parse_firstName (Some s) = ParseFailure issues /\ issues <> []).
Proof.
  split; [reflexivity|].
  assert (Hblank : exists issues,
             parse_firstName (Some "") = ParseFailure issues /\ issues <> []).
  { eexists. split; [reflexivity | discriminate]. }
  revert Hblank.
  unfold parse_firstName, parse_lastName, parse_optional_string, registerSchema_firstName,
    registerSchema_lastName, runChecks. intros Hblank.
  cbn [fold_left run_check Zod.run_check].
  destruct (Nat.ltb_spec (String.length s) 1) as [H1|H1];
    cbn [run_check Zod.run_check app];
    destruct (Nat.ltb_spec 50 (String.length s)) as [H50|H50];
    cbn [run_check Zod.run_check app];
    (split; [ intros Hlen; try lia
            | intros Hn; try (eexists; split; [reflexivity | discriminate]) ]).
  - split; [reflexivity|]. split; [reflexivity|]. intros Hsp.
    assert (Js.trim s = "") as ->.
    { unfold Js.trim. by rewrite trimStart_spaces. }
    split; [reflexivity|]. split; [reflexivity | exact Hblank].
  - exfalso. apply Hn. lia.
Qed.

Lemma class_id_char (c : ascii) :
  class_matches [("a", "z"); ("A", "Z"); ("0", "9"); ("_", "_"); ("-", "-")]%char c = true
  <-> id_char c.
Proof.
  unfold class_matches, id_char, UsernameFormat.word_char, Js.between, Js.code; simpl.
  rewrite !orb_true_iff, !andb_true_iff, !N.leb_le. lia.
Qed.

(** X22: the id of a snippet in the URL is accepted exactly when it
    is a non-empty string of letters, digits, underscores and
    hyphens; an accepted id is passed on unchanged. *)
Theorem safeParse_id_accepts (params : gmap string string) (v : string) :
  safeParse_id params = Some v <-> params !! "id" = Some v /\ id_ok v.
Proof.
  unfold safeParse_id, id_ok, snippetIdSchema_id, Zod.runChecks.
  destruct (params !! "id") as [s|]; [|split; [discriminate | by intros [? _]]].
  cbn [fold_left Zod.run_check].
  assert (Hre : regexp_test
                  (AnchoredPlus [("a", "z"); ("A", "Z"); ("0", "9"); ("_", "_");
                                 ("-", "-")]%char) s = true <-> id_ok s).
  { unfold regexp_test, id_ok. destruct s as [|c r].
    - cbn. split; [discriminate | by intros [? _]].
    - cbn [list_ascii_of_string]. rewrite forallb_forall, Forall_forall.
      split.
      + intros H. split; [discriminate|]. intros x Hx.
        apply class_id_char, H. by apply list_elem_of_In.
      + intros [_ H] x Hx. apply class_id_char, H. by apply list_elem_of_In. }
  unfold id_ok in Hre.
  destruct (Nat.ltb_spec (String.length s) 1) as [H1|H1]; cbn [Zod.run_check app].
  - destruct s; [|cbn in H1; lia].
    cbn. split; [discriminate | intros [[= <-] [? _]]; done].
  - destruct (regexp_test _ s); cbn [app].
    + split; [intros [= <-]; split; [done | by apply Hre] | by intros [[= <-] _]].
    + split; [discriminate|]. intros [[= <-] Hok]. apply Hre in Hok. discriminate.
Qed.

(** *** Some inputs *)

Example parse_register_password_ok :
  parse_register_password (Js.VString "Passw0rd") = ParseSuccess "Passw0rd".
Proof. reflexivity. Qed.

Example parse_register_password_no_digit :
  parse_register_password (Js.VString "Password")
  = ParseFailure
      [Issue ["password"]
         "Senha deve conter pelo menos uma letra minúscula, uma maiúscula e um número"].
Proof. reflexivity. Qed.

(** The digit stands after a line break: the look-ahead does not
    reach it. *)
Example parse_register_password_digit_on_second_line :
  parse_register_password (Js.VString ("Passw" +:+ String "010" "0rd"))
  = ParseFailure
      [Issue ["password"]
         "Senha deve conter pelo menos uma letra minúscula, uma maiúscula e um número"].
Proof. reflexivity. Qed.

Example parse_firstName_blank :
  parse_firstName (Some "   ") = ParseSuccess (Some "").
Proof. reflexivity. Qed.

Example safeParse_id_cuid :
  safeParse_id {["id" := "ckx3-f_9"]} = Some "ckx3-f_9".
Proof. reflexivity. Qed.

Example safeParse_id_slash :
  safeParse_id {["id" := "../etc"]} = None.
Proof. reflexivity. Qed.

End SchemaMore.

(* ================================================================= *)
(** ** The controllers                                                *)
(* ================================================================= *)

Module ControllerFacts.
Import Prisma PrismaClient Express Conditions Ownership Outcomes Sample Scenes
  AuthServiceFacts.

(** *** The listing controllers *)

Section Any.
Variable e : env.

Lemma getAllSnippets_throws (w w' : world) (err : Js.exn) :
  SnippetServiceRest.getAllSnippets e w = (Js.Throw err, w') ->
  Js.instanceof err Js.SnippetError = true.
Proof.
  unfold SnippetServiceRest.getAllSnippets, try_catch.
  match goal with |- context [bind ?m ?k w] => destruct (bind m k w) as [[a|x] w1] end;
    [discriminate|].
  unfold bind, console_error, throw. intros H.
  apply pair_equal_spec in H as [H _]. by injection H as <-.
Qed.

Lemma getSnippetsByUserId_throws (userId : string) (requesterId : option string)
    (w w' : world) (err : Js.exn) :
  SnippetServiceRest.getSnippetsByUserId e userId requesterId w = (Js.Throw err, w') ->
  Js.instanceof err Js.SnippetError = true.
Proof.
  unfold SnippetServiceRest.getSnippetsByUserId, try_catch.
  match goal with |- context [bind ?m ?k w] => destruct (bind m k w) as [[a|x] w1] end;
    [discriminate|].
  destruct (Js.instanceof x Js.SnippetError) eqn:Hx.
  - unfold throw. intros H. apply pair_equal_spec in H as [H _].
    injection H as <-. exact Hx.
  - unfold bind, console_error, throw. intros H.
    apply pair_equal_spec in H as [H _]. by injection H as <-.
Qed.

(** X27: the two listing controllers relay their service.  Whatever
    the store does, [GET /api/snippets] answers 200 with the list
    the service returned and its length as [count], or the status
    and message of the error the service threw; so does
    [GET /api/users/:userId/snippets], after answering 400 to a
    request without a user id.  Their own answer "Erro interno do
    servidor" is never given, and they log nothing themselves. *)
Theorem listing_controllers_relay_the_service (req : request) (w : world) :
  SnippetController.getAllSnippets e req w
  = relay (λ l, Response 200
                  (Json true None (Some "Snippets obtidos com sucesso")
                     (DataSnippets l (Z.of_nat (length l)))))
      (SnippetServiceRest.getAllSnippets e w) /\
  SnippetController.getUserSnippets e req w
  = if negb (Js.truthy_opt (params req !! "userId"))
    then (Js.Normal
            (Response 400 (Json false (Some "ID do usuário é obrigatório") None NoData)),
          w)
    else relay (λ l, Response 200
                       (Json true None (Some "Snippets do usuário obtidos com sucesso")
                          (DataSnippets l (Z.of_nat (length l)))))
           (SnippetServiceRest.getSnippetsByUserId e (default "" (params req !! "userId"))
              (user req) w).
Proof.
  split.
  - unfold SnippetController.getAllSnippets, try_catch, bind, relay.
    destruct (SnippetServiceRest.getAllSnippets e w) as [[l|err] w1] eqn:Hrun;
      [reflexivity|].
    by rewrite (getAllSnippets_throws _ _ _ Hrun).
  - unfold SnippetController.getUserSnippets, try_catch.
    destruct (negb (Js.truthy_opt (params req !! "userId"))); [reflexivity|].
    unfold bind, relay.
    destruct (SnippetServiceRest.getSnippetsByUserId e _ (user req) w)
      as [[l|err] w1] eqn:Hrun; [reflexivity|].
    by rewrite (getSnippetsByUserId_throws _ _ _ _ _ Hrun).
Qed.

End Any.

(** *** The controllers of one snippet and of the profile *)

Section Calm.
Variable e : env.
Hypothesis Hreliable : reliable e.
Hypothesis Hquiet : quiet e.

Lemma call_served {A} (o : op) (run : M A) (w : world) : call e o run w = run w.
Proof. exact (SnippetServiceFacts.call_run e Hreliable Hquiet o run w). Qed.

Lemma canAccess_caller (s : Snippet.t) (userId : option string) :
  userId <> Some "" ->
  Snippet.isPublic s ||
    (Js.truthy_opt userId && bool_decide (Some (Snippet.authorId s) = userId)) = true
  <-> canRead s userId.
Proof.
  intros Hne. unfold canRead.
  rewrite orb_true_iff, andb_true_iff, bool_decide_eq_true.
  split.
  - intros [H | [_ H]]; [by left | by right].
  - intros [H | ->]; [by left | right]. split; [|done].
    cbn. destruct (Snippet.authorId s); [by destruct Hne | done].
Qed.

(** X23: the answers of the controller [getSnippetById], for the
    request as the middleware in front of it hands it over, with or
    without the id of a user.  The id of the snippet is validated
    first: a malformed id is answered with 400 and the store is not
    read.  For a well-formed id the status follows the store and the
    ownership rule: 404 when no snippet has the id, 403 when the
    snippet is private and the caller is not its author; a caller
    who may read the snippet gets 200 with the snippet, except that
    anyone but the author gets 500 "Erro interno ao buscar snippet"
    once the view counter is full, since the view cannot be counted.
    Only the 200 case writes to the store (the view counter). *)
Theorem getSnippetById_controller_statuses (req : request) (w : world) :
  user req <> Some "" ->
  exists resp w',
    SnippetController.getSnippetById e req w = (Js.Normal resp, w') /\
    match SnippetController.safeParse_id (params req) with
    | None =>
        resp = Response 400 (Json false (Some "ID do snippet inválido") None NoData) /\
        w' = w
    | Some snippetId =>
        match snippets (db w) !! snippetId with
        | None =>
            resp = Response 404 (Json false (Some "Snippet não encontrado") None NoData) /\
            w' = w
        | Some s =>
            (canRead s (user req) ->
             user req = Some (Snippet.authorId s) \/ in_int4 (Snippet.views s + 1) = true ->
             exists r,
               resp = Response 200
                        (Json true None (Some "Snippet encontrado com sucesso")
                           (DataSnippet r)) /\
               id r = snippetId /\
               Snippet.content (snippet r) = Snippet.content s /\
               Snippet.authorId (snippet r) = Snippet.authorId s) /\
            (canRead s (user req) ->
             user req <> Some (Snippet.authorId s) ->
             in_int4 (Snippet.views s + 1) = false ->
             resp = Response 500
                      (Json false (Some "Erro interno ao buscar snippet") None NoData) /\
             db w' = db w) /\
            (~ canRead s (user req) ->
             resp = Response 403 (Json false (Some "Acesso negado ao snippet") None NoData) /\
             w' = w)
        end
    end.
Proof.
  intros Hne. unfold SnippetController.getSnippetById, try_catch, bind.
  destruct (SnippetController.safeParse_id (params req)) as [snippetId|];
    [|by do 2 eexists].
  destruct (snippets (db w) !! snippetId) as [s|] eqn:Hs.
  - rewrite (SnippetServiceFacts.getSnippetById_found e Hreliable Hquiet _ _ (user req) _ Hs).
    cbv zeta. pose proof (canAccess_caller s (user req) Hne) as Hiff.
    destruct (Snippet.isPublic s || _) eqn:Hacc; cbn [negb].
    + destruct (decide (user req = Some (Snippet.authorId s))) as [Hc | Hc].
      * rewrite bool_decide_eq_false_2 by (intros H; by apply H).
        do 2 eexists. split; [reflexivity|]. split; [|split].
        -- intros _ _. eexists. split; [reflexivity|]. by repeat split.
        -- intros _ Hn. by destruct Hn.
        -- intros Hn. exfalso. by apply Hn, Hiff.
      * rewrite bool_decide_eq_true_2 by done.
        destruct (in_int4 (Snippet.views s + 1)) eqn:Hin.
        -- do 2 eexists. split; [reflexivity|]. split; [|split].
           ++ intros _ _. eexists. split; [reflexivity|]. by repeat split.
           ++ intros _ _ Hf. discriminate Hf.
           ++ intros Hn. exfalso. by apply Hn, Hiff.
        -- do 2 eexists. split; [reflexivity|]. split; [|split].
           ++ intros _ [Hu | Hf]; [by destruct Hc | discriminate Hf].
           ++ intros _ _ _. split; reflexivity.
           ++ intros Hn. exfalso. by apply Hn, Hiff.
    + do 2 eexists. split; [reflexivity|]. split; [|split; [|done]].
      * intros Hr. apply Hiff in Hr. discriminate Hr.
      * intros Hr. apply Hiff in Hr. discriminate Hr.
  - unfold SnippetService.getSnippetById, try_catch, bind, snippet_findUnique_include.
    rewrite call_served, Hs. by do 2 eexists.
Qed.

(** X24: the answers of the controller [deleteSnippet] itself, in
    the order in which it makes its checks: 400 for a malformed id,
    even on a request without a user; 401 for a request without a
    user; 404 when no snippet has the id; 403 when the snippet is
    not the caller's; 200 otherwise.  Only the 200 case changes the
    store: the snippet is removed.  (On the route the middleware
    [authenticateJWT] stands in front of the controller and answers
    a request without a user itself, whatever its id: this is a
    property of the function, not of the route.) *)
Theorem deleteSnippet_controller_statuses (req : request) (w : world) :
  exists resp w',
    SnippetController.deleteSnippet e req w = (Js.Normal resp, w') /\
    match SnippetController.safeParse_id (params req), user req with
    | None, _ =>
        resp = Response 400 (Json false (Some "ID do snippet inválido") None NoData) /\
        w' = w
    | Some _, None =>
        resp = Response 401
                 (Json false (Some "Não autorizado") (Some "Usuário não autenticado")
                    NoData) /\
        w' = w
    | Some snippetId, Some caller =>
        match snippets (db w) !! snippetId with
        | None =>
            resp = Response 404 (Json false (Some "Snippet não encontrado") None NoData) /\
            w' = w
        | Some s =>
            (canWrite s caller ->
             resp = Response 200
                      (Json true None (Some "Snippet deletado com sucesso") DataNull) /\
             snippets (db w') = delete snippetId (snippets (db w))) /\
            (~ canWrite s caller ->
             resp = Response 403
                      (Json false
                         (Some "Você não tem permissão para deletar este snippet")
                         None NoData) /\
             w' = w)
        end
    end.
Proof.
  unfold SnippetController.deleteSnippet, try_catch, bind.
  destruct (SnippetController.safeParse_id (params req)) as [snippetId|];
    [|by do 2 eexists].
  destruct (user req) as [caller|]; [|by do 2 eexists].
  unfold SnippetService.deleteSnippet, try_catch, bind at 1, snippet_findUnique_authorId.
  rewrite call_served.
  destruct (snippets (db w) !! snippetId) as [s|] eqn:Hs; [|by do 2 eexists].
  cbn [fmap option_fmap option_map snd]. unfold canWrite.
  destruct (decide (Snippet.authorId s = caller)) as [Ha|Ha].
  - rewrite bool_decide_eq_false_2 by (intros Hn; by apply Hn).
    unfold bind, snippet_delete. rewrite call_served, Hs.
    do 2 eexists. split; [reflexivity|]. split; [done|].
    intros Hn. by destruct Hn.
  - rewrite bool_decide_eq_true_2 by done.
    do 2 eexists. split; [reflexivity|]. split; [|done].
    intros Hc. by destruct Ha.
Qed.


End Calm.

(** *** Runs on the sample installation *)

Lemma getSnippetById_controller_statuses_witness :
  exists resp w',
    SnippetController.getSnippetById calm (for_snippet "s4" None) w_viral
    = (Js.Normal resp, w') /\
    match SnippetController.safeParse_id (params (for_snippet "s4" None)) with
    | None =>
        resp = Response 400 (Json false (Some "ID do snippet inválido") None NoData) /\
        w' = w_viral
    | Some snippetId =>
        match snippets (db w_viral) !! snippetId with
        | None =>
            resp = Response 404 (Json false (Some "Snippet não encontrado") None NoData) /\
            w' = w_viral
        | Some s =>
            (canRead s (user (for_snippet "s4" None)) ->
             user (for_snippet "s4" None) = Some (Snippet.authorId s) \/
             in_int4 (Snippet.views s + 1) = true ->
             exists r,
               resp = Response 200
                        (Json true None (Some "Snippet encontrado com sucesso")
                           (DataSnippet r)) /\
               id r = snippetId /\
               Snippet.content (snippet r) = Snippet.content s /\
               Snippet.authorId (snippet r) = Snippet.authorId s) /\
            (canRead s (user (for_snippet "s4" None)) ->
             user (for_snippet "s4" None) <> Some (Snippet.authorId s) ->
             in_int4 (Snippet.views s + 1) = false ->
             resp = Response 500
                      (Json false (Some "Erro interno ao buscar snippet") None NoData) /\
             db w' = db w_viral) /\
            (~ canRead s (user (for_snippet "s4" None)) ->
             resp = Response 403 (Json false (Some "Acesso negado ao snippet") None NoData) /\
             w' = w_viral)
        end
    end.
Proof.
  apply (getSnippetById_controller_statuses calm SnippetServiceFacts.steady_reliable
           SnippetServiceFacts.steady_quiet (for_snippet "s4" None) w_viral).
  simpl. discriminate.
Defined.

Lemma deleteSnippet_controller_statuses_witness :
  exists resp w',
    SnippetController.deleteSnippet calm (for_snippet "s3" (Some "bia")) library
    = (Js.Normal resp, w') /\
    match SnippetController.safeParse_id (params (for_snippet "s3" (Some "bia"))),
          user (for_snippet "s3" (Some "bia")) with
    | None, _ =>
        resp = Response 400 (Json false (Some "ID do snippet inválido") None NoData) /\
        w' = library
    | Some _, None =>
        resp = Response 401
                 (Json false (Some "Não autorizado") (Some "Usuário não autenticado")
                    NoData) /\
        w' = library
    | Some snippetId, Some caller =>
        match snippets (db library) !! snippetId with
        | None =>
            resp = Response 404 (Json false (Some "Snippet não encontrado") None NoData) /\
            w' = library
        | Some s =>
            (canWrite s caller ->
             resp = Response 200
                      (Json true None (Some "Snippet deletado com sucesso") DataNull) /\
             snippets (db w') = delete snippetId (snippets (db library))) /\
            (~ canWrite s caller ->
             resp = Response 403
                      (Json false
                         (Some "Você não tem permissão para deletar este snippet")
                         None NoData) /\
             w' = library)
        end
    end.
Proof.
  apply (deleteSnippet_controller_statuses calm SnippetServiceFacts.steady_reliable
           SnippetServiceFacts.steady_quiet (for_snippet "s3" (Some "bia")) library).
Defined.


(** The route on a token whose decoding throws. *)
Example profile_route_decoding_throws :
  AuthController.profile_route_with calm
    (λ _ _, Js.Throw (Js.Exn Js.SyntaxError "Unexpected token in JSON" None None))
    (AuthMiddleware.Request (Some "Bearer e30.e30.x") None) w_alice
  = (Js.Normal
       (Response 500
          (Json false (Some "Erro interno do servidor")
             (Some "Erro durante autenticação") NoData)), w_alice).
Proof. reflexivity. Qed.

Example getSnippetById_controller_public :
  (SnippetController.getSnippetById calm (for_snippet "s2" None) library).1
  = Js.Normal
      (Response 200
         (Json true None (Some "Snippet encontrado com sucesso")
            (DataSnippet
               (Result "s2"
                  (Snippet.Row "Hello" None "print 1" "python" [] true 1 0 200 200 "ana")
                  (author_of (db library) hello) [] 0)))).
Proof. reflexivity. Qed.

Example getSnippetById_controller_bad_id :
  SnippetController.getSnippetById calm (for_snippet "s 2" None) library
  = (Js.Normal (Response 400 (Json false (Some "ID do snippet inválido") None NoData)),
     library).
Proof. reflexivity. Qed.

Example deleteSnippet_controller_bad_id_before_401 :
  SnippetController.deleteSnippet calm (for_snippet "" None) library
  = (Js.Normal (Response 400 (Json false (Some "ID do snippet inválido") None NoData)),
     library).
Proof. reflexivity. Qed.

Example getUserSnippets_controller_unknown_user :
  SnippetController.getUserSnippets calm
    (Express.Request {["userId" := "zoe"]} None) library
  = (Js.Normal (Response 404 (Json false (Some "Usuário não encontrado") None NoData)),
     library).
Proof. reflexivity. Qed.

Example profile_route_without_header :
  AuthController.profile_route calm demo_codec "s3cret"
    (AuthMiddleware.Request None None) w_alice
  = (Js.Normal
       (Response 401
          (Json false (Some "Token de acesso necessário")
             (Some "Authorization header não fornecido") NoData)), w_alice).
Proof. reflexivity. Qed.

End ControllerFacts.
